(** * github-enterprise-mcp: dispatcher, validation, adapter and commit engine

    A shallow embedding of the TypeScript sources
      src/utils/error-handling.ts, src/utils/validation.ts,
      src/utils/github-api.ts, src/tools/files.ts and src/server.ts
    together with the properties the design document states about them.

    JavaScript strings are sequences of UTF-16 code units and are modelled
    as lists of integers; [js "..."] writes an ASCII literal. *)

From Stdlib Require Import ZArith List String Ascii Bool Lia QArith FunInd DecimalString.
From Stdlib Require Import SpecFloat.
From stdpp Require Import base option list gmap.

Set Warnings "-register-all".
Local Open Scope Z_scope.
Local Open Scope list_scope.

(** ** JavaScript strings *)

Definition JsString : Type := list Z.

Definition js (s : string) : JsString :=
  List.map (fun a => Z.of_N (N_of_ascii a)) (list_ascii_of_string s).

(** A JSON text written with apostrophes in place of double quotes. *)
Definition jsonText (s : string) : JsString :=
  List.map (fun c => if c =? 39 then 34 else c) (js s).

(** ** Node's [Buffer], as far as error-handling.ts uses it

    [Buffer.from(s, 'utf-8')] encodes the code points of [s] (a lone
    surrogate is read as U+FFFD), [buf.toString('base64')] is RFC 4648
    with padding, [Buffer.from(t, 'base64')] reads each code unit of [t]
    by its low byte, skips every character outside the alphabet and stops
    at the first [=], and [buf.toString('utf-8')] decodes with U+FFFD for
    each ill-formed maximal subpart. *)
Module Buffer.

Definition isHighSurrogate (u : Z) : bool := (0xD800 <=? u) && (u <=? 0xDBFF).
Definition isLowSurrogate (u : Z) : bool := (0xDC00 <=? u) && (u <=? 0xDFFF).

(** The code points of a string, the way an encoder walks it. *)
Function codePoints (s : JsString) : list Z :=
  match s with
  | [] => []
  | u :: rest =>
      if isHighSurrogate u then
        match rest with
        | [] => [0xFFFD]
        | v :: rest' =>
            if isLowSurrogate v
            then (0x10000 + (u - 0xD800) * 0x400 + (v - 0xDC00)) :: codePoints rest'
            else 0xFFFD :: codePoints rest
        end
      else if isLowSurrogate u then 0xFFFD :: codePoints rest
      else u :: codePoints rest
  end.

(** [String.prototype.isWellFormed]: no lone surrogate. *)
Function isWellFormed (s : JsString) : bool :=
  match s with
  | [] => true
  | u :: rest =>
      if isHighSurrogate u then
        match rest with
        | [] => false
        | v :: rest' => if isLowSurrogate v then isWellFormed rest' else false
        end
      else if isLowSurrogate u then false
      else isWellFormed rest
  end.

Definition utf8EncodeCodePoint (cp : Z) : list Z :=
  if cp <? 0x80 then [cp]
  else if cp <? 0x800 then [0xC0 + cp / 64; 0x80 + cp mod 64]
  else if cp <? 0x10000 then
    [0xE0 + cp / 4096; 0x80 + (cp / 64) mod 64; 0x80 + cp mod 64]
  else
    [0xF0 + cp / 262144; 0x80 + (cp / 4096) mod 64;
     0x80 + (cp / 64) mod 64; 0x80 + cp mod 64].

(** [Buffer.from(s, 'utf-8')] *)
Definition fromUtf8 (s : JsString) : list Z :=
  List.concat (List.map utf8EncodeCodePoint (codePoints s)).

Definition isCont (b : Z) : bool := (0x80 <=? b) && (b <=? 0xBF).

(** Range of the second byte allowed after lead byte [b0]
    (Unicode table 3-7). *)
Definition secondOk (b0 b1 : Z) : bool :=
  if b0 =? 0xE0 then (0xA0 <=? b1) && (b1 <=? 0xBF)
  else if b0 =? 0xED then (0x80 <=? b1) && (b1 <=? 0x9F)
  else if b0 =? 0xF0 then (0x90 <=? b1) && (b1 <=? 0xBF)
  else if b0 =? 0xF4 then (0x80 <=? b1) && (b1 <=? 0x8F)
  else isCont b1.

Fixpoint utf8Decode (bs : list Z) : list Z :=
  match bs with
  | [] => []
  | b0 :: t0 =>
      if b0 <? 0x80 then b0 :: utf8Decode t0
      else if (0xC2 <=? b0) && (b0 <=? 0xDF) then
        match t0 with
        | b1 :: t1 =>
            if isCont b1
            then ((b0 - 0xC0) * 64 + (b1 - 0x80)) :: utf8Decode t1
            else 0xFFFD :: utf8Decode t0
        | [] => [0xFFFD]
        end
      else if (0xE0 <=? b0) && (b0 <=? 0xEF) then
        match t0 with
        | b1 :: t1 =>
            if secondOk b0 b1 then
              match t1 with
              | b2 :: t2 =>
                  if isCont b2
                  then ((b0 - 0xE0) * 4096 + (b1 - 0x80) * 64 + (b2 - 0x80))
                         :: utf8Decode t2
                  else 0xFFFD :: utf8Decode t1
              | [] => [0xFFFD]
              end
            else 0xFFFD :: utf8Decode t0
        | [] => [0xFFFD]
        end
      else if (0xF0 <=? b0) && (b0 <=? 0xF4) then
        match t0 with
        | b1 :: t1 =>
            if secondOk b0 b1 then
              match t1 with
              | b2 :: t2 =>
                  if isCont b2 then
                    match t2 with
                    | b3 :: t3 =>
                        if isCont b3
                        then ((b0 - 0xF0) * 262144 + (b1 - 0x80) * 4096
                              + (b2 - 0x80) * 64 + (b3 - 0x80)) :: utf8Decode t3
                        else 0xFFFD :: utf8Decode t2
                    | [] => [0xFFFD]
                    end
                  else 0xFFFD :: utf8Decode t1
              | [] => [0xFFFD]
              end
            else 0xFFFD :: utf8Decode t0
        | [] => [0xFFFD]
        end
      else 0xFFFD :: utf8Decode t0
  end.

Definition utf16EncodeCodePoint (cp : Z) : JsString :=
  if cp <? 0x10000 then [cp]
  else [0xD800 + (cp - 0x10000) / 0x400; 0xDC00 + (cp - 0x10000) mod 0x400].

(** [buf.toString('utf-8')] *)
Definition toUtf8String (bs : list Z) : JsString :=
  List.concat (List.map utf16EncodeCodePoint (utf8Decode bs)).

Definition base64Char (i : Z) : Z :=
  if i <? 26 then 65 + i
  else if i <? 52 then 97 + (i - 26)
  else if i <? 62 then 48 + (i - 52)
  else if i =? 62 then 43
  else 47.

(** [buf.toString('base64')] *)
Fixpoint toBase64String (bs : list Z) : JsString :=
  match bs with
  | [] => []
  | a :: t0 =>
      match t0 with
      | [] => [base64Char (a / 4); base64Char ((a mod 4) * 16); 61; 61]
      | b :: t1 =>
          match t1 with
          | [] => [base64Char (a / 4); base64Char ((a mod 4) * 16 + b / 16);
                   base64Char ((b mod 16) * 4); 61]
          | c :: t2 =>
              base64Char (a / 4) :: base64Char ((a mod 4) * 16 + b / 16)
                :: base64Char ((b mod 16) * 4 + c / 64) :: base64Char (c mod 64)
                :: toBase64String t2
          end
      end
  end.

(** Value of a base64 (or base64url) character, [None] for any other. *)
Definition unbase64 (c : Z) : option Z :=
  if (65 <=? c) && (c <=? 90) then Some (c - 65)
  else if (97 <=? c) && (c <=? 122) then Some (c - 97 + 26)
  else if (48 <=? c) && (c <=? 57) then Some (c - 48 + 52)
  else if (c =? 43) || (c =? 45) then Some 62
  else if (c =? 47) || (c =? 95) then Some 63
  else None.

(** The decoder's walk over the text.  It takes each code unit as a
    byte ([static_cast<uint8_t>]), so a unit above 255 counts as the
    character of its low byte. *)
Fixpoint sextets (s : JsString) : list Z :=
  match s with
  | [] => []
  | u :: rest =>
      let c := u mod 256 in
      if c =? 61 then []
      else match unbase64 c with
           | Some v => v :: sextets rest
           | None => sextets rest
           end
  end.

Fixpoint unpack (vs : list Z) : list Z :=
  match vs with
  | [] => []
  | a :: t0 =>
      match t0 with
      | [] => []
      | b :: t1 =>
          match t1 with
          | [] => [a * 4 + b / 16]
          | c :: t2 =>
              match t2 with
              | [] => [a * 4 + b / 16; (b mod 16) * 16 + c / 4]
              | d :: t3 =>
                  (a * 4 + b / 16) :: ((b mod 16) * 16 + c / 4)
                    :: ((c mod 4) * 64 + d) :: unpack t3
              end
          end
      end
  end.

(** [Buffer.from(t, 'base64')] *)
Definition fromBase64 (t : JsString) : list Z := unpack (sextets t).

End Buffer.

(** ** JavaScript values and errors *)

(** Values that travel through the dispatcher: JSON data plus [undefined].
    A finite number is kept as the rational it denotes and the two
    infinities are values of their own; [NaN] is not a value here (no JSON
    text denotes it) and the sign of zero is not kept.  An object is the
    list of its own properties in the order JavaScript enumerates them. *)
Inductive JsVal : Type :=
| JUndefined
| JNull
| JBool (b : bool)
| JNum (q : Q)
| JStr (s : JsString)
| JArr (items : list JsVal)
| JObj (props : list (JsString * JsVal))
| JInfinity (negative : bool).

Definition eqbStr (a b : JsString) : bool := bool_decide (a = b).

(** [o[k]] on the property list of an object. *)
Fixpoint getProp (props : list (JsString * JsVal)) (k : JsString) : JsVal :=
  match props with
  | [] => JUndefined
  | (k', v) :: rest => if eqbStr k' k then v else getProp rest k
  end.

(** [k in o] *)
Definition hasProp (props : list (JsString * JsVal)) (k : JsString) : bool :=
  existsb (fun kv => eqbStr (fst kv) k) props.

(** [o[k] = v]: overwrite in place or append. *)
Fixpoint setProp (props : list (JsString * JsVal)) (k : JsString) (v : JsVal)
  : list (JsString * JsVal) :=
  match props with
  | [] => [(k, v)]
  | (k', v') :: rest =>
      if eqbStr k' k then (k', v) :: rest else (k', v') :: setProp rest k v
  end.

(** types.js: [ErrorCode] *)
Inductive ErrorCode : Type :=
| ParseError | InvalidRequest | MethodNotFound | InvalidParams | InternalError
| ConfigurationError | Unauthorized | Forbidden | NotFound.

Definition errorCodeValue (c : ErrorCode) : Z :=
  match c with
  | ParseError => -32700
  | InvalidRequest => -32600
  | MethodNotFound => -32601
  | InvalidParams => -32602
  | InternalError => -32603
  | ConfigurationError => -32000
  | Unauthorized => -32001
  | Forbidden => -32003
  | NotFound => -32004
  end.

Inductive ZodIssueCode : Type :=
| invalid_type | too_small | too_big | invalid_enum_value | invalid_union | custom.

Inductive PathElem : Type :=
| PKey (k : JsString)
| PIndex (i : nat).

Record ZodIssue : Type := mkIssue {
  issue_code : ZodIssueCode;
  issue_path : list PathElem;
  issue_message : JsString
}.

(** What a [throw] can carry.  [McpError] is the classified error of
    types.js; [ZodError] is what [Schema.parse] throws; [OtherError] is any
    other [Error] object, with the three properties the adapter reads from
    it ([status], [message], [response.data.message]).  Octokit's
    [RequestError] is an [OtherError] with a status. *)
Inductive JsError : Type :=
| McpError (code : ErrorCode) (message : JsString)
| ZodError (issues : list ZodIssue) (message : JsString)
| OtherError (status : option Z) (message : JsString)
             (responseMessage : option JsString).

(** [error instanceof McpError] *)
Definition isMcpError (e : JsError) : bool :=
  match e with McpError _ _ => true | _ => false end.

(** [error.message] *)
Definition messageOf (e : JsError) : JsString :=
  match e with
  | McpError _ m => m
  | ZodError _ m => m
  | OtherError _ m _ => m
  end.

(** [error.status] ([undefined] unless the error object has one) *)
Definition statusOf (e : JsError) : option Z :=
  match e with
  | OtherError st _ _ => st
  | _ => None
  end.

(** [error.response?.data?.message] *)
Definition responseMessageOf (e : JsError) : option JsString :=
  match e with
  | OtherError _ _ r => r
  | _ => None
  end.

(** ** [JSON.parse]

    The reader the dispatcher applies to a textual argument bag: the JSON
    grammar of ECMA-404.  A number literal is read as the double nearest
    to it, and the members of an object are kept in the order JavaScript
    enumerates own properties.  [fuel] bounds the nesting depth plus the
    number of members read and is set from the length of the text, so
    that a [None] answer means a syntax error. *)
Module JSON.

Definition isWhitespace (c : Z) : bool :=
  (c =? 32) || (c =? 9) || (c =? 10) || (c =? 13).

Fixpoint skipWhitespace (s : JsString) : JsString :=
  match s with
  | c :: rest => if isWhitespace c then skipWhitespace rest else s
  | [] => []
  end.

Fixpoint expect (word s : JsString) : option JsString :=
  match word, s with
  | [], _ => Some s
  | w :: word', c :: rest => if w =? c then expect word' rest else None
  | _ :: _, [] => None
  end.

Definition isDigit (c : Z) : bool := (48 <=? c) && (c <=? 57).

(** Reads a run of digits: its value after [acc], how many, the rest. *)
Fixpoint digits (s : JsString) (acc : Z) (n : nat) : Z * nat * JsString :=
  match s with
  | c :: rest =>
      if isDigit c then digits rest (acc * 10 + (c - 48)) (S n) else (acc, n, s)
  | [] => (acc, n, [])
  end.

Definition hexValue (c : Z) : option Z :=
  if isDigit c then Some (c - 48)
  else if (97 <=? c) && (c <=? 102) then Some (c - 97 + 10)
  else if (65 <=? c) && (c <=? 70) then Some (c - 65 + 10)
  else None.

Definition escapeChar (e : Z) : option Z :=
  if e =? 34 then Some 34            (* quote *)
  else if e =? 92 then Some 92       (* backslash *)
  else if e =? 47 then Some 47       (* slash *)
  else if e =? 98 then Some 8        (* b: backspace *)
  else if e =? 102 then Some 12      (* f: form feed *)
  else if e =? 110 then Some 10      (* n: line feed *)
  else if e =? 114 then Some 13      (* r: carriage return *)
  else if e =? 116 then Some 9       (* t: tab *)
  else None.

(** The characters after an opening quote, up to the closing one. *)
Fixpoint stringBody (s : JsString) (acc : JsString) : option (JsString * JsString) :=
  match s with
  | [] => None
  | c :: rest =>
      if c =? 34 then Some (rev acc, rest)
      else if c <? 32 then None
      else if c =? 92 then
        match rest with
        | [] => None
        | e :: r0 =>
            if e =? 117 then
              match r0 with
              | h1 :: r1 =>
                  match r1 with
                  | h2 :: r2 =>
                      match r2 with
                      | h3 :: r3 =>
                          match r3 with
                          | h4 :: r4 =>
                              match hexValue h1, hexValue h2, hexValue h3, hexValue h4 with
                              | Some a, Some b, Some c', Some d =>
                                  stringBody r4 ((((a * 16 + b) * 16 + c') * 16 + d) :: acc)
                              | _, _, _, _ => None
                              end
                          | [] => None
                          end
                      | [] => None
                      end
                  | [] => None
                  end
              | [] => None
              end
            else
              match escapeChar e with
              | Some c' => stringBody r0 (c' :: acc)
              | None => None
              end
        end
      else stringBody rest (c :: acc)
  end.

(** The Number value of a decimal literal: the double nearest to
    [digits * 10 ^ exponent], ties to even, an infinity past the largest
    double (binary64: 53 bits of precision, exponents below 1024). *)
Definition toDouble (negative : bool) (digits exponent : Z) : spec_float :=
  match digits with
  | Zpos d =>
      match exponent with
      | Zneg _ =>
          SFdiv 53 1024 (S754_finite negative d 0)
            (S754_finite false (Z.to_pos (10 ^ (- exponent))) 0)
      | _ => binary_round 53 1024 negative (Z.to_pos (digits * 10 ^ exponent)) 0
      end
  | _ => S754_zero negative
  end.

Definition ofDouble (x : spec_float) : JsVal :=
  match x with
  | S754_finite negative m e =>
      let magnitude := (inject_Z (Zpos m) * Qpower 2 e)%Q in
      JNum (Qred (if negative then (- magnitude)%Q else magnitude))
  | S754_infinity negative => JInfinity negative
  | _ => JNum 0
  end.

(** [-? int frac? exp?] *)
Definition number (s : JsString) : option (JsVal * JsString) :=
  let '(negative, s1) :=
    match s with
    | 45 :: rest => (true, rest)
    | _ => (false, s)
    end in
  let intPart :=
    match s1 with
    | d :: rest =>
        if d =? 48 then Some (0, rest)
        else if isDigit d then let '(v, _, r) := digits s1 0 0 in Some (v, r)
        else None
    | [] => None
    end in
  match intPart with
  | None => None
  | Some (i, s2) =>
      let fracPart :=
        match s2 with
        | 46 :: rest =>
            let '(f, k, r) := digits rest 0 0 in
            match k with O => None | _ => Some (f, k, r) end
        | _ => Some (0, O, s2)
        end in
      match fracPart with
      | None => None
      | Some (f, k, s3) =>
          let expPart :=
            match s3 with
            | e :: rest =>
                if (e =? 101) || (e =? 69) then
                  let '(expNegative, r0) :=
                    match rest with
                    | 45 :: r => (true, r)
                    | 43 :: r => (false, r)
                    | _ => (false, rest)
                    end in
                  let '(x, n, r) := digits r0 0 0 in
                  match n with
                  | O => None
                  | _ => Some (if expNegative then - x else x, r)
                  end
                else Some (0, s3)
            | [] => Some (0, s3)
            end in
          match expPart with
          | None => None
          | Some (x, s4) =>
              let allDigits := i * 10 ^ Z.of_nat k + f in
              Some (ofDouble (toDouble negative allDigits (x - Z.of_nat k)), s4)
          end
      end
  end.

(** The number a key denotes when it is an array index: the decimal
    numeral, without sign or leading zero, of an integer below 2^32 - 1. *)
Definition arrayIndex (k : JsString) : option Z :=
  match k with
  | [] => None
  | [48] => Some 0
  | d :: rest =>
      if (49 <=? d) && (d <=? 57) && forallb isDigit rest
         && (List.length k <=? 10)%nat
      then
        let '(v, _, _) := digits k 0 0 in
        if v <=? 4294967294 then Some v else None
      else None
  end.

(** Where a new property goes among the own properties of an object:
    array indices come first, in ascending order, then the other keys in
    the order of their creation. *)
Fixpoint insertIndex (props : list (JsString * JsVal)) (i : Z) (k : JsString)
    (v : JsVal) : list (JsString * JsVal) :=
  match props with
  | [] => [(k, v)]
  | (k', v') :: rest =>
      match arrayIndex k' with
      | Some j => if i <? j then (k, v) :: props else (k', v') :: insertIndex rest i k v
      | None => (k, v) :: props
      end
  end.

(** A member read by the parser: a key read before keeps its place and
    takes the new value. *)
Definition defineProp (props : list (JsString * JsVal)) (k : JsString) (v : JsVal)
  : list (JsString * JsVal) :=
  if hasProp props k then setProp props k v
  else match arrayIndex k with
       | Some i => insertIndex props i k v
       | None => props ++ [(k, v)]
       end.

Fixpoint value (fuel : nat) (s : JsString) {struct fuel} : option (JsVal * JsString) :=
  match fuel with
  | O => None
  | S fuel' =>
      match skipWhitespace s with
      | [] => None
      | c :: rest =>
          if c =? 110 then
            match expect (js "ull") rest with Some r => Some (JNull, r) | None => None end
          else if c =? 116 then
            match expect (js "rue") rest with Some r => Some (JBool true, r) | None => None end
          else if c =? 102 then
            match expect (js "alse") rest with Some r => Some (JBool false, r) | None => None end
          else if c =? 34 then
            match stringBody rest [] with
            | Some (str, r) => Some (JStr str, r)
            | None => None
            end
          else if c =? 91 then
            match skipWhitespace rest with
            | 93 :: r => Some (JArr [], r)
            | _ => elements fuel' rest []
            end
          else if c =? 123 then
            match skipWhitespace rest with
            | 125 :: r => Some (JObj [], r)
            | _ => members fuel' rest []
            end
          else
            number (c :: rest)
      end
  end
with elements (fuel : nat) (s : JsString) (acc : list JsVal) {struct fuel}
  : option (JsVal * JsString) :=
  match fuel with
  | O => None
  | S fuel' =>
      match value fuel' s with
      | None => None
      | Some (v, r) =>
          match skipWhitespace r with
          | 44 :: r' => elements fuel' r' (v :: acc)
          | 93 :: r' => Some (JArr (rev (v :: acc)), r')
          | _ => None
          end
      end
  end
with members (fuel : nat) (s : JsString) (acc : list (JsString * JsVal)) {struct fuel}
  : option (JsVal * JsString) :=
  match fuel with
  | O => None
  | S fuel' =>
      match skipWhitespace s with
      | 34 :: r0 =>
          match stringBody r0 [] with
          | None => None
          | Some (k, r1) =>
              match skipWhitespace r1 with
              | 58 :: r2 =>
                  match value fuel' r2 with
                  | None => None
                  | Some (v, r3) =>
                      match skipWhitespace r3 with
                      | 44 :: r4 => members fuel' r4 (defineProp acc k v)
                      | 125 :: r4 => Some (JObj (defineProp acc k v), r4)
                      | _ => None
                      end
                  end
              | _ => None
              end
          end
      | _ => None
      end
  end.

(** [JSON.parse(text)]: the value, or [None] for a [SyntaxError]. *)
Definition parse (text : JsString) : option JsVal :=
  match value (2 * List.length text + 2) text with
  | Some (v, rest) =>
      match skipWhitespace rest with
      | [] => Some v
      | _ :: _ => None
      end
  | None => None
  end.

(** The message of the [SyntaxError].  Its wording belongs to the engine
    and changes from one version to the next; this text stands for it,
    and the statements below name it only through this definition. *)
Definition syntaxErrorMessage (text : JsString) : JsString :=
  js "Unexpected token in JSON".

End JSON.

(** ** zod, as far as validation.ts uses it

    [z.object] schemas built without [.strict()] or [.passthrough()] are in
    zod's default mode for unknown keys, which strips them: the parsed
    object holds the keys of the shape only. *)
Module Zod.

Inductive NumberCheck : Type :=
| IsInt
| Min (bound : Z) (inclusive : bool)
| Max (bound : Z) (inclusive : bool).

Inductive Schema : Type :=
| ZString (minLength : option (nat * JsString))
| ZNumber (checks : list NumberCheck)
| ZBoolean
| ZEnum (values : list JsString)
| ZArray (element : Schema) (minLength : option (nat * JsString))
| ZObject (shape : list (JsString * Schema))
| ZOptional (inner : Schema)
| ZUnion (first second : Schema)
| ZRecord (valueType : Schema)
| ZRefine (inner : Schema) (check : JsVal -> bool) (message : JsString).

(** [.min(n, message)] on strings and arrays *)
Definition min (s : Schema) (n : nat) (message : JsString) : Schema :=
  match s with
  | ZString _ => ZString (Some (n, message))
  | ZArray e _ => ZArray e (Some (n, message))
  | _ => s
  end.

Definition addCheck (s : Schema) (c : NumberCheck) : Schema :=
  match s with
  | ZNumber cs => ZNumber (cs ++ [c])
  | _ => s
  end.

Definition string : Schema := ZString None.
Definition number : Schema := ZNumber [].
Definition boolean : Schema := ZBoolean.
Definition array (e : Schema) : Schema := ZArray e None.
Definition object (shape : list (JsString * Schema)) : Schema := ZObject shape.
Definition optional (s : Schema) : Schema := ZOptional s.
Definition int (s : Schema) : Schema := addCheck s IsInt.
Definition positive (s : Schema) : Schema := addCheck s (Min 0 false).
Definition numMin (s : Schema) (n : Z) : Schema := addCheck s (Min n true).
Definition numMax (s : Schema) (n : Z) : Schema := addCheck s (Max n true).

Fixpoint setShape (shape : list (JsString * Schema)) (k : JsString) (s : Schema)
  : list (JsString * Schema) :=
  match shape with
  | [] => [(k, s)]
  | (k', s') :: rest =>
      if eqbStr k' k then (k', s) :: rest else (k', s') :: setShape rest k s
  end.

(** [base.extend({...})] *)
Definition extend (base : Schema) (more : list (JsString * Schema)) : Schema :=
  match base with
  | ZObject shape =>
      ZObject (fold_left (fun acc kv => setShape acc (fst kv) (snd kv)) more shape)
  | _ => base
  end.

(** zod's name for the type of a value *)
Definition parsedType (v : JsVal) : JsString :=
  match v with
  | JUndefined => js "undefined"
  | JNull => js "null"
  | JBool _ => js "boolean"
  | JNum _ | JInfinity _ => js "number"
  | JStr _ => js "string"
  | JArr _ => js "array"
  | JObj _ => js "object"
  end.

Definition invalidType (expected : JsString) (path : list PathElem) (v : JsVal)
  : ZodIssue :=
  mkIssue invalid_type path
    match v with
    | JUndefined => js "Required"
    | _ => js "Expected " ++ expected ++ js ", received " ++ parsedType v
    end.

Definition showZ (n : Z) : JsString :=
  js (DecimalString.NilZero.string_of_int (Z.to_int n)).

Definition isInteger (q : Q) : bool := (Qnum q mod Z.pos (Qden q)) =? 0.
Definition qlt (a b : Q) : bool := negb (Qle_bool b a).

Definition runCheck (path : list PathElem) (q : Q) (c : NumberCheck)
  : list ZodIssue :=
  match c with
  | IsInt =>
      if isInteger q then []
      else [mkIssue invalid_type path (js "Expected integer, received float")]
  | Min b inclusive =>
      if (if inclusive then qlt q (inject_Z b) else Qle_bool q (inject_Z b))
      then [mkIssue too_small path
              (js "Number must be greater than "
               ++ (if inclusive then js "or equal to " else []) ++ showZ b)]
      else []
  | Max b inclusive =>
      if (if inclusive then qlt (inject_Z b) q else Qle_bool (inject_Z b) q)
      then [mkIssue too_big path
              (js "Number must be less than "
               ++ (if inclusive then js "or equal to " else []) ++ showZ b)]
      else []
  end.

(** The checks on an infinity: it is not an integer, [-Infinity] is below
    and [Infinity] above every bound. *)
Definition runCheckInfinite (path : list PathElem) (negative : bool)
    (c : NumberCheck) : list ZodIssue :=
  match c with
  | IsInt => [mkIssue invalid_type path (js "Expected integer, received float")]
  | Min b inclusive =>
      if negative
      then [mkIssue too_small path
              (js "Number must be greater than "
               ++ (if inclusive then js "or equal to " else []) ++ showZ b)]
      else []
  | Max b inclusive =>
      if negative then []
      else [mkIssue too_big path
              (js "Number must be less than "
               ++ (if inclusive then js "or equal to " else []) ++ showZ b)]
  end.

Fixpoint joinQuoted (values : list JsString) : JsString :=
  match values with
  | [] => []
  | [v] => js "'" ++ v ++ js "'"
  | v :: rest => js "'" ++ v ++ js "' | " ++ joinQuoted rest
  end.

(** The three loops of the parser: over the items of an array, over the
    keys of an object's shape (keys outside the shape are not visited and
    not copied: they are stripped), and over the entries of a record. *)
Section Loops.
Context {S : Type}.

Section Items.
Variable f : nat -> JsVal -> list ZodIssue * JsVal.
Fixpoint eachItem (l : list JsVal) (i : nat) : list ZodIssue * list JsVal :=
  match l with
  | [] => ([], [])
  | x :: l' =>
      let '(is1, o1) := f i x in
      let '(is2, o2) := eachItem l' (Datatypes.S i) in
      (is1 ++ is2, o1 :: o2)
  end.
End Items.

Section Fields.
Variable f : JsString -> S -> list ZodIssue * JsVal.
Variable props : list (JsString * JsVal).
Fixpoint eachField (shape : list (JsString * S))
  : list ZodIssue * list (JsString * JsVal) :=
  match shape with
  | [] => ([], [])
  | (k, sk) :: shape' =>
      let '(is1, o1) := f k sk in
      let '(is2, o2) := eachField shape' in
      (is1 ++ is2,
       match o1 with
       | JUndefined => if hasProp props k then (k, o1) :: o2 else o2
       | _ => (k, o1) :: o2
       end)
  end.
End Fields.

Section Entries.
Variable f : JsString -> JsVal -> list ZodIssue * JsVal.
Fixpoint eachEntry (l : list (JsString * JsVal))
  : list ZodIssue * list (JsString * JsVal) :=
  match l with
  | [] => ([], [])
  | (k, x) :: l' =>
      let '(is1, o1) := f k x in
      let '(is2, o2) := eachEntry l' in
      (is1 ++ is2, (k, o1) :: o2)
  end.
End Entries.
End Loops.

(** The issues found in [v] and, when there is none, the parsed value. *)
Fixpoint run (s : Schema) (path : list PathElem) (v : JsVal) {struct s}
  : list ZodIssue * JsVal :=
  match s with
  | ZString minLength =>
      match v with
      | JStr str =>
          match minLength with
          | Some (n, message) =>
              if (List.length str <? n)%nat
              then ([mkIssue too_small path message], v)
              else ([], v)
          | None => ([], v)
          end
      | _ => ([invalidType (js "string") path v], JUndefined)
      end
  | ZNumber checks =>
      match v with
      | JNum q => (List.concat (List.map (runCheck path q) checks), v)
      | JInfinity negative =>
          (List.concat (List.map (runCheckInfinite path negative) checks), v)
      | _ => ([invalidType (js "number") path v], JUndefined)
      end
  | ZBoolean =>
      match v with
      | JBool _ => ([], v)
      | _ => ([invalidType (js "boolean") path v], JUndefined)
      end
  | ZEnum values =>
      match v with
      | JStr str =>
          if existsb (eqbStr str) values then ([], v)
          else ([mkIssue invalid_enum_value path
                   (js "Invalid enum value. Expected " ++ joinQuoted values
                    ++ js ", received '" ++ str ++ js "'")], JUndefined)
      | _ => ([invalidType (joinQuoted values) path v], JUndefined)
      end
  | ZArray element minLength =>
      match v with
      | JArr items =>
          let short :=
            match minLength with
            | Some (n, message) =>
                if (List.length items <? n)%nat
                then [mkIssue too_small path message] else []
            | None => []
            end in
          let '(issues, out) :=
            eachItem (fun i => run element (path ++ [PIndex i])) items O in
          (short ++ issues, JArr out)
      | _ => ([invalidType (js "array") path v], JUndefined)
      end
  | ZObject shape =>
      match v with
      | JObj props =>
          let '(issues, out) :=
            eachField (fun k sk => run sk (path ++ [PKey k]) (getProp props k))
              props shape in
          (issues, JObj out)
      | _ => ([invalidType (js "object") path v], JUndefined)
      end
  | ZOptional inner =>
      match v with
      | JUndefined => ([], JUndefined)
      | _ => run inner path v
      end
  | ZUnion first second =>
      match run first path v with
      | ([], out) => ([], out)
      | (_ :: _, _) =>
          match run second path v with
          | ([], out) => ([], out)
          | (_ :: _, _) => ([mkIssue invalid_union path (js "Invalid input")], JUndefined)
          end
      end
  | ZRecord valueType =>
      match v with
      | JObj props =>
          let '(issues, out) :=
            eachEntry (fun k => run valueType (path ++ [PKey k])) props in
          (issues, JObj out)
      | _ => ([invalidType (js "object") path v], JUndefined)
      end
  | ZRefine inner check message =>
      match run inner path v with
      | ([], out) =>
          if check out then ([], out) else ([mkIssue custom path message], out)
      | r => r
      end
  end.

(** The JSON view of an issue list, which [ZodError.message] prints. *)
Definition pathToJs (p : PathElem) : JsVal :=
  match p with
  | PKey k => JStr k
  | PIndex i => JNum (inject_Z (Z.of_nat i))
  end.

Definition codeName (c : ZodIssueCode) : JsString :=
  match c with
  | invalid_type => js "invalid_type"
  | too_small => js "too_small"
  | too_big => js "too_big"
  | invalid_enum_value => js "invalid_enum_value"
  | invalid_union => js "invalid_union"
  | custom => js "custom"
  end.

Definition issueToJs (i : ZodIssue) : JsVal :=
  JObj [(js "code", JStr (codeName (issue_code i)));
        (js "path", JArr (List.map pathToJs (issue_path i)));
        (js "message", JStr (issue_message i))].

End Zod.

(** ** src/utils/validation.ts *)
Module Validation.
Module z := Zod.
Local Open Scope string_scope.

Definition required (message : String.string) : z.Schema := z.min z.string 1 (js message).
Definition enum (values : list String.string) : z.Schema := z.ZEnum (List.map js values).
Definition field (k : String.string) (s : z.Schema) : JsString * z.Schema := (js k, s).

Definition OwnerRepoSchema : z.Schema :=
  z.object [field "owner" (required "Repository owner is required");
          field "repo" (required "Repository name is required")].

Definition PaginationSchema : z.Schema :=
  z.object [field "page" (z.optional z.number);
          field "perPage" (z.optional (z.numMax (z.numMin z.number 1) 100))].

Definition CreateOrUpdateFileSchema : z.Schema :=
  z.extend OwnerRepoSchema
    [field "path" (required "File path is required");
     field "content" (required "File content is required");
     field "message" (required "Commit message is required");
     field "branch" (required "Branch name is required");
     field "sha" (z.optional z.string)].

Definition PushFilesSchema : z.Schema :=
  z.extend OwnerRepoSchema
    [field "branch" (required "Branch name is required");
     field "files"
       (z.min (z.array (z.object [field "path" (required "File path is required");
                            field "content" (required "File content is required")]))
            1 (js "At least one file is required"));
     field "message" (required "Commit message is required")].

Definition GetFileContentsSchema : z.Schema :=
  z.extend OwnerRepoSchema
    [field "path" (required "File path is required");
     field "branch" (z.optional z.string)].

Definition SearchRepositoriesSchema : z.Schema :=
  z.object [field "query" (required "Search query is required");
          field "page" (z.optional z.number);
          field "perPage" (z.optional (z.numMax (z.numMin z.number 1) 100))].

Definition CreateRepositorySchema : z.Schema :=
  z.object [field "name" (required "Repository name is required");
          field "description" (z.optional z.string);
          field "private" (z.optional z.boolean);
          field "autoInit" (z.optional z.boolean);
          field "org" (z.optional z.string)].

Definition UpdateRepositorySchema : z.Schema :=
  z.extend OwnerRepoSchema
    [field "description" (z.optional z.string);
     field "private" (z.optional z.boolean);
     field "default_branch" (z.optional z.string);
     field "has_issues" (z.optional z.boolean);
     field "has_projects" (z.optional z.boolean);
     field "has_wiki" (z.optional z.boolean);
     field "archived" (z.optional z.boolean)].

Definition isTrue (v : JsVal) : bool :=
  match v with JBool true => true | _ => false end.

Definition DeleteRepositorySchema : z.Schema :=
  z.extend OwnerRepoSchema
    [field "confirm"
       (z.ZRefine z.boolean isTrue
          (js "You must confirm deletion by setting confirm to true"))].

Definition CreateBranchSchema : z.Schema :=
  z.extend OwnerRepoSchema
    [field "branch" (required "Branch name is required");
     field "from_branch" (z.optional z.string)].

Definition ListIssuesSchema : z.Schema :=
  z.extend OwnerRepoSchema
    [field "state" (z.optional (enum ["open"; "closed"; "all"]));
     field "labels" (z.optional (z.array z.string));
     field "sort" (z.optional (enum ["created"; "updated"; "comments"]));
     field "direction" (z.optional (enum ["asc"; "desc"]));
     field "since" (z.optional z.string);
     field "page" (z.optional z.number);
     field "per_page" (z.optional z.number)].

Definition GetIssueSchema : z.Schema :=
  z.extend OwnerRepoSchema [field "issue_number" (z.positive (z.int z.number))].

Definition CreateIssueSchema : z.Schema :=
  z.extend OwnerRepoSchema
    [field "title" (required "Issue title is required");
     field "body" (z.optional z.string);
     field "assignees" (z.optional (z.array z.string));
     field "milestone" (z.optional z.number);
     field "labels" (z.optional (z.array z.string))].

Definition UpdateIssueSchema : z.Schema :=
  z.extend OwnerRepoSchema
    [field "issue_number" (z.positive (z.int z.number));
     field "title" (z.optional z.string);
     field "body" (z.optional z.string);
     field "assignees" (z.optional (z.array z.string));
     field "milestone" (z.optional z.number);
     field "labels" (z.optional (z.array z.string));
     field "state" (z.optional (enum ["open"; "closed"]))].

Definition AddIssueCommentSchema : z.Schema :=
  z.extend OwnerRepoSchema
    [field "issue_number" (z.positive (z.int z.number));
     field "body" (required "Comment body is required")].

Definition ListPullRequestsSchema : z.Schema :=
  z.extend OwnerRepoSchema
    [field "state" (z.optional (enum ["open"; "closed"; "all"]));
     field "head" (z.optional z.string);
     field "base" (z.optional z.string);
     field "sort" (z.optional (enum ["created"; "updated"; "popularity"; "long-running"]));
     field "direction" (z.optional (enum ["asc"; "desc"]));
     field "per_page" (z.optional z.number);
     field "page" (z.optional z.number)].

Definition GetPullRequestSchema : z.Schema :=
  z.extend OwnerRepoSchema [field "pull_number" (z.positive (z.int z.number))].

Definition CreatePullRequestSchema : z.Schema :=
  z.extend OwnerRepoSchema
    [field "title" (required "Pull request title is required");
     field "head" (required "Head branch is required");
     field "base" (required "Base branch is required");
     field "body" (z.optional z.string);
     field "draft" (z.optional z.boolean);
     field "maintainer_can_modify" (z.optional z.boolean)].

Definition CreatePullRequestReviewSchema : z.Schema :=
  z.extend OwnerRepoSchema
    [field "pull_number" (z.positive (z.int z.number));
     field "body" (required "Review body is required");
     field "event" (enum ["APPROVE"; "REQUEST_CHANGES"; "COMMENT"]);
     field "commit_id" (z.optional z.string);
     field "comments"
       (z.optional (z.array (z.object
          [field "path" (required "File path is required");
           field "position" (z.positive (z.int z.number));
           field "body" (required "Comment body is required")])))].

Definition MergePullRequestSchema : z.Schema :=
  z.extend OwnerRepoSchema
    [field "pull_number" (z.positive (z.int z.number));
     field "commit_title" (z.optional z.string);
     field "commit_message" (z.optional z.string);
     field "merge_method" (z.optional (enum ["merge"; "squash"; "rebase"]))].

Definition GetPullRequestFilesSchema : z.Schema :=
  z.extend OwnerRepoSchema [field "pull_number" (z.positive (z.int z.number))].

Definition GetPullRequestStatusSchema : z.Schema :=
  z.extend OwnerRepoSchema [field "pull_number" (z.positive (z.int z.number))].

Definition UpdatePullRequestBranchSchema : z.Schema :=
  z.extend OwnerRepoSchema
    [field "pull_number" (z.positive (z.int z.number));
     field "expected_head_sha" (z.optional z.string)].

Definition GetPullRequestCommentsSchema : z.Schema :=
  z.extend OwnerRepoSchema [field "pull_number" (z.positive (z.int z.number))].

Definition GetPullRequestReviewsSchema : z.Schema :=
  z.extend OwnerRepoSchema [field "pull_number" (z.positive (z.int z.number))].

Definition SearchCodeSchema : z.Schema :=
  z.object [field "q" (required "Search query is required");
          field "order" (z.optional (enum ["asc"; "desc"]));
          field "page" (z.optional (z.numMin z.number 1));
          field "per_page" (z.optional (z.numMax (z.numMin z.number 1) 100))].

Definition SearchIssuesSchema : z.Schema :=
  z.object [field "q" (required "Search query is required");
          field "sort"
            (z.optional (enum ["comments"; "reactions"; "reactions-+1"; "reactions--1";
                             "reactions-smile"; "reactions-thinking_face";
                             "reactions-heart"; "reactions-tada"; "interactions";
                             "created"; "updated"]));
          field "order" (z.optional (enum ["asc"; "desc"]));
          field "page" (z.optional (z.numMin z.number 1));
          field "per_page" (z.optional (z.numMax (z.numMin z.number 1) 100))].

Definition SearchUsersSchema : z.Schema :=
  z.object [field "q" (required "Search query is required");
          field "sort" (z.optional (enum ["followers"; "repositories"; "joined"]));
          field "order" (z.optional (enum ["asc"; "desc"]));
          field "page" (z.optional (z.numMin z.number 1));
          field "per_page" (z.optional (z.numMax (z.numMin z.number 1) 100))].

Definition ListCommitsSchema : z.Schema :=
  z.extend OwnerRepoSchema
    [field "sha" (z.optional z.string);
     field "page" (z.optional z.number);
     field "perPage" (z.optional z.number)].

Definition ListWorkflowsSchema : z.Schema :=
  z.extend OwnerRepoSchema
    [field "page" (z.optional (z.int z.number));
     field "perPage" (z.optional (z.int z.number))].

Definition ListWorkflowRunsSchema : z.Schema :=
  z.extend OwnerRepoSchema
    [field "workflow_id" (z.optional (z.ZUnion z.string z.number));
     field "branch" (z.optional z.string);
     field "status"
       (z.optional (enum ["completed"; "action_required"; "cancelled"; "failure";
                        "neutral"; "skipped"; "stale"; "success"; "timed_out";
                        "in_progress"; "queued"; "requested"; "waiting"]));
     field "page" (z.optional (z.int z.number));
     field "perPage" (z.optional (z.int z.number))].

Definition TriggerWorkflowSchema : z.Schema :=
  z.extend OwnerRepoSchema
    [field "workflow_id" (z.ZUnion z.string z.number);
     field "ref" (required "Git reference is required");
     field "inputs" (z.optional (z.ZRecord z.string))].

End Validation.

(** ** The remote API client (@octokit/rest), at its boundary

    One constructor of [Call] per client method the modelled sources use,
    with the parameter object it is given; [Resp] is the part of the typed
    response ([data]) those sources read. *)
Module Octokit.

(** [new Octokit({ auth, baseUrl })] *)
Record Client : Type := mkClient {
  auth : JsString;
  clientBaseUrl : option JsString
}.

Record TreeEntry : Type := mkTreeEntry {
  entry_path : JsString;
  entry_mode : JsString;
  entry_type : JsString;
  entry_content : JsString
}.

Inductive Call : Type :=
| GitGetRef (owner repo ref : JsString)
| GitCreateRef (owner repo ref sha : JsString)
| GitGetCommit (owner repo commit_sha : JsString)
| GitCreateTree (owner repo base_tree : JsString) (tree : list TreeEntry)
| GitCreateCommit (owner repo message tree : JsString) (parents : list JsString)
| GitUpdateRef (owner repo ref sha : JsString)
| ReposGet (owner repo : JsString)
| ReposGetContent (owner repo path : JsString) (ref : option JsString)
| ReposCreateOrUpdateFileContents
    (owner repo path message content branch : JsString) (sha : option JsString)
| ReposCreateFork (owner repo organization : JsVal)
| PullsListFiles (owner repo pull_number : JsVal)
| LicensesGetAllCommonlyUsed
| Request (route : JsString).

(** [{ object: { sha } }] *)
Record RefData : Type := mkRef { object_sha : JsString }.
(** [{ tree: { sha } }] *)
Record CommitData : Type := mkCommit { tree_sha : JsString }.
(** [{ sha }] *)
Record ShaData : Type := mkSha { sha : JsString }.
Record RepoData : Type := mkRepo { default_branch : JsString }.

Record ContentItem : Type := mkContentItem {
  item_name : JsVal;
  item_path : JsVal;
  item_sha : JsVal;
  item_size : JsVal;
  item_type : JsString;
  item_html_url : JsVal;
  item_download_url : JsVal;
  item_content : option JsString;
  item_encoding : JsVal
}.

(** [repos.getContent] answers with a directory listing or one entry. *)
Inductive ContentData : Type :=
| Listing (items : list ContentItem)
| Single (item : ContentItem).

Record FileInfo : Type := mkFileInfo {
  file_name : JsVal; file_path : JsVal; file_sha : JsVal;
  file_size : JsVal; file_html_url : JsVal
}.

Record CommitInfo : Type := mkCommitInfo {
  commit_sha : JsVal; commit_html_url : JsVal; commit_message : JsVal;
  commit_author : JsVal; commit_committer : JsVal
}.

Record FileCommitData : Type := mkFileCommit {
  fc_content : option FileInfo;
  fc_commit : CommitInfo
}.

Record OwnerInfo : Type := mkOwner {
  owner_login : JsVal; owner_id : JsVal; owner_type : JsVal
}.

Record RepoRef : Type := mkRepoRef {
  ref_name : JsVal; ref_full_name : JsVal; ref_owner_login : JsVal
}.

Record ForkData : Type := mkFork {
  fork_id : JsVal; fork_name : JsVal; fork_full_name : JsVal;
  fork_owner : OwnerInfo;
  fork_private : JsVal; fork_html_url : JsVal; fork_description : JsVal;
  fork_fork : JsVal; fork_created_at : JsVal; fork_updated_at : JsVal;
  fork_pushed_at : JsVal; fork_default_branch : JsVal;
  fork_parent : option RepoRef;
  fork_source : option RepoRef
}.

Record PullFile : Type := mkPullFile {
  pf_sha : JsVal; pf_filename : JsVal; pf_status : JsVal;
  pf_additions : JsVal; pf_deletions : JsVal; pf_changes : JsVal;
  pf_blob_url : JsVal; pf_raw_url : JsVal; pf_contents_url : JsVal;
  pf_patch : JsVal
}.

Record License : Type := mkLicense {
  lic_key : JsVal; lic_name : JsVal; lic_spdx_id : JsVal;
  lic_url : JsVal; lic_node_id : JsVal
}.

Definition Resp (c : Call) : Type :=
  match c with
  | GitGetRef _ _ _ => RefData
  | GitCreateRef _ _ _ _ => JsVal
  | GitGetCommit _ _ _ => CommitData
  | GitCreateTree _ _ _ _ => ShaData
  | GitCreateCommit _ _ _ _ _ => ShaData
  | GitUpdateRef _ _ _ _ => JsVal
  | ReposGet _ _ => RepoData
  | ReposGetContent _ _ _ _ => ContentData
  | ReposCreateOrUpdateFileContents _ _ _ _ _ _ _ => FileCommitData
  | ReposCreateFork _ _ _ => ForkData
  | PullsListFiles _ _ _ => list PullFile
  | LicensesGetAllCommonlyUsed => list License
  | Request _ => JsVal
  end.

(** One exchange with the remote service: who asked what, and whether
    the promise was fulfilled ([inr data]) or rejected ([inl error]). *)
Record Event : Type := mkEvent {
  ev_client : Client;
  ev_call : Call;
  ev_result : JsError + Resp ev_call
}.

Definition ev_error (e : Event) : option JsError :=
  match ev_result e with
  | inl err => Some err
  | inr _ => None
  end.

(** The remote service: how it answers a call and what it becomes. *)
Record Remote (W : Type) : Type := mkRemote {
  respond : Client -> forall c : Call, W -> (JsError + Resp c) * W
}.
Arguments respond {W} _ _ _ _.

End Octokit.

(** github-api.ts: the fields of a [GitHubApi] instance *)
Record GitHubApi : Type := mkGitHubApi {
  octokit : Octokit.Client;
  baseUrl : option JsString
}.

(** [process.env], the two variables the sources read *)
Record Env : Type := mkEnv {
  GITHUB_PERSONAL_ACCESS_TOKEN : option JsString;
  GITHUB_API_URL : option JsString
}.

(** ** Asynchronous computations

    An [async] function is a function of the program state that either
    returns or throws, changes the state, and leaves the trace of the
    remote exchanges it made, in the order they were issued. *)
Module Async.
Import Octokit.

Record State (W : Type) : Type := mkState {
  world : W;
  githubApiInstance : option GitHubApi
}.
Arguments mkState {W} _ _.
Arguments world {W} _.
Arguments githubApiInstance {W} _.

#[projections(primitive)]
Record Outcome (W A : Type) : Type := mkOutcome {
  result : JsError + A;
  final : State W;
  trace : list Event
}.
Arguments mkOutcome {W A} _ _ _.
Arguments result {W A} _.
Arguments final {W A} _.
Arguments trace {W A} _.

Definition M (W A : Type) : Type := State W -> Outcome W A.

Section Ops.
Context {W : Type}.

Definition ret {A} (a : A) : M W A := fun st => mkOutcome (inr a) st [].

Definition throw {A} (e : JsError) : M W A := fun st => mkOutcome (inl e) st [].

Definition bind {A B} (m : M W A) (k : A -> M W B) : M W B :=
  fun st =>
    let o := m st in
    match result o with
    | inl e => mkOutcome (inl e) (final o) (trace o)
    | inr a =>
        let o' := k a (final o) in
        mkOutcome (result o') (final o') (trace o ++ trace o')
    end.

(** [try { m } catch (error) { handler(error) }] *)
Definition tryCatch {A} (m : M W A) (handler : JsError -> M W A) : M W A :=
  fun st =>
    let o := m st in
    match result o with
    | inr a => o
    | inl e =>
        let o' := handler e (final o) in
        mkOutcome (result o') (final o') (trace o ++ trace o')
    end.

(** A started promise, observed once it has settled. *)
Definition settle {A} (m : M W A) : M W (JsError + A) :=
  fun st => let o := m st in mkOutcome (inr (result o)) (final o) (trace o).

Fixpoint firstRejection {A} (l : list (JsError + A)) : option JsError :=
  match l with
  | [] => None
  | inl e :: _ => Some e
  | inr _ :: rest => firstRejection rest
  end.

Fixpoint fulfilled {A} (l : list (JsError + A)) : list A :=
  match l with
  | [] => []
  | inl _ :: rest => fulfilled rest
  | inr a :: rest => a :: fulfilled rest
  end.

Fixpoint settleAll {A} (ms : list (M W A)) : M W (list (JsError + A)) :=
  match ms with
  | [] => ret []
  | m :: rest =>
      bind (settle m) (fun r => bind (settleAll rest) (fun rs => ret (r :: rs)))
  end.

(** [await Promise.all(ms)] over promises that were all started, in list
    order, before the first is awaited.  Every one of them runs; the
    rejection reported is that of the first rejected promise in list
    order (with several rejections JavaScript reports whichever settles
    first). *)
Definition promiseAll {A} (ms : list (M W A)) : M W (list A) :=
  bind (settleAll ms) (fun rs =>
    match firstRejection rs with
    | Some e => throw e
    | None => ret (fulfilled rs)
    end).

(** [await client.method(params)] *)
Definition call (remote : Remote W) (client : Client) (c : Call) : M W (Resp c) :=
  fun st =>
    let '(r, w) := respond remote client c (world st) in
    mkOutcome r (mkState w (githubApiInstance st)) [mkEvent client c r].

Definition getState : M W (State W) := fun st => mkOutcome (inr st) st [].
Definition putInstance (g : GitHubApi) : M W unit :=
  fun st => mkOutcome (inr tt) (mkState (world st) (Some g)) [].

End Ops.

End Async.

Notation "x <- m ;; k" := (Async.bind m (fun x => k))
  (at level 100, m at next level, right associativity).
Notation "m ;;; k" := (Async.bind m (fun _ => k))
  (at level 100, right associativity).

(** ** src/utils/error-handling.ts *)
Module ErrorHandling.
Import Async.

(** Truthiness of a string that may be [undefined]. *)
Definition truthy (s : option JsString) : bool :=
  match s with
  | Some (_ :: _) => true
  | _ => false
  end.

Section WithWorld.
Context {W : Type}.

Definition safeJsonParse (input : JsString) (errorMessage : JsString) : M W JsVal :=
  match JSON.parse input with
  | Some v => ret v
  | None =>
      throw (McpError InvalidParams
               (errorMessage ++ js ": " ++ JSON.syntaxErrorMessage input))
  end.

Definition tryCatchAsync {A} (fn : M W A) (errorMessage : JsString) : M W A :=
  tryCatch fn (fun error =>
    if isMcpError error then throw error
    else throw (McpError InternalError
                  (errorMessage ++ js ": " ++ messageOf error))).

End WithWorld.

(** [Buffer.from] and [toString] do not throw on a string argument, so
    the [catch] branches of the two converters are never entered. *)
Definition base64ToUtf8 (base64 : JsString) : JsString :=
  Buffer.toUtf8String (Buffer.fromBase64 base64).

Definition utf8ToBase64 (utf8 : JsString) : JsString :=
  Buffer.toBase64String (Buffer.fromUtf8 utf8).

End ErrorHandling.

(** ** src/utils/github-api.ts *)
Module GithubApi.
Import Async Octokit ErrorHandling.

(** [constructor(token, baseUrl)] *)
Definition new (token : option JsString) (base : option JsString)
  : JsError + GitHubApi :=
  if negb (truthy token) then
    inl (McpError ConfigurationError (js "GitHub Personal Access Token is required"))
  else
    inr (mkGitHubApi
           (mkClient (default [] token) (if truthy base then base else None))
           base).

Definition handleApiError (error : JsError) : JsError :=
  if isMcpError error then error
  else
    let status :=
      match statusOf error with
      | Some 0 | None => 500
      | Some st => st
      end in
    let message :=
      match messageOf error with
      | [] => js "Unknown GitHub API error"
      | m => m
      end in
    let response :=
      match responseMessageOf error with
      | Some r => r
      | None => []
      end in
    let errorCode :=
      if status =? 400 then InvalidParams
      else if status =? 401 then Unauthorized
      else if status =? 403 then Forbidden
      else if status =? 404 then NotFound
      else if status =? 422 then InvalidParams
      else InternalError in
    McpError errorCode
      (js "GitHub API Error: " ++ message
       ++ match response with [] => [] | _ => js " - " ++ response end).

Section WithRemote.
Context {W : Type} (remote : Remote W) (env : Env).

Definition branchExists (this : GitHubApi) (owner repo branch : JsString) : M W bool :=
  tryCatch
    (_ <- call remote (octokit this) (GitGetRef owner repo (js "heads/" ++ branch)) ;;
     ret true)
    (fun error =>
       match statusOf error with
       | Some 404 => ret false
       | _ => throw (handleApiError error)
       end).

Definition getDefaultBranch (this : GitHubApi) (owner repo : JsString) : M W JsString :=
  tryCatch
    (data <- call remote (octokit this) (ReposGet owner repo) ;;
     ret (default_branch data))
    (fun error => throw (handleApiError error)).

Definition createBranch (this : GitHubApi) (owner repo branch : JsString)
    (fromBranch : option JsString) : M W JsVal :=
  tryCatch
    (defaultBranch <-
       (if truthy fromBranch then ret (default [] fromBranch)
        else getDefaultBranch this owner repo) ;;
     refData <- call remote (octokit this)
                  (GitGetRef owner repo (js "heads/" ++ defaultBranch)) ;;
     data <- call remote (octokit this)
               (GitCreateRef owner repo (js "refs/heads/" ++ branch)
                  (object_sha refData)) ;;
     ret data)
    (fun error => throw (handleApiError error)).

(** The module-level singleton: built from the environment on first
    use, reused afterwards. *)
Definition getGitHubApi : M W GitHubApi :=
  st <- getState ;;
  match githubApiInstance st with
  | Some instance => ret instance
  | None =>
      let token := GITHUB_PERSONAL_ACCESS_TOKEN env in
      let base := GITHUB_API_URL env in
      if negb (truthy token) then
        throw (McpError ConfigurationError
                 (js "GITHUB_PERSONAL_ACCESS_TOKEN environment variable is required"))
      else
        match new token base with
        | inl e => throw e
        | inr instance => putInstance instance ;;; ret instance
        end
  end.

End WithRemote.

End GithubApi.

(** ** Reading a validated argument object

    After [Schema.parse] the TypeScript type of each field is known; these
    are the corresponding views of the parsed value. *)
Definition prop (v : JsVal) (k : String.string) : JsVal :=
  match v with
  | JObj props => getProp props (js k)
  | _ => JUndefined
  end.

Definition asString (v : JsVal) : JsString :=
  match v with JStr s => s | _ => [] end.

Definition asOptionalString (v : JsVal) : option JsString :=
  match v with JStr s => Some s | _ => None end.

Definition asArray (v : JsVal) : list JsVal :=
  match v with JArr items => items | _ => [] end.

(** ** src/tools/files.ts *)
Module Files.
Import Async Octokit ErrorHandling GithubApi Validation.

Record FileArg : Type := mkFile { path : JsString; content : JsString }.

Definition asFile (v : JsVal) : FileArg :=
  mkFile (asString (prop v "path")) (asString (prop v "content")).

(** [const { owner, ... } = args as { ... }]: an unchecked cast followed
    by destructuring, which throws a [TypeError] on [undefined] or [null]
    and reads [undefined] for every property a value does not have. *)
Definition destructure {W} (args : JsVal) : M W JsVal :=
  match args with
  | JUndefined | JNull =>
      throw (OtherError None (js "Cannot destructure property of undefined or null") None)
  | _ => ret args
  end.

Section WithRemote.
Context {W : Type} (remote : Remote W) (env : Env) (stringify : JsVal -> JsString).

(** [Schema.parse(args)] *)
Definition parse (schema : Zod.Schema) (args : JsVal) : M W JsVal :=
  match Zod.run schema [] args with
  | ([], out) => ret out
  | (issues, _) =>
      throw (ZodError issues (stringify (JArr (List.map Zod.issueToJs issues))))
  end.

(** The first statement of [createOrUpdateFile] and of [pushFiles]:
    [const branchExists = await github.branchExists(owner, repo, branch);
     if (!branchExists) { await github.createBranch(owner, repo, branch); }] *)
Definition ensureBranch (github : GitHubApi) (owner repo branch : JsString)
  : M W bool :=
  branchExists <- branchExists remote github owner repo branch ;;
  (if negb branchExists
   then (_ <- createBranch remote github owner repo branch None ;; ret tt)
   else ret tt) ;;;
  ret branchExists.

Definition createOrUpdateFile (args : JsVal) : M W JsVal :=
  parsed <- parse CreateOrUpdateFileSchema args ;;
  let owner := asString (prop parsed "owner") in
  let repo := asString (prop parsed "repo") in
  let path := asString (prop parsed "path") in
  let content := asString (prop parsed "content") in
  let message := asString (prop parsed "message") in
  let branch := asString (prop parsed "branch") in
  let sha := asOptionalString (prop parsed "sha") in
  github <- getGitHubApi env ;;
  tryCatchAsync
    (_ <- ensureBranch github owner repo branch ;;
     data <- call remote (octokit github)
               (ReposCreateOrUpdateFileContents owner repo path message
                  (utf8ToBase64 content) branch sha) ;;
     let info (f : FileInfo -> JsVal) :=
       match fc_content data with Some c => f c | None => JUndefined end in
     ret (JObj
            [(js "content",
              JObj [(js "name", info file_name);
                    (js "path", info file_path);
                    (js "sha", info file_sha);
                    (js "size", info file_size);
                    (js "url", info file_html_url)]);
             (js "commit",
              JObj [(js "sha", commit_sha (fc_commit data));
                    (js "url", commit_html_url (fc_commit data));
                    (js "message", commit_message (fc_commit data));
                    (js "author", commit_author (fc_commit data));
                    (js "committer", commit_committer (fc_commit data))])]))
    (js "Failed to create or update file").

(** The callback of [files.map] in [pushFiles]: look the file up on the
    branch, tolerate a 404, and describe the file as a tree entry. *)
Definition treeEntryFor (github : GitHubApi) (owner repo branch : JsString)
    (file : FileArg) : M W TreeEntry :=
  tryCatch
    (_ <- call remote (octokit github)
            (ReposGetContent owner repo (path file) (Some branch)) ;;
     ret tt)
    (fun error =>
       match statusOf error with
       | Some 404 => ret tt
       | _ => throw error
       end) ;;;
  ret (mkTreeEntry (path file) (js "100644") (js "blob") (content file)).

(** The [async] arrow function that [pushFiles] hands to
    [tryCatchAsync], as a function of the variables it closes over. *)
Definition pushFilesBody (github : GitHubApi) (owner repo branch : JsString)
    (files : list FileArg) (message : JsString) : M W JsVal :=
  _ <- ensureBranch github owner repo branch ;;
  refData <- call remote (octokit github)
               (GitGetRef owner repo (js "heads/" ++ branch)) ;;
  let latestCommitSha := object_sha refData in
  commitData <- call remote (octokit github)
                  (GitGetCommit owner repo latestCommitSha) ;;
  let baseTreeSha := tree_sha commitData in
  tree <- promiseAll (List.map (treeEntryFor github owner repo branch) files) ;;
  newTree <- call remote (octokit github)
               (GitCreateTree owner repo baseTreeSha tree) ;;
  newCommit <- call remote (octokit github)
                 (GitCreateCommit owner repo message (sha newTree)
                    [latestCommitSha]) ;;
  _ <- call remote (octokit github)
         (GitUpdateRef owner repo (js "heads/" ++ branch) (sha newCommit)) ;;
  ret (JObj
         [(js "success", JBool true);
          (js "branch", JStr branch);
          (js "commit",
           JObj [(js "sha", JStr (sha newCommit));
                 (js "message", JStr message);
                 (js "url",
                  JStr (js "https://github.com/" ++ owner ++ js "/" ++ repo
                        ++ js "/commit/" ++ sha newCommit))]);
          (js "files", JArr (List.map (fun file => JStr (path file)) files))]).

Definition pushFiles (args : JsVal) : M W JsVal :=
  parsed <- parse PushFilesSchema args ;;
  let owner := asString (prop parsed "owner") in
  let repo := asString (prop parsed "repo") in
  let branch := asString (prop parsed "branch") in
  let files := List.map asFile (asArray (prop parsed "files")) in
  let message := asString (prop parsed "message") in
  github <- getGitHubApi env ;;
  tryCatchAsync (pushFilesBody github owner repo branch files message)
    (js "Failed to push files").

Definition listingEntry (item : ContentItem) : JsVal :=
  JObj [(js "name", item_name item);
        (js "path", item_path item);
        (js "sha", item_sha item);
        (js "size", item_size item);
        (js "type", JStr (item_type item));
        (js "url", item_html_url item);
        (js "download_url", item_download_url item)].

Definition getFileContents (args : JsVal) : M W JsVal :=
  parsed <- parse GetFileContentsSchema args ;;
  let owner := asString (prop parsed "owner") in
  let repo := asString (prop parsed "repo") in
  let path := asString (prop parsed "path") in
  let branch := asOptionalString (prop parsed "branch") in
  github <- getGitHubApi env ;;
  tryCatchAsync
    (data <- call remote (octokit github) (ReposGetContent owner repo path branch) ;;
     match data with
     | Listing items => ret (JArr (List.map listingEntry items))
     | Single item =>
         if eqbStr (item_type item) (js "file") then
           ret (JObj [(js "name", item_name item);
                      (js "path", item_path item);
                      (js "sha", item_sha item);
                      (js "size", item_size item);
                      (js "type", JStr (item_type item));
                      (js "url", item_html_url item);
                      (js "content",
                       if truthy (item_content item)
                       then JStr (base64ToUtf8 (default [] (item_content item)))
                       else JNull);
                      (js "encoding", item_encoding item)])
         else
           ret (JObj [(js "name", item_name item);
                      (js "path", item_path item);
                      (js "sha", item_sha item);
                      (js "size", item_size item);
                      (js "type", JStr (item_type item));
                      (js "url", item_html_url item)])
     end)
    (js "Failed to get file contents").

Definition repoRefToJs (r : option RepoRef) : JsVal :=
  match r with
  | Some p =>
      JObj [(js "name", ref_name p);
            (js "full_name", ref_full_name p);
            (js "owner", JObj [(js "login", ref_owner_login p)])]
  | None => JNull
  end.

Definition forkRepository (args : JsVal) : M W JsVal :=
  bag <- destructure args ;;
  let owner := prop bag "owner" in
  let repo := prop bag "repo" in
  let organization := prop bag "organization" in
  github <- getGitHubApi env ;;
  tryCatchAsync
    (data <- call remote (octokit github) (ReposCreateFork owner repo organization) ;;
     ret (JObj
            [(js "id", fork_id data);
             (js "name", fork_name data);
             (js "full_name", fork_full_name data);
             (js "owner",
              JObj [(js "login", owner_login (fork_owner data));
                    (js "id", owner_id (fork_owner data));
                    (js "type", owner_type (fork_owner data))]);
             (js "private", fork_private data);
             (js "html_url", fork_html_url data);
             (js "description", fork_description data);
             (js "fork", fork_fork data);
             (js "created_at", fork_created_at data);
             (js "updated_at", fork_updated_at data);
             (js "pushed_at", fork_pushed_at data);
             (js "default_branch", fork_default_branch data);
             (js "parent", repoRefToJs (fork_parent data));
             (js "source", repoRefToJs (fork_source data))]))
    (js "Failed to fork repository").

Definition pullFileToJs (file : PullFile) : JsVal :=
  JObj [(js "sha", pf_sha file);
        (js "filename", pf_filename file);
        (js "status", pf_status file);
        (js "additions", pf_additions file);
        (js "deletions", pf_deletions file);
        (js "changes", pf_changes file);
        (js "blob_url", pf_blob_url file);
        (js "raw_url", pf_raw_url file);
        (js "contents_url", pf_contents_url file);
        (js "patch", pf_patch file)].

Definition getPullRequestFiles (args : JsVal) : M W JsVal :=
  bag <- destructure args ;;
  let owner := prop bag "owner" in
  let repo := prop bag "repo" in
  let pull_number := prop bag "pull_number" in
  github <- getGitHubApi env ;;
  tryCatchAsync
    (data <- call remote (octokit github) (PullsListFiles owner repo pull_number) ;;
     ret (JArr (List.map pullFileToJs data)))
    (js "Failed to get pull request files").

End WithRemote.

End Files.

(** ** src/tools/repository.ts, issues.ts, pull-requests.ts, search.ts

    Every handler of these modules that takes arguments begins
    [Schema.parse(args)], then [getGitHubApi()], then runs its body inside
    [tryCatchAsync(body, message)].  The bodies (one or two client calls and
    a projection of the response) are kept abstract: [Bodies] holds, for
    each handler, the function from the adapter and the parsed arguments to
    the body's computation. *)
Module Tools.
Import Async Octokit ErrorHandling GithubApi Validation.

Record Bodies (W : Type) : Type := mkBodies {
  searchRepositoriesBody : GitHubApi -> JsVal -> M W JsVal;
  createRepositoryBody : GitHubApi -> JsVal -> M W JsVal;
  updateRepositoryBody : GitHubApi -> JsVal -> M W JsVal;
  deleteRepositoryBody : GitHubApi -> JsVal -> M W JsVal;
  createBranchBody : GitHubApi -> JsVal -> M W JsVal;
  listCommitsBody : GitHubApi -> JsVal -> M W JsVal;
  listWorkflowsBody : GitHubApi -> JsVal -> M W JsVal;
  listWorkflowRunsBody : GitHubApi -> JsVal -> M W JsVal;
  triggerWorkflowBody : GitHubApi -> JsVal -> M W JsVal;
  listIssuesBody : GitHubApi -> JsVal -> M W JsVal;
  getIssueBody : GitHubApi -> JsVal -> M W JsVal;
  createIssueBody : GitHubApi -> JsVal -> M W JsVal;
  updateIssueBody : GitHubApi -> JsVal -> M W JsVal;
  addIssueCommentBody : GitHubApi -> JsVal -> M W JsVal;
  listPullRequestsBody : GitHubApi -> JsVal -> M W JsVal;
  getPullRequestBody : GitHubApi -> JsVal -> M W JsVal;
  createPullRequestBody : GitHubApi -> JsVal -> M W JsVal;
  createPullRequestReviewBody : GitHubApi -> JsVal -> M W JsVal;
  mergePullRequestBody : GitHubApi -> JsVal -> M W JsVal;
  getPullRequestStatusBody : GitHubApi -> JsVal -> M W JsVal;
  updatePullRequestBranchBody : GitHubApi -> JsVal -> M W JsVal;
  getPullRequestCommentsBody : GitHubApi -> JsVal -> M W JsVal;
  getPullRequestReviewsBody : GitHubApi -> JsVal -> M W JsVal;
  searchCodeBody : GitHubApi -> JsVal -> M W JsVal;
  searchIssuesBody : GitHubApi -> JsVal -> M W JsVal;
  searchUsersBody : GitHubApi -> JsVal -> M W JsVal
}.

Section WithRemote.
Context {W : Type} (remote : Remote W) (env : Env) (stringify : JsVal -> JsString)
        (bodies : Bodies W).

(** parse, get the adapter, run the body under [tryCatchAsync] *)
Definition validated (schema : Zod.Schema)
    (body : GitHubApi -> JsVal -> M W JsVal) (errorMessage : String.string)
    (args : JsVal) : M W JsVal :=
  parsed <- Files.parse stringify schema args ;;
  github <- getGitHubApi env ;;
  tryCatchAsync (body github parsed) (js errorMessage).

(* repository.ts *)
Definition searchRepositories :=
  validated SearchRepositoriesSchema (searchRepositoriesBody W bodies)
    "Failed to search repositories".
Definition createRepository :=
  validated CreateRepositorySchema (createRepositoryBody W bodies)
    "Failed to create repository".
Definition updateRepository :=
  validated UpdateRepositorySchema (updateRepositoryBody W bodies)
    "Failed to update repository".

Definition deleteRepository (args : JsVal) : M W JsVal :=
  parsed <- Files.parse stringify DeleteRepositorySchema args ;;
  match prop parsed "confirm" with
  | JBool true =>
      github <- getGitHubApi env ;;
      tryCatchAsync (deleteRepositoryBody W bodies github parsed)
        (js "Failed to delete repository")
  | _ =>
      throw (McpError InvalidParams
               (js "You must confirm deletion by setting confirm to true"))
  end.

Definition createBranch :=
  validated CreateBranchSchema (createBranchBody W bodies) "Failed to create branch".
Definition listCommits :=
  validated ListCommitsSchema (listCommitsBody W bodies) "Failed to list commits".
Definition listWorkflows :=
  validated ListWorkflowsSchema (listWorkflowsBody W bodies) "Failed to list workflows".
Definition listWorkflowRuns :=
  validated ListWorkflowRunsSchema (listWorkflowRunsBody W bodies)
    "Failed to list workflow runs".
Definition triggerWorkflow :=
  validated TriggerWorkflowSchema (triggerWorkflowBody W bodies)
    "Failed to trigger workflow".

(* issues.ts *)
Definition listIssues :=
  validated ListIssuesSchema (listIssuesBody W bodies) "Failed to list issues".
Definition getIssue :=
  validated GetIssueSchema (getIssueBody W bodies) "Failed to get issue".
Definition createIssue :=
  validated CreateIssueSchema (createIssueBody W bodies) "Failed to create issue".
Definition updateIssue :=
  validated UpdateIssueSchema (updateIssueBody W bodies) "Failed to update issue".
Definition addIssueComment :=
  validated AddIssueCommentSchema (addIssueCommentBody W bodies)
    "Failed to add issue comment".

(* pull-requests.ts *)
Definition listPullRequests :=
  validated ListPullRequestsSchema (listPullRequestsBody W bodies)
    "Failed to list pull requests".
Definition getPullRequest :=
  validated GetPullRequestSchema (getPullRequestBody W bodies)
    "Failed to get pull request".
Definition createPullRequest :=
  validated CreatePullRequestSchema (createPullRequestBody W bodies)
    "Failed to create pull request".
Definition createPullRequestReview :=
  validated CreatePullRequestReviewSchema (createPullRequestReviewBody W bodies)
    "Failed to create pull request review".
Definition mergePullRequest :=
  validated MergePullRequestSchema (mergePullRequestBody W bodies)
    "Failed to merge pull request".
Definition getPullRequestStatus :=
  validated GetPullRequestStatusSchema (getPullRequestStatusBody W bodies)
    "Failed to get pull request status".
Definition updatePullRequestBranch :=
  validated UpdatePullRequestBranchSchema (updatePullRequestBranchBody W bodies)
    "Failed to update pull request branch".
Definition getPullRequestComments :=
  validated GetPullRequestCommentsSchema (getPullRequestCommentsBody W bodies)
    "Failed to get pull request comments".
Definition getPullRequestReviews :=
  validated GetPullRequestReviewsSchema (getPullRequestReviewsBody W bodies)
    "Failed to get pull request reviews".

(* search.ts *)
Definition searchCode :=
  validated SearchCodeSchema (searchCodeBody W bodies) "Failed to search code".
Definition searchIssues :=
  validated SearchIssuesSchema (searchIssuesBody W bodies) "Failed to search issues".
Definition searchUsers :=
  validated SearchUsersSchema (searchUsersBody W bodies) "Failed to search users".

Definition licenseToJs (license : License) : JsVal :=
  JObj [(js "key", lic_key license);
        (js "name", lic_name license);
        (js "spdx_id", lic_spdx_id license);
        (js "url", lic_url license);
        (js "node_id", lic_node_id license)].

Definition getLicenseInfo : M W JsVal :=
  github <- getGitHubApi env ;;
  tryCatchAsync
    (data <- call remote (octokit github) LicensesGetAllCommonlyUsed ;;
     ret (JArr (List.map licenseToJs data)))
    (js "Failed to get license information").

Definition getEnterpriseStats : M W JsVal :=
  github <- getGitHubApi env ;;
  let baseUrl := GITHUB_API_URL env in
  if negb (truthy baseUrl) then
    ret (JObj [(js "error",
                JStr (js "This function is only available for GitHub Enterprise"))])
  else
    tryCatchAsync
      (tryCatch
         (call remote (octokit github) (Request (js "GET /enterprise/stats/all")))
         (fun _ =>
            ret (JObj [(js "message",
                        JStr (js "Enterprise stats not available or insufficient permissions"));
                       (js "api_url", JStr (default [] baseUrl))])))
      (js "Failed to get enterprise stats").

End WithRemote.

End Tools.

(** ** src/server.ts: the handler of [CallToolRequestSchema] *)
Module Server.
Import Async Octokit ErrorHandling.

Section WithRemote.
Context {W : Type} (remote : Remote W) (env : Env) (stringify : JsVal -> JsString)
        (bodies : Tools.Bodies W).

(** The [case] labels of the [switch], each with the call it makes. *)
Definition toolTable : list (JsString * (JsVal -> M W JsVal)) :=
  [ (js "search-repositories", Tools.searchRepositories env stringify bodies);
    (js "create-repository", Tools.createRepository env stringify bodies);
    (js "update-repository", Tools.updateRepository env stringify bodies);
    (js "delete-repository", Tools.deleteRepository env stringify bodies);
    (js "create-branch", Tools.createBranch env stringify bodies);
    (js "list-commits", Tools.listCommits env stringify bodies);
    (js "list-workflows", Tools.listWorkflows env stringify bodies);
    (js "list-workflow-runs", Tools.listWorkflowRuns env stringify bodies);
    (js "trigger-workflow", Tools.triggerWorkflow env stringify bodies);
    (js "create-or-update-file", Files.createOrUpdateFile remote env stringify);
    (js "push-files", Files.pushFiles remote env stringify);
    (js "get-file-contents", Files.getFileContents remote env stringify);
    (js "fork-repository", Files.forkRepository remote env);
    (js "get-pull-request-files", Files.getPullRequestFiles remote env);
    (js "list-issues", Tools.listIssues env stringify bodies);
    (js "get-issue", Tools.getIssue env stringify bodies);
    (js "create-issue", Tools.createIssue env stringify bodies);
    (js "update-issue", Tools.updateIssue env stringify bodies);
    (js "add-issue-comment", Tools.addIssueComment env stringify bodies);
    (js "list-pull-requests", Tools.listPullRequests env stringify bodies);
    (js "get-pull-request", Tools.getPullRequest env stringify bodies);
    (js "create-pull-request", Tools.createPullRequest env stringify bodies);
    (js "create-pull-request-review", Tools.createPullRequestReview env stringify bodies);
    (js "merge-pull-request", Tools.mergePullRequest env stringify bodies);
    (js "get-pull-request-status", Tools.getPullRequestStatus env stringify bodies);
    (js "update-pull-request-branch", Tools.updatePullRequestBranch env stringify bodies);
    (js "get-pull-request-comments", Tools.getPullRequestComments env stringify bodies);
    (js "get-pull-request-reviews", Tools.getPullRequestReviews env stringify bodies);
    (js "search-code", Tools.searchCode env stringify bodies);
    (js "search-issues", Tools.searchIssues env stringify bodies);
    (js "search-users", Tools.searchUsers env stringify bodies);
    (js "get-license-info", fun _ => Tools.getLicenseInfo remote env);
    (js "get-enterprise-stats", fun _ => Tools.getEnterpriseStats remote env) ].

(** [switch (name)]: the first matching label, if any. *)
Fixpoint select (table : list (JsString * (JsVal -> M W JsVal))) (name : JsString)
  : option (JsVal -> M W JsVal) :=
  match table with
  | [] => None
  | (label, handler) :: rest =>
      if eqbStr name label then Some handler else select rest name
  end.

(** The [try] block of the handler and its [catch], on the [name] and
    the [arguments] the handler has read from [request.params]; the
    statement that reads them comes before the [try] and is part of
    [GitHubEnterpriseServer.callToolHandler] below. *)
Definition callTool (name : JsString) (args : JsVal) : M W JsVal :=
  tryCatch
    (parsedArgs <-
       match args with
       | JStr text => safeJsonParse text (js "Invalid JSON")
       | _ => ret args
       end ;;
     result <-
       match select toolTable name with
       | Some handler => handler parsedArgs
       | None => throw (McpError MethodNotFound (js "Unknown tool: " ++ name))
       end ;;
     ret (JObj [(js "content",
                 JArr [JObj [(js "type", JStr (js "text"));
                             (js "text", JStr (stringify result))]])]))
    (fun error =>
       if isMcpError error then throw error
       else throw (McpError InternalError
                     (js "Error executing tool " ++ name ++ js ": "
                      ++ messageOf error))).

End WithRemote.

(** The operation names of the catalog. *)
Definition catalog : list JsString :=
  List.map js
    [ "search-repositories"; "create-repository"; "update-repository";
      "delete-repository"; "create-branch"; "list-commits"; "list-workflows";
      "list-workflow-runs"; "trigger-workflow"; "create-or-update-file";
      "push-files"; "get-file-contents"; "fork-repository";
      "get-pull-request-files"; "list-issues"; "get-issue"; "create-issue";
      "update-issue"; "add-issue-comment"; "list-pull-requests";
      "get-pull-request"; "create-pull-request"; "create-pull-request-review";
      "merge-pull-request"; "get-pull-request-status";
      "update-pull-request-branch"; "get-pull-request-comments";
      "get-pull-request-reviews"; "search-code"; "search-issues"; "search-users";
      "get-license-info"; "get-enterprise-stats" ]%string.

End Server.

(** ** A remote service held in memory

    A small stand-in for the remote service, used to run the handlers on
    concrete requests: one repository with named refs, the tree of each
    commit, a default branch, a counter naming new objects, and an optional
    failure to inject into the next ref update. *)
Module InMemory.
Import Octokit.

Record World : Type := mkWorld {
  refs : gmap JsString JsString;
  commits : gmap JsString JsString;
  defaultBranch : JsString;
  nextObject : nat;
  failUpdateRef : option JsError
}.

Definition notFound : JsError := OtherError (Some 404) (js "Not Found") None.
Definition unprocessable (m : String.string) : JsError :=
  OtherError (Some 422) (js m) None.

Definition fresh (prefix : String.string) (w : World) : JsString :=
  js prefix ++ Zod.showZ (Z.of_nat (nextObject w)).

Definition undefinedFork : ForkData :=
  mkFork JUndefined JUndefined JUndefined (mkOwner JUndefined JUndefined JUndefined)
    JUndefined JUndefined JUndefined JUndefined JUndefined JUndefined JUndefined
    JUndefined None None.

Definition answer (client : Client) (c : Call) (w : World) : (JsError + Resp c) * World :=
  match c return (JsError + Resp c) * World with
  | GitGetRef _ _ ref =>
      match refs w !! ref with
      | Some sha => (inr (mkRef sha), w)
      | None => (inl notFound, w)
      end
  | GitCreateRef _ _ ref sha =>
      let name := drop 5 ref in
      match refs w !! name with
      | Some _ => (inl (unprocessable "Reference already exists"), w)
      | None =>
          (inr (JObj [(js "ref", JStr ref)]),
           mkWorld (<[name := sha]> (refs w)) (commits w) (defaultBranch w)
             (nextObject w) (failUpdateRef w))
      end
  | GitGetCommit _ _ commit_sha =>
      match commits w !! commit_sha with
      | Some tree => (inr (mkCommit tree), w)
      | None => (inl notFound, w)
      end
  | GitCreateTree _ _ _ _ =>
      (inr (mkSha (fresh "tree" w)),
       mkWorld (refs w) (commits w) (defaultBranch w) (S (nextObject w))
         (failUpdateRef w))
  | GitCreateCommit _ _ _ tree _ =>
      (inr (mkSha (fresh "commit" w)),
       mkWorld (refs w) (<[fresh "commit" w := tree]> (commits w)) (defaultBranch w)
         (S (nextObject w)) (failUpdateRef w))
  | GitUpdateRef _ _ ref sha =>
      match failUpdateRef w with
      | Some e => (inl e, w)
      | None =>
          match refs w !! ref with
          | Some _ =>
              (inr (JObj [(js "ref", JStr (js "refs/" ++ ref))]),
               mkWorld (<[ref := sha]> (refs w)) (commits w) (defaultBranch w)
                 (nextObject w) None)
          | None => (inl (unprocessable "Reference does not exist"), w)
          end
      end
  | ReposGet _ _ => (inr (mkRepo (defaultBranch w)), w)
  | ReposGetContent _ _ _ _ => (inl notFound, w)
  | ReposCreateOrUpdateFileContents _ _ _ _ _ _ _ =>
      (inr (mkFileCommit None
              (mkCommitInfo JUndefined JUndefined JUndefined JUndefined JUndefined)), w)
  | ReposCreateFork _ _ _ => (inr undefinedFork, w)
  | PullsListFiles _ _ _ => (inr [], w)
  | LicensesGetAllCommonlyUsed => (inr [], w)
  | Request _ => (inl notFound, w)
  end.

Definition remote : Remote World := mkRemote World answer.

(** A repository whose branch [main] is at commit [c0] with tree [t0]. *)
Definition initial : World :=
  mkWorld {[ js "heads/main" := js "c0" ]} {[ js "c0" := js "t0" ]} (js "main") O None.

Definition env : Env := mkEnv (Some (js "token")) None.
Definition enterpriseEnv : Env :=
  mkEnv (Some (js "token")) (Some (js "https://ghe.example.com/api/v3")).

Definition start : Async.State World := Async.mkState initial None.

(** The same repository, about to refuse the next ref update the way the
    service refuses one that is not a fast forward: the client's request
    error, with status 422. *)
Definition conflict : JsError := unprocessable "Update is not a fast forward".

Definition conflicting : Async.State World :=
  Async.mkState
    (mkWorld (refs initial) (commits initial) (defaultBranch initial) O (Some conflict))
    None.

(** A text with a control character, a two-byte, a three-byte and a
    four-byte character (a surrogate pair): tab, e-acute, euro sign,
    U+1F600. *)
Definition sample : JsString := js "a" ++ [9; 0xE9; 0x20AC; 0xD83D; 0xDE00] ++ js "z".

(** A bag for [fork-repository] without the fields its descriptor requires. *)
Definition emptyBag : JsVal := JObj [].

(** The scenario's request with a field the descriptor of [push-files]
    does not declare, and another inside a file. *)
Definition pushBagWithExtra : JsVal :=
  JObj [(js "owner", JStr (js "acme")); (js "repo", JStr (js "widgets"));
        (js "branch", JStr (js "main"));
        (js "files",
         JArr [JObj [(js "path", JStr (js "a.txt")); (js "content", JStr (js "x"));
                     (js "mode", JStr (js "100755"))];
               JObj [(js "path", JStr (js "b.txt")); (js "content", JStr (js "y"))]]);
        (js "message", JStr (js "M"));
        (js "per_page", JNum 5)].

(** The request of the design document's commit-engine scenario. *)
Definition pushBag : JsVal :=
  JObj [(js "owner", JStr (js "acme")); (js "repo", JStr (js "widgets"));
        (js "branch", JStr (js "main"));
        (js "files",
         JArr [JObj [(js "path", JStr (js "a.txt")); (js "content", JStr (js "x"))];
               JObj [(js "path", JStr (js "b.txt")); (js "content", JStr (js "y"))]]);
        (js "message", JStr (js "M"))].

(** A printer that is enough to run the dispatcher; the text it prints
    plays no part in any statement. *)
Definition stringify (v : JsVal) : JsString := [].

Definition bodies : Tools.Bodies World :=
  let unavailable : GitHubApi -> JsVal -> Async.M World JsVal :=
    fun _ _ => Async.throw (OtherError None (js "not available in memory") None) in
  Tools.mkBodies World unavailable unavailable unavailable unavailable unavailable
    unavailable unavailable unavailable unavailable unavailable unavailable
    unavailable unavailable unavailable unavailable unavailable unavailable
    unavailable unavailable unavailable unavailable unavailable unavailable
    unavailable unavailable unavailable.

(** What the scenario's request returns on an Enterprise configuration,
    fixed by running it. *)
Definition pushed : JsVal :=
  Eval vm_compute in
    match Async.result (Files.pushFiles remote enterpriseEnv stringify pushBag start) with
    | inr r => r
    | inl _ => JUndefined
    end.

Definition callNames (o : Async.Outcome World JsVal) : list Call :=
  List.map ev_call (Async.trace o).

End InMemory.

(** ** Vocabulary of the statements *)

(** [error.code] of a classified error *)
Definition kindOf (e : JsError) : option ErrorCode :=
  match e with
  | McpError c _ => Some c
  | _ => None
  end.

(** The schema of one element of [files] in [PushFilesSchema]. *)
Definition fileSchema : Zod.Schema :=
  Zod.object [Validation.field "path" (Validation.required "File path is required");
              Validation.field "content" (Validation.required "File content is required")].

(** A file of the validated [files] array: an object with a non-empty
    [path] and a non-empty [content], both strings. *)
Definition fileOf (item parsed : JsVal) : Prop :=
  exists props p c,
    item = JObj props
    /\ getProp props (js "path") = JStr p /\ getProp props (js "content") = JStr c
    /\ p <> [] /\ c <> []
    /\ parsed = JObj [(js "path", JStr p); (js "content", JStr c)].

(** ** The runs of the branch-ensure step and of the commit engine

    [EnsureRun] and [PushRun] list, case by case, how a run of
    [Files.ensureBranch] and of [Files.pushFilesBody] can go: which
    exchanges take place, in which order, and what is returned or thrown.
    That every run is one of these is proved below
    ([ensureBranch_run], [pushFilesBody_run]). *)
Module Runs.
Import Async Octokit GithubApi Files.

(** What [tryCatchAsync] throws when its function throws [e]. *)
Definition rethrown (errorMessage : JsString) (e : JsError) : JsError :=
  if isMcpError e then e
  else McpError InternalError (errorMessage ++ js ": " ++ messageOf e).

Section WithRemote.
Context {W : Type} (remote : Remote W) (github : GitHubApi)
        (owner repo branch : JsString).

Definition lookupRef : Call := GitGetRef owner repo (js "heads/" ++ branch).

Definition exchange (c : Call) (r : JsError + Resp c) : Event :=
  mkEvent (octokit github) c r.

Definition ask (c : Call) (w : W) : (JsError + Resp c) * W :=
  respond remote (octokit github) c w.

Definition after (w : W) (st : State W) : State W :=
  mkState w (githubApiInstance st).

Inductive EnsureRun (st : State W) : Outcome W bool -> Prop :=
| ensure_found data w1 :
    ask lookupRef (world st) = (inr data, w1) ->
    EnsureRun st
      (mkOutcome (inr true) (after w1 st) [exchange lookupRef (inr data)])
| ensure_probe_error e w1 :
    ask lookupRef (world st) = (inl e, w1) ->
    statusOf e <> Some 404 ->
    EnsureRun st
      (mkOutcome (inl (handleApiError e)) (after w1 st)
         [exchange lookupRef (inl e)])
| ensure_no_default e0 w1 e w2 :
    ask lookupRef (world st) = (inl e0, w1) ->
    statusOf e0 = Some 404 ->
    ask (ReposGet owner repo) w1 = (inl e, w2) ->
    EnsureRun st
      (mkOutcome (inl (handleApiError e)) (after w2 st)
         [exchange lookupRef (inl e0); exchange (ReposGet owner repo) (inl e)])
| ensure_no_source e0 w1 repoData w2 e w3 :
    ask lookupRef (world st) = (inl e0, w1) ->
    statusOf e0 = Some 404 ->
    ask (ReposGet owner repo) w1 = (inr repoData, w2) ->
    ask (GitGetRef owner repo (js "heads/" ++ default_branch repoData)) w2
      = (inl e, w3) ->
    EnsureRun st
      (mkOutcome (inl (handleApiError e)) (after w3 st)
         [exchange lookupRef (inl e0);
          exchange (ReposGet owner repo) (inr repoData);
          exchange (GitGetRef owner repo (js "heads/" ++ default_branch repoData))
            (inl e)])
| ensure_create_error e0 w1 repoData w2 refData w3 e w4 :
    ask lookupRef (world st) = (inl e0, w1) ->
    statusOf e0 = Some 404 ->
    ask (ReposGet owner repo) w1 = (inr repoData, w2) ->
    ask (GitGetRef owner repo (js "heads/" ++ default_branch repoData)) w2
      = (inr refData, w3) ->
    ask (GitCreateRef owner repo (js "refs/heads/" ++ branch) (object_sha refData)) w3
      = (inl e, w4) ->
    EnsureRun st
      (mkOutcome (inl (handleApiError e)) (after w4 st)
         [exchange lookupRef (inl e0);
          exchange (ReposGet owner repo) (inr repoData);
          exchange (GitGetRef owner repo (js "heads/" ++ default_branch repoData))
            (inr refData);
          exchange (GitCreateRef owner repo (js "refs/heads/" ++ branch)
                      (object_sha refData)) (inl e)])
| ensure_created e0 w1 repoData w2 refData w3 data w4 :
    ask lookupRef (world st) = (inl e0, w1) ->
    statusOf e0 = Some 404 ->
    ask (ReposGet owner repo) w1 = (inr repoData, w2) ->
    ask (GitGetRef owner repo (js "heads/" ++ default_branch repoData)) w2
      = (inr refData, w3) ->
    ask (GitCreateRef owner repo (js "refs/heads/" ++ branch) (object_sha refData)) w3
      = (inr data, w4) ->
    EnsureRun st
      (mkOutcome (inr false) (after w4 st)
         [exchange lookupRef (inl e0);
          exchange (ReposGet owner repo) (inr repoData);
          exchange (GitGetRef owner repo (js "heads/" ++ default_branch repoData))
            (inr refData);
          exchange (GitCreateRef owner repo (js "refs/heads/" ++ branch)
                      (object_sha refData)) (inr data)]).

Context (files : list FileArg) (message : JsString).

Definition contentLookup (file : FileArg) : Call :=
  ReposGetContent owner repo (path file) (Some branch).

Definition entryOf (file : FileArg) : TreeEntry :=
  mkTreeEntry (path file) (js "100644") (js "blob") (content file).

Definition pushResult (commitSha : JsString) : JsVal :=
  JObj [(js "success", JBool true);
        (js "branch", JStr branch);
        (js "commit",
         JObj [(js "sha", JStr commitSha);
               (js "message", JStr message);
               (js "url",
                JStr (js "https://github.com/" ++ owner ++ js "/" ++ repo
                      ++ js "/commit/" ++ commitSha))]);
        (js "files", JArr (List.map (fun file => JStr (path file)) files))].

Inductive PushRun (st : State W) : Outcome W JsVal -> Prop :=
| push_ensure_error e st1 t :
    ensureBranch remote github owner repo branch st = mkOutcome (inl e) st1 t ->
    PushRun st (mkOutcome (inl e) st1 t)
| push_head_error existed st1 t e w2 :
    ensureBranch remote github owner repo branch st
      = mkOutcome (inr existed) st1 t ->
    ask lookupRef (world st1) = (inl e, w2) ->
    PushRun st
      (mkOutcome (inl e) (after w2 st1) (t ++ [exchange lookupRef (inl e)]))
| push_commit_read_error existed st1 t refData w2 e w3 :
    ensureBranch remote github owner repo branch st
      = mkOutcome (inr existed) st1 t ->
    ask lookupRef (world st1) = (inr refData, w2) ->
    ask (GitGetCommit owner repo (object_sha refData)) w2 = (inl e, w3) ->
    PushRun st
      (mkOutcome (inl e) (after w3 st1)
         (t ++ [exchange lookupRef (inr refData);
                exchange (GitGetCommit owner repo (object_sha refData)) (inl e)]))
| push_lookup_rejected existed st1 t refData w2 commitData w3 settled st4 tl e :
    ensureBranch remote github owner repo branch st
      = mkOutcome (inr existed) st1 t ->
    ask lookupRef (world st1) = (inr refData, w2) ->
    ask (GitGetCommit owner repo (object_sha refData)) w2 = (inr commitData, w3) ->
    settleAll (List.map (treeEntryFor remote github owner repo branch) files)
      (after w3 st1) = mkOutcome (inr settled) st4 tl ->
    firstRejection settled = Some e ->
    PushRun st
      (mkOutcome (inl e) st4
         (t ++ [exchange lookupRef (inr refData);
                exchange (GitGetCommit owner repo (object_sha refData))
                  (inr commitData)] ++ tl))
| push_tree_error existed st1 t refData w2 commitData w3 settled st4 tl e w5 :
    ensureBranch remote github owner repo branch st
      = mkOutcome (inr existed) st1 t ->
    ask lookupRef (world st1) = (inr refData, w2) ->
    ask (GitGetCommit owner repo (object_sha refData)) w2 = (inr commitData, w3) ->
    settleAll (List.map (treeEntryFor remote github owner repo branch) files)
      (after w3 st1) = mkOutcome (inr settled) st4 tl ->
    firstRejection settled = None ->
    ask (GitCreateTree owner repo (tree_sha commitData) (fulfilled settled))
      (world st4) = (inl e, w5) ->
    PushRun st
      (mkOutcome (inl e) (after w5 st4)
         (t ++ [exchange lookupRef (inr refData);
                exchange (GitGetCommit owner repo (object_sha refData))
                  (inr commitData)] ++ tl
            ++ [exchange (GitCreateTree owner repo (tree_sha commitData)
                            (fulfilled settled)) (inl e)]))
| push_commit_error existed st1 t refData w2 commitData w3 settled st4 tl
    newTree w5 e w6 :
    ensureBranch remote github owner repo branch st
      = mkOutcome (inr existed) st1 t ->
    ask lookupRef (world st1) = (inr refData, w2) ->
    ask (GitGetCommit owner repo (object_sha refData)) w2 = (inr commitData, w3) ->
    settleAll (List.map (treeEntryFor remote github owner repo branch) files)
      (after w3 st1) = mkOutcome (inr settled) st4 tl ->
    firstRejection settled = None ->
    ask (GitCreateTree owner repo (tree_sha commitData) (fulfilled settled))
      (world st4) = (inr newTree, w5) ->
    ask (GitCreateCommit owner repo message (sha newTree) [object_sha refData]) w5
      = (inl e, w6) ->
    PushRun st
      (mkOutcome (inl e) (after w6 st4)
         (t ++ [exchange lookupRef (inr refData);
                exchange (GitGetCommit owner repo (object_sha refData))
                  (inr commitData)] ++ tl
            ++ [exchange (GitCreateTree owner repo (tree_sha commitData)
                            (fulfilled settled)) (inr newTree);
                exchange (GitCreateCommit owner repo message (sha newTree)
                            [object_sha refData]) (inl e)]))
| push_update_error existed st1 t refData w2 commitData w3 settled st4 tl
    newTree w5 newCommit w6 e w7 :
    ensureBranch remote github owner repo branch st
      = mkOutcome (inr existed) st1 t ->
    ask lookupRef (world st1) = (inr refData, w2) ->
    ask (GitGetCommit owner repo (object_sha refData)) w2 = (inr commitData, w3) ->
    settleAll (List.map (treeEntryFor remote github owner repo branch) files)
      (after w3 st1) = mkOutcome (inr settled) st4 tl ->
    firstRejection settled = None ->
    ask (GitCreateTree owner repo (tree_sha commitData) (fulfilled settled))
      (world st4) = (inr newTree, w5) ->
    ask (GitCreateCommit owner repo message (sha newTree) [object_sha refData]) w5
      = (inr newCommit, w6) ->
    ask (GitUpdateRef owner repo (js "heads/" ++ branch) (sha newCommit)) w6
      = (inl e, w7) ->
    PushRun st
      (mkOutcome (inl e) (after w7 st4)
         (t ++ [exchange lookupRef (inr refData);
                exchange (GitGetCommit owner repo (object_sha refData))
                  (inr commitData)] ++ tl
            ++ [exchange (GitCreateTree owner repo (tree_sha commitData)
                            (fulfilled settled)) (inr newTree);
                exchange (GitCreateCommit owner repo message (sha newTree)
                            [object_sha refData]) (inr newCommit);
                exchange (GitUpdateRef owner repo (js "heads/" ++ branch)
                            (sha newCommit)) (inl e)]))
| push_done existed st1 t refData w2 commitData w3 settled st4 tl
    newTree w5 newCommit w6 updated w7 :
    ensureBranch remote github owner repo branch st
      = mkOutcome (inr existed) st1 t ->
    ask lookupRef (world st1) = (inr refData, w2) ->
    ask (GitGetCommit owner repo (object_sha refData)) w2 = (inr commitData, w3) ->
    settleAll (List.map (treeEntryFor remote github owner repo branch) files)
      (after w3 st1) = mkOutcome (inr settled) st4 tl ->
    firstRejection settled = None ->
    ask (GitCreateTree owner repo (tree_sha commitData) (fulfilled settled))
      (world st4) = (inr newTree, w5) ->
    ask (GitCreateCommit owner repo message (sha newTree) [object_sha refData]) w5
      = (inr newCommit, w6) ->
    ask (GitUpdateRef owner repo (js "heads/" ++ branch) (sha newCommit)) w6
      = (inr updated, w7) ->
    PushRun st
      (mkOutcome (inr (pushResult (sha newCommit))) (after w7 st4)
         (t ++ [exchange lookupRef (inr refData);
                exchange (GitGetCommit owner repo (object_sha refData))
                  (inr commitData)] ++ tl
            ++ [exchange (GitCreateTree owner repo (tree_sha commitData)
                            (fulfilled settled)) (inr newTree);
                exchange (GitCreateCommit owner repo message (sha newTree)
                            [object_sha refData]) (inr newCommit);
                exchange (GitUpdateRef owner repo (js "heads/" ++ branch)
                            (sha newCommit)) (inr updated)])).

End WithRemote.

(** The four steps of the commit sequence that follow the head read. *)
Definition isCommitStep (c : Call) : bool :=
  match c with
  | GitGetCommit _ _ _ | GitCreateTree _ _ _ _
  | GitCreateCommit _ _ _ _ _ | GitUpdateRef _ _ _ _ => true
  | _ => false
  end.

Definition isRefLookup (c : Call) : bool :=
  match c with GitGetRef _ _ _ => true | _ => false end.

Definition isContentLookup (c : Call) : bool :=
  match c with ReposGetContent _ _ _ _ => true | _ => false end.

Definition isRefUpdate (c : Call) : bool :=
  match c with GitUpdateRef _ _ _ _ => true | _ => false end.

End Runs.

(** ** The calls of the [pushFiles] handler *)
Module Calls.
Import Async Octokit GithubApi Files Runs ErrorHandling.

Section WithRemote.
Context {W : Type} (remote : Remote W) (env : Env) (stringify : JsVal -> JsString).

(** The three ways a [pushFiles] call can go: rejected by the validator,
    stopped by a missing credential, or the commit engine run under
    [tryCatchAsync]. *)
Inductive PushCall (args : JsVal) (st : State W) : Outcome W JsVal -> Prop :=
| push_invalid issue issues out :
    Zod.run Validation.PushFilesSchema [] args = (issue :: issues, out) ->
    PushCall args st
      (mkOutcome
         (inl (ZodError (issue :: issues)
                 (stringify (JArr (List.map Zod.issueToJs (issue :: issues))))))
         st [])
| push_unconfigured parsed e :
    Zod.run Validation.PushFilesSchema [] args = ([], parsed) ->
    result (getGitHubApi env st) = inl e ->
    PushCall args st (mkOutcome (inl e) (final (getGitHubApi env st)) [])
| push_engine parsed github o :
    Zod.run Validation.PushFilesSchema [] args = ([], parsed) ->
    result (getGitHubApi env st) = inr github ->
    o = pushFilesBody remote github
          (asString (prop parsed "owner")) (asString (prop parsed "repo"))
          (asString (prop parsed "branch"))
          (List.map asFile (asArray (prop parsed "files")))
          (asString (prop parsed "message"))
          (final (getGitHubApi env st)) ->
    PushCall args st
      (mkOutcome
         match result o with
         | inr r => inr r
         | inl e => inl (rethrown (js "Failed to push files") e)
         end
         (final o) (trace o)).

End WithRemote.

End Calls.

(** ** Vocabulary for the dispatcher *)
Module Dispatch.

(** The argument bag the handlers receive: a textual bag is deserialized,
    any other value is passed on as it is.  [None]: the text is not JSON. *)
Definition bagOf (args : JsVal) : option JsVal :=
  match args with
  | JStr text => JSON.parse text
  | _ => Some args
  end.

(** The response envelope of a successful call. *)
Definition envelope (stringify : JsVal -> JsString) (result : JsVal) : JsVal :=
  JObj [(js "content",
         JArr [JObj [(js "type", JStr (js "text"));
                     (js "text", JStr (stringify result))]])].

(** What the dispatcher throws when a handler throws [e]. *)
Definition dispatched (name : JsString) (e : JsError) : JsError :=
  if isMcpError e then e
  else McpError InternalError
         (js "Error executing tool " ++ name ++ js ": " ++ messageOf e).

End Dispatch.

(** ** src/server.ts: the handler of [ListToolsRequestSchema]

    The descriptor the server advertises for each tool: its name, the
    property names of its [inputSchema], the [required] list and
    [additionalProperties]. *)
Module ToolList.

Record ToolDescriptor : Type := mkTool {
  tool_name : JsString;
  tool_properties : list JsString;
  tool_required : list JsString;
  tool_additionalProperties : bool
}.

Definition tool (name : String.string) (properties required : list String.string)
    (additionalProperties : bool) : ToolDescriptor :=
  mkTool (js name) (List.map js properties) (List.map js required)
    additionalProperties.

Local Open Scope string_scope.

Definition tools : list ToolDescriptor :=
  [
    tool "search-repositories"
      ["query"; "page"; "perPage"]
      ["query"] false;
    tool "create-repository"
      ["name"; "description"; "private"; "autoInit"]
      ["name"] false;
    tool "update-repository"
      ["owner"; "repo"; "description"; "private"; "default_branch"; "has_issues"; "has_projects"; "has_wiki"; "archived"]
      ["owner"; "repo"] false;
    tool "delete-repository"
      ["owner"; "repo"; "confirm"]
      ["owner"; "repo"; "confirm"] false;
    tool "create-branch"
      ["owner"; "repo"; "branch"; "from_branch"]
      ["owner"; "repo"; "branch"] false;
    tool "list-commits"
      ["owner"; "repo"; "sha"; "page"; "perPage"]
      ["owner"; "repo"] false;
    tool "list-workflows"
      ["owner"; "repo"; "page"; "perPage"]
      ["owner"; "repo"] false;
    tool "list-workflow-runs"
      ["owner"; "repo"; "workflow_id"; "branch"; "status"; "page"; "perPage"]
      ["owner"; "repo"] false;
    tool "trigger-workflow"
      ["owner"; "repo"; "workflow_id"; "ref"; "inputs"]
      ["owner"; "repo"; "workflow_id"; "ref"] false;
    tool "create-or-update-file"
      ["owner"; "repo"; "path"; "content"; "message"; "branch"; "sha"]
      ["owner"; "repo"; "path"; "content"; "message"; "branch"] false;
    tool "push-files"
      ["owner"; "repo"; "branch"; "files"; "message"]
      ["owner"; "repo"; "branch"; "files"; "message"] false;
    tool "get-file-contents"
      ["owner"; "repo"; "path"; "branch"]
      ["owner"; "repo"; "path"] false;
    tool "fork-repository"
      ["owner"; "repo"; "organization"]
      ["owner"; "repo"] false;
    tool "list-issues"
      ["owner"; "repo"; "state"; "labels"; "sort"; "direction"; "since"; "page"; "per_page"]
      ["owner"; "repo"] false;
    tool "get-issue"
      ["owner"; "repo"; "issue_number"]
      ["owner"; "repo"; "issue_number"] false;
    tool "create-issue"
      ["owner"; "repo"; "title"; "body"; "assignees"; "milestone"; "labels"]
      ["owner"; "repo"; "title"] false;
    tool "update-issue"
      ["owner"; "repo"; "issue_number"; "title"; "body"; "assignees"; "milestone"; "labels"; "state"]
      ["owner"; "repo"; "issue_number"] false;
    tool "add-issue-comment"
      ["owner"; "repo"; "issue_number"; "body"]
      ["owner"; "repo"; "issue_number"; "body"] false;
    tool "list-pull-requests"
      ["owner"; "repo"; "state"; "head"; "base"; "sort"; "direction"; "per_page"; "page"]
      ["owner"; "repo"] false;
    tool "get-pull-request"
      ["owner"; "repo"; "pull_number"]
      ["owner"; "repo"; "pull_number"] false;
    tool "create-pull-request"
      ["owner"; "repo"; "title"; "body"; "head"; "base"; "draft"; "maintainer_can_modify"]
      ["owner"; "repo"; "title"; "head"; "base"] false;
    tool "create-pull-request-review"
      ["owner"; "repo"; "pull_number"; "commit_id"; "body"; "event"; "comments"]
      ["owner"; "repo"; "pull_number"; "body"; "event"] false;
    tool "merge-pull-request"
      ["owner"; "repo"; "pull_number"; "commit_title"; "commit_message"; "merge_method"]
      ["owner"; "repo"; "pull_number"] false;
    tool "get-pull-request-files"
      ["owner"; "repo"; "pull_number"]
      ["owner"; "repo"; "pull_number"] false;
    tool "get-pull-request-status"
      ["owner"; "repo"; "pull_number"]
      ["owner"; "repo"; "pull_number"] false;
    tool "update-pull-request-branch"
      ["owner"; "repo"; "pull_number"; "expected_head_sha"]
      ["owner"; "repo"; "pull_number"] false;
    tool "get-pull-request-comments"
      ["owner"; "repo"; "pull_number"]
      ["owner"; "repo"; "pull_number"] false;
    tool "get-pull-request-reviews"
      ["owner"; "repo"; "pull_number"]
      ["owner"; "repo"; "pull_number"] false;
    tool "search-code"
      ["q"; "order"; "page"; "per_page"]
      ["q"] false;
    tool "search-issues"
      ["q"; "order"; "page"; "per_page"; "sort"]
      ["q"] false;
    tool "search-users"
      ["q"; "order"; "page"; "per_page"; "sort"]
      ["q"] false;
    tool "get-license-info"
      []
      [] false;
    tool "get-enterprise-stats"
      []
      [] false
  ].

Definition descriptorOf (name : JsString) : option ToolDescriptor :=
  List.find (fun t => eqbStr (tool_name t) name) tools.

End ToolList.

(** A schema that does not accept [undefined]: a field with such a schema
    is a required field. *)
Fixpoint rejectsUndefined (s : Zod.Schema) : bool :=
  match s with
  | Zod.ZOptional _ => false
  | Zod.ZUnion first second => rejectsUndefined first && rejectsUndefined second
  | Zod.ZRefine inner _ _ => rejectsUndefined inner
  | _ => true
  end.

(** Ranges of the codec's data: a byte of a [Buffer], a UTF-16 code unit of
    a JavaScript string, a Unicode scalar value (a code point that is not a
    surrogate). *)
Definition isByte (b : Z) : Prop := 0 <= b < 256.
Definition isCodeUnit (u : Z) : Prop := 0 <= u < 65536.
Definition isScalar (cp : Z) : Prop :=
  0 <= cp < 0x110000 /\ ~ (0xD800 <= cp <= 0xDFFF).

(** The content a call hands to the service, when the call writes a file. *)
Definition sentContent (c : Octokit.Call) : option JsString :=
  match c with
  | Octokit.ReposCreateOrUpdateFileContents _ _ _ _ content _ _ => Some content
  | _ => None
  end.

(** The entry an exchange served, when the exchange is a content lookup
    that the service answered with a single entry. *)
Definition servedItem (ev : Octokit.Event) : option Octokit.ContentItem :=
  match ev with
  | Octokit.mkEvent _ c r =>
      match c return JsError + Octokit.Resp c -> option Octokit.ContentItem with
      | Octokit.ReposGetContent _ _ _ _ =>
          fun r => match r with
                   | inr (Octokit.Single item) => Some item
                   | _ => None
                   end
      | _ => fun _ => None
      end r
  end.

(** ** A test double that keeps file contents

    The service stores, path by path, the base64 text a write hands to
    it, and serves it back the way the content API does: in lines of
    sixty characters, each ended by a line feed.  Every branch exists. *)
Module FileStore.
Import Octokit.

Definition World : Type := gmap JsString JsString.

Fixpoint lines (width col : nat) (text : JsString) : JsString :=
  match text with
  | [] => [10]
  | u :: rest =>
      match col with
      | O => 10 :: u :: lines width (Nat.pred width) rest
      | S col' => u :: lines width col' rest
      end
  end.

Definition notFound : JsError := OtherError (Some 404) (js "Not Found") None.

Definition answer (client : Client) (c : Call) (w : World) : (JsError + Resp c) * World :=
  match c return (JsError + Resp c) * World with
  | GitGetRef _ _ _ => (inr (mkRef (js "c0")), w)
  | ReposCreateOrUpdateFileContents _ _ path message content _ _ =>
      (inr (mkFileCommit
              (Some (mkFileInfo (JStr path) (JStr path) (JStr (js "blob1"))
                       JUndefined JUndefined))
              (mkCommitInfo (JStr (js "c1")) JUndefined (JStr message)
                 JUndefined JUndefined)),
       <[path := content]> w)
  | ReposGetContent _ _ path _ =>
      match w !! path with
      | Some text =>
          (inr (Single (mkContentItem (JStr path) (JStr path) (JStr (js "blob1"))
                          JUndefined (js "file") JUndefined JUndefined
                          (Some (lines 60 60 text)) (JStr (js "base64")))),
           w)
      | None => (inl notFound, w)
      end
  | _ => (inl notFound, w)
  end.

Definition remote : Remote World := mkRemote World answer.

Definition start : Async.State World := Async.mkState ∅ None.

(** A text of eighty-one code units, with a tab, a line feed, and
    characters of two, three and four bytes. *)
Definition text : JsString :=
  InMemory.sample ++ js "; the quick brown fox jumps over the lazy dog, twice over; "
    ++ [10] ++ InMemory.sample ++ InMemory.sample.

Definition writeBag : JsVal :=
  JObj [(js "owner", JStr (js "acme")); (js "repo", JStr (js "widgets"));
        (js "path", JStr (js "notes.txt")); (js "content", JStr text);
        (js "message", JStr (js "M")); (js "branch", JStr (js "main"))].

Definition readBag : JsVal :=
  JObj [(js "owner", JStr (js "acme")); (js "repo", JStr (js "widgets"));
        (js "path", JStr (js "notes.txt")); (js "branch", JStr (js "main"))].

Definition written : Async.Outcome World JsVal :=
  Files.createOrUpdateFile remote InMemory.env InMemory.stringify writeBag start.

Definition readBack : Async.Outcome World JsVal :=
  Files.getFileContents remote InMemory.env InMemory.stringify readBag
    (Async.final written).

End FileStore.

(** ** src/utils/error-handling.ts: the synchronous wrapper and the
    environment check

    [tryCatch] takes a function that returns or throws without awaiting
    anything; [validateEnvVariables] reads [process.env], here the
    function from a variable's name to its value, [None] when unset. *)
Module Sync.

Definition tryCatch {A : Type} (fn : JsError + A) (errorMessage : JsString)
  : JsError + A :=
  match fn with
  | inr a => inr a
  | inl error =>
      if isMcpError error then inl error
      else inl (McpError InternalError (errorMessage ++ js ": " ++ messageOf error))
  end.

(** [parts.join(separator)] *)
Fixpoint join (separator : JsString) (parts : list JsString) : JsString :=
  match parts with
  | [] => []
  | [part] => part
  | part :: rest => part ++ separator ++ join separator rest
  end.

Definition validateEnvVariables (processEnv : JsString -> option JsString)
    (variables : list JsString) : JsError + unit :=
  let missing :=
    List.filter (fun variable => negb (ErrorHandling.truthy (processEnv variable)))
      variables in
  if (0 <? List.length missing)%nat then
    inl (McpError ConfigurationError
           (js "Missing required environment variables: " ++ join (js ", ") missing))
  else inr tt.

(** The two variables the sources read, as [process.env] holds them. *)
Definition reads (processEnv : JsString -> option JsString) (env : Env) : Prop :=
  processEnv (js "GITHUB_PERSONAL_ACCESS_TOKEN") = GITHUB_PERSONAL_ACCESS_TOKEN env
  /\ processEnv (js "GITHUB_API_URL") = GITHUB_API_URL env.

(** The first statement of the constructor of [GitHubEnterpriseServer]. *)
Definition startupCheck (processEnv : JsString -> option JsString) : JsError + unit :=
  validateEnvVariables processEnv [js "GITHUB_PERSONAL_ACCESS_TOKEN"].

End Sync.

(** An outcome that, when it is an error, is a classified one: the
    adapter's classification of the error of the last exchange made. *)
Definition throwsClassified {W A : Type} (o : Async.Outcome W A) : Prop :=
  forall e, Async.result o = inl e ->
    isMcpError e = true
    /\ exists ev e0,
         last (Async.trace o) = Some ev /\ Octokit.ev_error ev = Some e0
         /\ e = GithubApi.handleApiError e0.

(** ** The schema each handler parses its bag with

    The first statement of every handler of repository.ts, issues.ts,
    pull-requests.ts and search.ts that takes arguments, and of the first
    three handlers of files.ts, is [Schema.parse(args)]; this is the
    schema, by the name of the tool the handler serves. *)
Module Parsing.
Import Validation.

Definition schemaOf : list (JsString * Zod.Schema) :=
  [ (js "search-repositories", SearchRepositoriesSchema);
    (js "create-repository", CreateRepositorySchema);
    (js "update-repository", UpdateRepositorySchema);
    (js "delete-repository", DeleteRepositorySchema);
    (js "create-branch", CreateBranchSchema);
    (js "list-commits", ListCommitsSchema);
    (js "list-workflows", ListWorkflowsSchema);
    (js "list-workflow-runs", ListWorkflowRunsSchema);
    (js "trigger-workflow", TriggerWorkflowSchema);
    (js "create-or-update-file", CreateOrUpdateFileSchema);
    (js "push-files", PushFilesSchema);
    (js "get-file-contents", GetFileContentsSchema);
    (js "list-issues", ListIssuesSchema);
    (js "get-issue", GetIssueSchema);
    (js "create-issue", CreateIssueSchema);
    (js "update-issue", UpdateIssueSchema);
    (js "add-issue-comment", AddIssueCommentSchema);
    (js "list-pull-requests", ListPullRequestsSchema);
    (js "get-pull-request", GetPullRequestSchema);
    (js "create-pull-request", CreatePullRequestSchema);
    (js "create-pull-request-review", CreatePullRequestReviewSchema);
    (js "merge-pull-request", MergePullRequestSchema);
    (js "get-pull-request-status", GetPullRequestStatusSchema);
    (js "update-pull-request-branch", UpdatePullRequestBranchSchema);
    (js "get-pull-request-comments", GetPullRequestCommentsSchema);
    (js "get-pull-request-reviews", GetPullRequestReviewsSchema);
    (js "search-code", SearchCodeSchema);
    (js "search-issues", SearchIssuesSchema);
    (js "search-users", SearchUsersSchema) ].

(** The keys of an object schema, and those whose schema does not accept
    [undefined]. *)
Definition shapeOf (schema : Zod.Schema) : list (JsString * Zod.Schema) :=
  match schema with
  | Zod.ZObject shape => shape
  | _ => []
  end.

Definition keysOf (schema : Zod.Schema) : list JsString :=
  List.map fst (shapeOf schema).

Definition requiredOf (schema : Zod.Schema) : list JsString :=
  List.map fst (List.filter (fun kv => rejectsUndefined (snd kv)) (shapeOf schema)).

End Parsing.

(** [k in v] for a value that may not be an object *)
Definition hasKey (v : JsVal) (k : String.string) : bool :=
  match v with
  | JObj props => hasProp props (js k)
  | _ => false
  end.

(** ** src/tools/pull-requests.ts: [getPullRequestFiles]

    The handler of the same name as the one in files.ts that the server
    imports; this one parses its bag. *)
Module PullRequests.
Import Async Octokit ErrorHandling GithubApi Validation.

Section WithRemote.
Context {W : Type} (remote : Remote W) (env : Env) (stringify : JsVal -> JsString).

Definition getPullRequestFiles (args : JsVal) : M W JsVal :=
  parsed <- Files.parse stringify GetPullRequestFilesSchema args ;;
  let owner := prop parsed "owner" in
  let repo := prop parsed "repo" in
  let pull_number := prop parsed "pull_number" in
  github <- getGitHubApi env ;;
  tryCatchAsync
    (data <- call remote (octokit github) (PullsListFiles owner repo pull_number) ;;
     ret (JArr (List.map Files.pullFileToJs data)))
    (js "Failed to get pull request files").

End WithRemote.

End PullRequests.

(** A character of a base64 text: the padding sign or a character of the
    alphabet. *)
Definition base64Char_ok (c : Z) : Prop :=
  c = 61 \/ exists v, Buffer.unbase64 c = Some v.

(** ** The MCP SDK the repository ships (mcp-sdk): server and transport

    [Server] keeps its handlers in a [Map] keyed by the id of the request
    schema they were registered with; the transport hands each request to
    [onRequest] and writes one JSON-RPC response for its outcome.  A
    request is taken as the transport's code reads it: an object with a
    [method] (a string), [params] and [id].  What [onerror] logs is not
    part of the model. *)
Module Sdk.
Import Async.

Record RequestSchema : Type := mkRequestSchema {
  schema_id : option JsString;
  schema_name : option JsString
}.

Definition CallToolRequestSchema : RequestSchema :=
  mkRequestSchema (Some (js "call_tool")) None.
Definition ListToolsRequestSchema : RequestSchema :=
  mkRequestSchema (Some (js "list_tools")) None.
Definition ListResourcesRequestSchema : RequestSchema :=
  mkRequestSchema (Some (js "list_resources")) None.
Definition ListResourceTemplatesRequestSchema : RequestSchema :=
  mkRequestSchema (Some (js "list_resource_templates")) None.
Definition ReadResourceRequestSchema : RequestSchema :=
  mkRequestSchema (Some (js "read_resource")) None.

Record Request : Type := mkRequest {
  method : JsString;
  params : JsVal;
  id : JsVal
}.

(** [schema.id || schema.name || 'unknown'] *)
Definition schemaId (schema : RequestSchema) : JsString :=
  if ErrorHandling.truthy (schema_id schema) then default [] (schema_id schema)
  else if ErrorHandling.truthy (schema_name schema) then default [] (schema_name schema)
  else js "unknown".

Section WithWorld.
Context {W : Type}.

(** [this.handlers] *)
Definition Handlers : Type := gmap JsString (JsVal -> M W JsVal).

Definition setRequestHandler (handlers : Handlers) (schema : RequestSchema)
    (handler : JsVal -> M W JsVal) : Handlers :=
  <[schemaId schema := handler]> handlers.

(** [this.handlers.get(request.method) || this.handlers.get('unknown')] *)
Definition handlerFor (handlers : Handlers) (request : Request)
  : option (JsVal -> M W JsVal) :=
  match handlers !! method request with
  | Some handler => Some handler
  | None => handlers !! js "unknown"
  end.

(** [transport.onRequest], as [connect] sets it *)
Definition onRequest (handlers : Handlers) (request : Request) : M W JsVal :=
  tryCatch
    (match handlerFor handlers request with
     | Some handler => handler (JObj [(js "params", params request)])
     | None =>
         throw (McpError MethodNotFound (js "Method not found: " ++ method request))
     end)
    (fun error => throw error).

(** The two registrations of [setupRequestHandlers] in server.ts. *)
Definition setupRequestHandlers (listTools callTool : JsVal -> M W JsVal) : Handlers :=
  setRequestHandler (setRequestHandler ∅ ListToolsRequestSchema listTools)
    CallToolRequestSchema callTool.

End WithWorld.

(** [error.code] of a thrown value: the code of a classified error; the
    errors of the validator and plain [Error] objects have none. *)
Definition codeOf (error : JsError) : option Z :=
  match error with
  | McpError code _ => Some (errorCodeValue code)
  | _ => None
  end.

(** The response the transport writes: for a fulfilled request and, in
    [catch], for a rejected one. *)
Definition response (request : Request) (outcome : JsError + JsVal) : JsVal :=
  match outcome with
  | inr result =>
      JObj [(js "jsonrpc", JStr (js "2.0"));
            (js "id", id request);
            (js "result", result)]
  | inl error =>
      JObj [(js "jsonrpc", JStr (js "2.0"));
            (js "id", id request);
            (js "error",
             JObj [(js "code",
                    JNum (inject_Z
                            match codeOf error with
                            | Some 0 | None => -32603
                            | Some code => code
                            end));
                   (js "message",
                    JStr match messageOf error with
                         | [] => js "Unknown error"
                         | message => message
                         end)])]
  end.

End Sdk.

(** ** src/server.ts: the tool-call handler as registered, behind the transport

    The function registered for [CallToolRequestSchema] destructures
    [request.params] before its [try] block; that statement throws a
    [TypeError] when [params] is [undefined] or [null], and reads
    [undefined] for a property the value does not have.  The labels of
    the [switch] are strings, so a [name] that is not a string goes to
    [default].  [toText] is the conversion a template literal applies to
    [name] there.  The wording of the [TypeError] belongs to the engine. *)
Module GitHubEnterpriseServer.
Import Async Octokit ErrorHandling.

Section WithRemote.
Context {W : Type} (remote : Remote W) (env : Env)
        (stringify toText : JsVal -> JsString) (bodies : Tools.Bodies W).

(** [const { name, arguments: args } = request.params;] *)
Definition destructure (params : JsVal) : M W (JsVal * JsVal) :=
  match params with
  | JUndefined =>
      throw (OtherError None
               (js "Cannot destructure property 'name' of 'request.params' as it is undefined.")
               None)
  | JNull =>
      throw (OtherError None
               (js "Cannot destructure property 'name' of 'request.params' as it is null.")
               None)
  | _ => ret (prop params "name", prop params "arguments")
  end.

(** The [async (request) => ...] passed to [setRequestHandler]. *)
Definition callToolHandler (request : JsVal) : M W JsVal :=
  fields <- destructure (prop request "params") ;;
  let args := snd fields in
  match fst fields with
  | JStr name => Server.callTool remote env stringify bodies name args
  | name =>
      tryCatch
        (_ <- match args with
              | JStr text => safeJsonParse text (js "Invalid JSON")
              | _ => ret args
              end ;;
         throw (McpError MethodNotFound (js "Unknown tool: " ++ toText name)))
        (fun error =>
           if isMcpError error then throw error
           else throw (McpError InternalError
                         (js "Error executing tool " ++ toText name ++ js ": "
                          ++ messageOf error)))
  end.

(** [setupRequestHandlers], with the handler above for tool calls. *)
Definition handlers (listTools : JsVal -> M W JsVal) : Sdk.Handlers :=
  Sdk.setupRequestHandlers listTools callToolHandler.

(** What the transport's [data] listener does with a request it has
    read: [onRequest], then the response it writes. *)
Definition onRequest (listTools : JsVal -> M W JsVal) (request : Sdk.Request)
  : M W JsVal :=
  Sdk.onRequest (handlers listTools) request.

Definition answer (listTools : JsVal -> M W JsVal) (request : Sdk.Request)
    (st : State W) : JsVal :=
  Sdk.response request (result (onRequest listTools request st)).

End WithRemote.

End GitHubEnterpriseServer.

(** ** src/tools/repository.ts: [createBranch]

    The body of the handler of [create-branch], the one body of
    repository.ts whose client calls are all among those modelled.
    [member] is a property read [v.k], which throws a [TypeError] on
    [undefined] and on [null]. *)
Module Repository.
Import Async Octokit ErrorHandling GithubApi Validation.

Section WithRemote.
Context {W : Type} (remote : Remote W) (env : Env) (stringify : JsVal -> JsString).

Definition member (v : JsVal) (k : String.string) : M W JsVal :=
  match v with
  | JUndefined =>
      throw (OtherError None
               (js "Cannot read properties of undefined (reading '" ++ js k ++ js "')")
               None)
  | JNull =>
      throw (OtherError None
               (js "Cannot read properties of null (reading '" ++ js k ++ js "')")
               None)
  | _ => ret (prop v k)
  end.

Definition createBranchBody (github : GitHubApi) (parsed : JsVal) : M W JsVal :=
  let owner := asString (prop parsed "owner") in
  let repo := asString (prop parsed "repo") in
  let branch := asString (prop parsed "branch") in
  let from_branch := asOptionalString (prop parsed "from_branch") in
  found <-
    tryCatch
      (_ <- call remote (octokit github) (GitGetRef owner repo (js "heads/" ++ branch)) ;;
       ret true)
      (fun error =>
         match statusOf error with
         | Some 404 => ret false
         | _ => throw error
         end) ;;
  if found : bool then
    ret (JObj [(js "success", JBool false);
               (js "message",
                JStr (js "Branch '" ++ branch ++ js "' already exists in "
                      ++ owner ++ js "/" ++ repo))])
  else
    sourceBranch <-
      (if truthy from_branch then ret (default [] from_branch)
       else getDefaultBranch remote github owner repo) ;;
    refData <- call remote (octokit github)
                 (GitGetRef owner repo (js "heads/" ++ sourceBranch)) ;;
    data <- call remote (octokit github)
              (GitCreateRef owner repo (js "refs/heads/" ++ branch)
                 (object_sha refData)) ;;
    ref <- member data "ref" ;;
    url <- member data "url" ;;
    object <- member data "object" ;;
    objectSha <- member object "sha" ;;
    objectType <- member object "type" ;;
    objectUrl <- member object "url" ;;
    ret (JObj [(js "success", JBool true);
               (js "ref", ref);
               (js "url", url);
               (js "object",
                JObj [(js "sha", objectSha);
                      (js "type", objectType);
                      (js "url", objectUrl)]);
               (js "message",
                JStr (js "Branch '" ++ branch ++ js "' created from '" ++ sourceBranch
                      ++ js "' in " ++ owner ++ js "/" ++ repo))]).

Definition createBranch : JsVal -> M W JsVal :=
  Tools.validated env stringify CreateBranchSchema createBranchBody
    "Failed to create branch".

End WithRemote.

End Repository.

(** A probe the commit engine does not mind: it succeeded, or it failed
    with status 404. *)
Definition tolerated (ev : Octokit.Event) : Prop :=
  forall e, Octokit.ev_error ev = Some e -> statusOf e = Some 404.

(** The exchanges that write: a tree, a commit, a ref update. *)
Definition isWrite (c : Octokit.Call) : bool :=
  match c with
  | Octokit.GitCreateTree _ _ _ _ | Octokit.GitCreateCommit _ _ _ _ _
  | Octokit.GitUpdateRef _ _ _ _ => true
  | _ => false
  end.

(** The content lookups among the calls of a trace, in order. *)
Definition lookupsOf (events : list Octokit.Event) : list Octokit.Call :=
  List.filter Runs.isContentLookup (List.map Octokit.ev_call events).

(** * Properties *)

(** ** The models on examples *)

Example fromUtf8_hello : Buffer.toBase64String (Buffer.fromUtf8 (js "hello")) = js "aGVsbG8=".
Proof. reflexivity. Qed.
Example fromBase64_hello : Buffer.toUtf8String (Buffer.fromBase64 (js "aGVs
bG8=")) = js "hello".
Proof. reflexivity. Qed.

Example JSON_parse_bag :
  JSON.parse (jsonText "{ 'owner': 'acme', 'n': [1, -2.5e1, true, null], 's': 'aA\n' }")
  = Some (JObj [(js "owner", JStr (js "acme"));
                (js "n", JArr [JNum 1; JNum (-25); JBool true; JNull]);
                (js "s", JStr [97; 65; 10])]).
Proof. vm_compute. reflexivity. Qed.
Example JSON_parse_bad : JSON.parse (js "{") = None /\ JSON.parse (js "[1,]") = None /\ JSON.parse (js "01") = None /\ JSON.parse (js "{} x") = None.
Proof. vm_compute. auto. Qed.

Example run_push_ok :
  Zod.run Validation.PushFilesSchema []
    (JObj [(js "owner", JStr (js "acme")); (js "repo", JStr (js "w"));
           (js "branch", JStr (js "main")); (js "extra", JNum 1);
           (js "files", JArr [JObj [(js "path", JStr (js "a.txt")); (js "content", JStr (js "x")); (js "zz", JNull)]]);
           (js "message", JStr (js "M"))])
  = ([], JObj [(js "owner", JStr (js "acme")); (js "repo", JStr (js "w"));
           (js "branch", JStr (js "main"));
           (js "files", JArr [JObj [(js "path", JStr (js "a.txt")); (js "content", JStr (js "x"))]]);
           (js "message", JStr (js "M"))]).
Proof. vm_compute. reflexivity. Qed.
Example run_push_bad :
  fst (Zod.run Validation.PushFilesSchema []
    (JObj [(js "owner", JStr (js "")); 
           (js "branch", JNum 3); 
           (js "files", JArr []);
           (js "message", JStr (js "M"))]))
  = [mkIssue too_small [PKey (js "owner")] (js "Repository owner is required");
     mkIssue invalid_type [PKey (js "repo")] (js "Required");
     mkIssue invalid_type [PKey (js "branch")] (js "Expected string, received number");
     mkIssue too_small [PKey (js "files")] (js "At least one file is required")].
Proof. vm_compute. reflexivity. Qed.

(** ** The adapter's error classifier *)

(** C5: the classifier maps upstream status 401 to Unauthorized, 403 to
    Forbidden, 404 to Not Found, 400 and 422 to Invalid Parameters, every
    other status and an absent status to Internal, and returns an error that
    is already classified unchanged. *)
Theorem handleApiError_classification :
  forall (message : JsString) (response : option JsString),
    kindOf (GithubApi.handleApiError (OtherError (Some 401) message response))
      = Some Unauthorized
    /\ kindOf (GithubApi.handleApiError (OtherError (Some 403) message response))
      = Some Forbidden
    /\ kindOf (GithubApi.handleApiError (OtherError (Some 404) message response))
      = Some NotFound
    /\ kindOf (GithubApi.handleApiError (OtherError (Some 400) message response))
      = Some InvalidParams
    /\ kindOf (GithubApi.handleApiError (OtherError (Some 422) message response))
      = Some InvalidParams
    /\ (forall status : Z,
          ~ In status [400; 401; 403; 404; 422] ->
          kindOf (GithubApi.handleApiError (OtherError (Some status) message response))
            = Some InternalError)
    /\ kindOf (GithubApi.handleApiError (OtherError None message response))
      = Some InternalError
    /\ (forall issues text,
          kindOf (GithubApi.handleApiError (ZodError issues text)) = Some InternalError)
    /\ (forall code text,
          GithubApi.handleApiError (McpError code text) = McpError code text).
Proof.
  intros message response.
  repeat split; try reflexivity.
  intros status Hout. simpl in Hout.
  unfold GithubApi.handleApiError; simpl.
  destruct status as [|p|p]; [reflexivity| |reflexivity].
  set (st := Z.pos p) in *.
  destruct (st =? 400) eqn:E0; [apply Z.eqb_eq in E0; lia|].
  destruct (st =? 401) eqn:E1; [apply Z.eqb_eq in E1; lia|].
  destruct (st =? 403) eqn:E3; [apply Z.eqb_eq in E3; lia|].
  destruct (st =? 404) eqn:E4; [apply Z.eqb_eq in E4; lia|].
  destruct (st =? 422) eqn:E22; [apply Z.eqb_eq in E22; lia|].
  reflexivity.
Qed.

Lemma handleApiError_classification_witness :
  ~ In 500 [400; 401; 403; 404; 422]
  /\ kindOf (GithubApi.handleApiError (OtherError (Some 500) (js "boom") None))
     = Some InternalError.
Proof.
  assert (H : ~ In 500 [400; 401; 403; 404; 422]) by (simpl; lia).
  split; [exact H|].
  exact (proj1 (proj2 (proj2 (proj2 (proj2 (proj2
           (handleApiError_classification (js "boom") None)))))) 500 H).
Defined.


(** ** The branch-existence probe *)

Lemma status_404_dec (s : option Z) : {s = Some 404} + {s <> Some 404}.
Proof. decide equality. apply Z.eq_dec. Defined.

Lemma match_not_404 {A} (s : option Z) (a b : A) :
  s <> Some 404 -> match s with Some 404 => a | _ => b end = b.
Proof.
  intros Hne. destruct s as [[|p|p]|]; try reflexivity.
  do 9 (destruct p as [p|p|]; try reflexivity).
  congruence.
Qed.

Section Probe.
Import Async Octokit GithubApi.
Context {W : Type} (remote : Remote W).

(** C4: the probe makes one ref-lookup of [heads/<branch>].  If the lookup
    succeeds the probe returns true; if it fails with status 404 the
    probe returns false and nothing is thrown; if it fails with any other
    error the probe throws: the caller receives that error as the
    adapter classifies it, which is the error itself when it is already
    classified. *)
Theorem branchExists_probe :
  forall (this : GitHubApi) (owner repo branch : JsString) (st : State W),
    let lookup := GitGetRef owner repo (js "heads/" ++ branch) in
    let answer := fst (respond remote (octokit this) lookup (world st)) in
    let o := branchExists remote this owner repo branch st in
    trace o = [mkEvent (octokit this) lookup answer]
    /\ (forall data, answer = inr data -> result o = inr true)
    /\ (forall error, answer = inl error -> statusOf error = Some 404 ->
          result o = inr false)
    /\ (forall error, answer = inl error -> statusOf error <> Some 404 ->
          result o = inl (handleApiError error))
    /\ (forall code text, answer = inl (McpError code text) ->
          result o = inl (McpError code text)).
Proof.
  intros this owner repo branch st lookup answer o.
  subst o answer. unfold branchExists, tryCatch, bind, call, ret, throw.
  fold lookup.
  destruct (respond remote (octokit this) lookup (world st)) as [[error|data] w'];
    cbn [fst result trace final].
  - destruct (status_404_dec (statusOf error)) as [H404|Hne].
    + rewrite H404. cbn.
      repeat split; try reflexivity; intros; try discriminate; try congruence.
      match goal with H : inl _ = inl _ |- _ => injection H as -> end.
      simpl in H404. discriminate H404.
    + rewrite (match_not_404 _ _ _ Hne). cbn.
      repeat split; try reflexivity; intros; try discriminate; try congruence.
      match goal with H : inl _ = inl _ |- _ => injection H as -> end.
      reflexivity.
  - cbn. repeat split; intros; discriminate.
Qed.

End Probe.

Lemma branchExists_probe_witness :
  let o := GithubApi.branchExists InMemory.remote
             (mkGitHubApi (Octokit.mkClient (js "token") None) None)
             (js "acme") (js "widgets") (js "feature-x") InMemory.start in
  Async.result o = inr false.
Proof.
  apply (proj1 (proj2 (proj2
           (branchExists_probe InMemory.remote
              (mkGitHubApi (Octokit.mkClient (js "token") None) None)
              (js "acme") (js "widgets") (js "feature-x") InMemory.start)))
           InMemory.notFound); reflexivity.
Defined.


(** ** Facts about the validator *)

Lemma eachField_nil_inv {S : Type} (f : JsString -> S -> list ZodIssue * JsVal)
    (props : list (JsString * JsVal)) (k : JsString) (sk : S)
    (shape : list (JsString * S)) (out : list (JsString * JsVal)) :
  Zod.eachField f props ((k, sk) :: shape) = ([], out) ->
  exists o1 o2,
    f k sk = ([], o1) /\ Zod.eachField f props shape = ([], o2)
    /\ out = match o1 with
             | JUndefined => if hasProp props k then (k, o1) :: o2 else o2
             | _ => (k, o1) :: o2
             end.
Proof.
  simpl. destruct (f k sk) as [is1 o1]. destruct (Zod.eachField f props shape) as [is2 o2].
  intros H. injection H as Hi Ho.
  apply app_eq_nil in Hi as [-> ->]. exists o1, o2. auto.
Qed.

Lemma eachItem_nil_inv (f : nat -> JsVal -> list ZodIssue * JsVal)
    (x : JsVal) (l : list JsVal) (i : nat) (out : list JsVal) :
  Zod.eachItem f (x :: l) i = ([], out) ->
  exists o1 o2, f i x = ([], o1) /\ Zod.eachItem f l (S i) = ([], o2) /\ out = o1 :: o2.
Proof.
  simpl. destruct (f i x) as [is1 o1]. destruct (Zod.eachItem f l (S i)) as [is2 o2].
  intros H. injection H as Hi Ho.
  apply app_eq_nil in Hi as [-> ->]. exists o1, o2. auto.
Qed.

Lemma run_object (shape : list (JsString * Zod.Schema)) (path : list PathElem)
    (props : list (JsString * JsVal)) :
  Zod.run (Zod.ZObject shape) path (JObj props)
  = (fst (Zod.eachField (fun k sk => Zod.run sk (path ++ [PKey k]) (getProp props k))
            props shape),
     JObj (snd (Zod.eachField (fun k sk => Zod.run sk (path ++ [PKey k]) (getProp props k))
                  props shape))).
Proof. simpl. destruct (Zod.eachField _ props shape); reflexivity. Qed.

Lemma run_object_inv (shape : list (JsString * Zod.Schema)) (path : list PathElem)
    (v out : JsVal) :
  Zod.run (Zod.ZObject shape) path v = ([], out) ->
  exists props fields,
    v = JObj props /\ out = JObj fields
    /\ Zod.eachField (fun k sk => Zod.run sk (path ++ [PKey k]) (getProp props k))
         props shape = ([], fields).
Proof.
  destruct v as [| | | | |?|props|]; try (intros H; simpl in H; discriminate H).
  rewrite run_object.
  destruct (Zod.eachField _ props shape) as [issues fields] eqn:E; simpl.
  intros H; injection H as -> <-. exists props, fields. auto.
Qed.

Lemma run_required_inv (msg : JsString) (path : list PathElem) (v out : JsVal) :
  Zod.run (Zod.min Zod.string 1 msg) path v = ([], out) ->
  exists s, v = JStr s /\ out = JStr s /\ s <> [].
Proof.
  simpl. destruct v; try discriminate.
  destruct s as [|c s]; simpl; [discriminate|].
  intros H; injection H as <-. eexists; repeat split. discriminate.
Qed.

Lemma run_file_inv (path : list PathElem) (item out : JsVal) :
  Zod.run fileSchema path item = ([], out) -> fileOf item out.
Proof.
  unfold fileSchema, Zod.object, Validation.field.
  intros H. apply run_object_inv in H as (props & fields & -> & -> & E).
  apply eachField_nil_inv in E as (o1 & o2 & H1 & E & ->).
  apply run_required_inv in H1 as (p & Hp & -> & Hpne).
  apply eachField_nil_inv in E as (o3 & o4 & H3 & E & ->).
  apply run_required_inv in H3 as (c & Hc & -> & Hcne).
  simpl in E. injection E as <-.
  exists props, p, c. auto 10.
Qed.

Lemma eachItem_files_inv (path : list PathElem) (items outs : list JsVal) (i : nat) :
  Zod.eachItem (fun i => Zod.run fileSchema (path ++ [PIndex i])) items i = ([], outs) ->
  Forall2 fileOf items outs.
Proof.
  revert outs i. induction items as [|x items IH]; intros outs i H.
  - simpl in H. injection H as <-. constructor.
  - apply eachItem_nil_inv in H as (o1 & o2 & H1 & H2 & ->).
    constructor.
    + eapply run_file_inv. exact H1.
    + eapply IH. exact H2.
Qed.

Lemma run_files_inv (path : list PathElem) (msg : JsString) (v out : JsVal) :
  Zod.run (Zod.ZArray fileSchema (Some (1%nat, msg))) path v = ([], out) ->
  exists items outs,
    v = JArr items /\ out = JArr outs /\ items <> [] /\ Forall2 fileOf items outs.
Proof.
  destruct v as [| | | | |items|?|]; try (intros H; simpl in H; discriminate H).
  cbn [Zod.run].
  destruct (Zod.eachItem _ items 0%nat) as [issues outs] eqn:E.
  destruct items as [|x items]; [simpl; discriminate|].
  simpl. intros H; injection H as -> <-.
  apply eachItem_files_inv in E.
  exists (x :: items), outs. repeat split; auto; discriminate.
Qed.

Lemma PushFilesSchema_shape :
  Validation.PushFilesSchema
  = Zod.ZObject
      [(js "owner", Validation.required "Repository owner is required");
       (js "repo", Validation.required "Repository name is required");
       (js "branch", Validation.required "Branch name is required");
       (js "files", Zod.ZArray fileSchema (Some (1%nat, js "At least one file is required")));
       (js "message", Validation.required "Commit message is required")].
Proof. reflexivity. Qed.

(** What a bag is when [PushFilesSchema] accepts it, and what it parses to. *)
Lemma PushFilesSchema_inv (args parsed : JsVal) :
  Zod.run Validation.PushFilesSchema [] args = ([], parsed) ->
  exists props owner repo branch items files message,
    args = JObj props
    /\ getProp props (js "owner") = JStr owner
    /\ getProp props (js "repo") = JStr repo
    /\ getProp props (js "branch") = JStr branch
    /\ getProp props (js "files") = JArr items
    /\ getProp props (js "message") = JStr message
    /\ Forall2 fileOf items files
    /\ items <> []
    /\ parsed = JObj [(js "owner", JStr owner); (js "repo", JStr repo);
                      (js "branch", JStr branch); (js "files", JArr files);
                      (js "message", JStr message)].
Proof.
  rewrite PushFilesSchema_shape.
  intros H. apply run_object_inv in H as (props & fields & -> & -> & E).
  apply eachField_nil_inv in E as (o1 & r1 & H1 & E & ->).
  apply run_required_inv in H1 as (owner & Ho & -> & _).
  apply eachField_nil_inv in E as (o2 & r2 & H2 & E & ->).
  apply run_required_inv in H2 as (repo & Hr & -> & _).
  apply eachField_nil_inv in E as (o3 & r3 & H3 & E & ->).
  apply run_required_inv in H3 as (branch & Hb & -> & _).
  apply eachField_nil_inv in E as (o4 & r4 & H4 & E & ->).
  apply eachField_nil_inv in E as (o5 & r5 & H5 & E & ->).
  apply run_required_inv in H5 as (message & Hm & -> & _).
  simpl in E. injection E as <-.
  apply run_files_inv in H4 as (items & outs & Hf & -> & Hne & Hall).
  exists props, owner, repo, branch, items, outs, message.
  repeat split; auto.
Qed.


(** ** Every run of the branch-ensure step and of the commit engine *)

Lemma handleApiError_idem (e : JsError) :
  GithubApi.handleApiError (GithubApi.handleApiError e) = GithubApi.handleApiError e.
Proof. unfold GithubApi.handleApiError. destruct (isMcpError e) eqn:E; [rewrite E|]; reflexivity. Qed.

Section RunLemmas.
Import Async Octokit GithubApi Files Runs.
Context {W : Type} (remote : Remote W) (github : GitHubApi)
        (owner repo branch : JsString).

Lemma bind_call_run {B : Type} (c : Call) (k : Resp c -> M W B) (client : Client)
    (st : State W) :
  bind (call remote client c) k st
  = match respond remote client c (world st) with
    | (inl e, w) =>
        mkOutcome (inl e) (mkState w (githubApiInstance st)) [mkEvent client c (inl e)]
    | (inr d, w) =>
        mkOutcome (result (k d (mkState w (githubApiInstance st))))
          (final (k d (mkState w (githubApiInstance st))))
          (mkEvent client c (inr d) :: trace (k d (mkState w (githubApiInstance st))))
    end.
Proof.
  unfold bind, call.
  destruct (respond remote client c (world st)) as [[e|d] w]; reflexivity.
Qed.

Lemma bind_unfold {A B : Type} (m : M W A) (k : A -> M W B) (st : State W) :
  bind m k st
  = match result (m st) with
    | inl e => mkOutcome (inl e) (final (m st)) (trace (m st))
    | inr a =>
        mkOutcome (result (k a (final (m st)))) (final (k a (final (m st))))
          (trace (m st) ++ trace (k a (final (m st))))
    end.
Proof. reflexivity. Qed.

Lemma tryCatch_unfold {A : Type} (m : M W A) (h : JsError -> M W A) (st : State W) :
  tryCatch m h st
  = match result (m st) with
    | inr a => m st
    | inl e =>
        mkOutcome (result (h e (final (m st)))) (final (h e (final (m st))))
          (trace (m st) ++ trace (h e (final (m st))))
    end.
Proof. reflexivity. Qed.

Lemma getDefaultBranch_run (st : State W) :
  getDefaultBranch remote github owner repo st
  = match respond remote (octokit github) (ReposGet owner repo) (world st) with
    | (inl e, w) =>
        mkOutcome (inl (handleApiError e)) (mkState w (githubApiInstance st))
          [mkEvent (octokit github) (ReposGet owner repo) (inl e)]
    | (inr d, w) =>
        mkOutcome (inr (default_branch d)) (mkState w (githubApiInstance st))
          [mkEvent (octokit github) (ReposGet owner repo) (inr d)]
    end.
Proof.
  unfold getDefaultBranch, tryCatch. rewrite bind_call_run.
  destruct (respond remote (octokit github) (ReposGet owner repo) (world st))
    as [[e|d] w]; reflexivity.
Qed.

(** [createBranch] from the default branch, exchange by exchange. *)
Lemma createBranch_run (st : State W) :
  createBranch remote github owner repo branch None st
  = match respond remote (octokit github) (ReposGet owner repo) (world st) with
    | (inl e, w1) =>
        mkOutcome (inl (handleApiError e)) (mkState w1 (githubApiInstance st))
          [mkEvent (octokit github) (ReposGet owner repo) (inl e)]
    | (inr repoData, w1) =>
        match respond remote (octokit github)
                (GitGetRef owner repo (js "heads/" ++ default_branch repoData)) w1 with
        | (inl e, w2) =>
            mkOutcome (inl (handleApiError e)) (mkState w2 (githubApiInstance st))
              [mkEvent (octokit github) (ReposGet owner repo) (inr repoData);
               mkEvent (octokit github)
                 (GitGetRef owner repo (js "heads/" ++ default_branch repoData)) (inl e)]
        | (inr refData, w2) =>
            match respond remote (octokit github)
                    (GitCreateRef owner repo (js "refs/heads/" ++ branch)
                       (object_sha refData)) w2 with
            | (inl e, w3) =>
                mkOutcome (inl (handleApiError e)) (mkState w3 (githubApiInstance st))
                  [mkEvent (octokit github) (ReposGet owner repo) (inr repoData);
                   mkEvent (octokit github)
                     (GitGetRef owner repo (js "heads/" ++ default_branch repoData))
                     (inr refData);
                   mkEvent (octokit github)
                     (GitCreateRef owner repo (js "refs/heads/" ++ branch)
                        (object_sha refData)) (inl e)]
            | (inr data, w3) =>
                mkOutcome (inr data) (mkState w3 (githubApiInstance st))
                  [mkEvent (octokit github) (ReposGet owner repo) (inr repoData);
                   mkEvent (octokit github)
                     (GitGetRef owner repo (js "heads/" ++ default_branch repoData))
                     (inr refData);
                   mkEvent (octokit github)
                     (GitCreateRef owner repo (js "refs/heads/" ++ branch)
                        (object_sha refData)) (inr data)]
            end
        end
    end.
Proof.
  unfold createBranch. cbn [ErrorHandling.truthy].
  rewrite tryCatch_unfold, bind_unfold, getDefaultBranch_run.
  destruct (respond remote (octokit github) (ReposGet owner repo) (world st))
    as [[e|repoData] w1]; cbn [result final trace throw app].
  { rewrite handleApiError_idem. reflexivity. }
  rewrite bind_call_run. cbn [world githubApiInstance].
  destruct (respond remote (octokit github)
              (GitGetRef owner repo (js "heads/" ++ default_branch repoData)) w1)
    as [[e|refData] w2]; cbn [result final trace throw app]; [reflexivity|].
  rewrite bind_call_run. cbn [world githubApiInstance].
  destruct (respond remote (octokit github)
              (GitCreateRef owner repo (js "refs/heads/" ++ branch)
                 (object_sha refData)) w2)
    as [[e|data] w3]; cbn [result final trace throw ret app]; reflexivity.
Qed.

Lemma ensureBranch_run (st : State W) :
  EnsureRun remote github owner repo branch st
    (ensureBranch remote github owner repo branch st).
Proof.
  unfold ensureBranch, branchExists.
  rewrite bind_unfold, tryCatch_unfold, bind_call_run.
  destruct (respond remote (octokit github)
              (GitGetRef owner repo (js "heads/" ++ branch)) (world st))
    as [[e0|data] w1] eqn:E0; cbn [result final trace].
  - destruct (status_404_dec (statusOf e0)) as [H404|Hne].
    + rewrite H404. cbn [result final trace ret negb app].
      rewrite bind_unfold, bind_unfold, createBranch_run.
      cbn [world githubApiInstance].
      destruct (respond remote (octokit github) (ReposGet owner repo) w1)
        as [[e|repoData] w2] eqn:E1; cbn [result final trace app].
      { exact (ensure_no_default remote github owner repo branch st e0 w1 e w2 E0 H404 E1). }
      destruct (respond remote (octokit github)
                  (GitGetRef owner repo (js "heads/" ++ default_branch repoData)) w2)
        as [[e|refData] w3] eqn:E2; cbn [result final trace app].
      { exact (ensure_no_source remote github owner repo branch st
                 e0 w1 repoData w2 e w3 E0 H404 E1 E2). }
      destruct (respond remote (octokit github)
                  (GitCreateRef owner repo (js "refs/heads/" ++ branch)
                     (object_sha refData)) w3)
        as [[e|created] w4] eqn:E3; cbn [result final trace ret app].
      { exact (ensure_create_error remote github owner repo branch st
                 e0 w1 repoData w2 refData w3 e w4 E0 H404 E1 E2 E3). }
      exact (ensure_created remote github owner repo branch st
               e0 w1 repoData w2 refData w3 created w4 E0 H404 E1 E2 E3).
    + rewrite (match_not_404 _ _ _ Hne). cbn [result final trace throw app].
      exact (ensure_probe_error remote github owner repo branch st e0 w1 E0 Hne).
  - cbn [ret result final trace negb app].
    exact (ensure_found remote github owner repo branch st data w1 E0).
Qed.

Lemma treeEntryFor_run (file : FileArg) (st : State W) :
  let answer := ask remote github (contentLookup owner repo branch file) (world st) in
  let o := treeEntryFor remote github owner repo branch file st in
  trace o = [exchange github (contentLookup owner repo branch file) (fst answer)]
  /\ final o = after (snd answer) st
  /\ (forall entry, result o = inr entry -> entry = entryOf file).
Proof.
  unfold treeEntryFor, ask, contentLookup, exchange.
  unfold bind at 1. unfold tryCatch, bind, call, ret, throw.
  destruct (respond remote (octokit github)
              (ReposGetContent owner repo (path file) (Some branch)) (world st))
    as [[e|data] w1]; cbn [result final trace fst snd app].
  - destruct (status_404_dec (statusOf e)) as [H404|Hne].
    + rewrite H404. cbn. repeat split. intros entry H; injection H as <-; reflexivity.
    + rewrite (match_not_404 _ _ _ Hne). cbn. repeat split. intros entry H; discriminate.
  - cbn. repeat split. intros entry H; injection H as <-; reflexivity.
Qed.

Lemma settleAll_lookups (files : list FileArg) (st : State W) :
  exists settled st' tl,
    settleAll (List.map (treeEntryFor remote github owner repo branch) files) st
      = mkOutcome (inr settled) st' tl
    /\ githubApiInstance st' = githubApiInstance st
    /\ List.map ev_call tl = List.map (contentLookup owner repo branch) files
    /\ (firstRejection settled = None -> fulfilled settled = List.map entryOf files).
Proof.
  revert st. induction files as [|file files IH]; intros st.
  - exists [], st, []. repeat split.
  - cbn [List.map settleAll].
    rewrite bind_unfold. unfold settle. cbn [result final trace].
    destruct (treeEntryFor_run file st) as (Ht & Hf & Hr).
    destruct (IH (final (treeEntryFor remote github owner repo branch file st)))
      as (settled & st' & tl & Hs & Hi & Hc & Hful).
    rewrite bind_unfold, Hs. cbn [result final trace ret app].
    eexists _, _, _. split; [reflexivity|].
    split; [rewrite Hi, Hf; reflexivity|].
    split.
    + rewrite app_nil_r, map_app, Ht, Hc. reflexivity.
    + cbn [firstRejection fulfilled].
      destruct (result (treeEntryFor remote github owner repo branch file st))
        as [e|entry] eqn:Er; [discriminate|].
      intros Hnone. cbn [List.map]. rewrite (Hr entry eq_refl), (Hful Hnone).
      reflexivity.
Qed.

Lemma pushFilesBody_run (files : list FileArg) (message : JsString) (st : State W) :
  PushRun remote github owner repo branch files message st
    (pushFilesBody remote github owner repo branch files message st).
Proof.
  unfold pushFilesBody.
  rewrite bind_unfold.
  destruct (ensureBranch remote github owner repo branch st)
    as [[e|existed] st1 t] eqn:Ee; cbn [result final trace].
  { exact (push_ensure_error remote github owner repo branch files message st e st1 t Ee). }
  rewrite bind_call_run.
  destruct (respond remote (octokit github)
              (GitGetRef owner repo (js "heads/" ++ branch)) (world st1))
    as [[e|refData] w2] eqn:E1; cbn [result final trace].
  { exact (push_head_error remote github owner repo branch files message st
             existed st1 t e w2 Ee E1). }
  rewrite bind_call_run. cbn [world githubApiInstance].
  destruct (respond remote (octokit github)
              (GitGetCommit owner repo (object_sha refData)) w2)
    as [[e|commitData] w3] eqn:E2; cbn [result final trace app].
  { exact (push_commit_read_error remote github owner repo branch files message st
             existed st1 t refData w2 e w3 Ee E1 E2). }
  rewrite bind_unfold. unfold promiseAll. rewrite bind_unfold.
  destruct (settleAll_lookups files (mkState w3 (githubApiInstance st1)))
    as (settled & st4 & tl & Hs & Hi & Hc & Hful).
  rewrite Hs. cbn [result final trace].
  destruct (firstRejection settled) as [e|] eqn:Hrej; cbn [throw ret result final trace].
  { rewrite app_nil_r.
    exact (push_lookup_rejected remote github owner repo branch files message st
             existed st1 t refData w2 commitData w3 settled st4 tl e Ee E1 E2 Hs Hrej). }
  rewrite bind_call_run.
  destruct (respond remote (octokit github)
              (GitCreateTree owner repo (tree_sha commitData) (fulfilled settled))
              (world st4))
    as [[e|newTree] w5] eqn:E3; cbn [result final trace app].
  { rewrite app_nil_r.
    exact (push_tree_error remote github owner repo branch files message st
             existed st1 t refData w2 commitData w3 settled st4 tl e w5
             Ee E1 E2 Hs Hrej E3). }
  rewrite bind_call_run. cbn [world githubApiInstance].
  destruct (respond remote (octokit github)
              (GitCreateCommit owner repo message (sha newTree) [object_sha refData]) w5)
    as [[e|newCommit] w6] eqn:E4; cbn [result final trace app].
  { rewrite app_nil_r.
    exact (push_commit_error remote github owner repo branch files message st
             existed st1 t refData w2 commitData w3 settled st4 tl newTree w5 e w6
             Ee E1 E2 Hs Hrej E3 E4). }
  rewrite bind_call_run. cbn [world githubApiInstance].
  destruct (respond remote (octokit github)
              (GitUpdateRef owner repo (js "heads/" ++ branch) (sha newCommit)) w6)
    as [[e|updated] w7] eqn:E5; cbn [result final trace app ret].
  { rewrite app_nil_r.
    exact (push_update_error remote github owner repo branch files message st
             existed st1 t refData w2 commitData w3 settled st4 tl newTree w5
             newCommit w6 e w7 Ee E1 E2 Hs Hrej E3 E4 E5). }
  rewrite app_nil_r.
  exact (push_done remote github owner repo branch files message st
           existed st1 t refData w2 commitData w3 settled st4 tl newTree w5
           newCommit w6 updated w7 Ee E1 E2 Hs Hrej E3 E4 E5).
Qed.

End RunLemmas.


(** ** The handler around the commit engine *)

Section HandlerLemmas.
Import Async Octokit GithubApi Files Runs Calls ErrorHandling.
Context {W : Type} (remote : Remote W) (env : Env) (stringify : JsVal -> JsString).

Lemma tryCatchAsync_run {A : Type} (m : M W A) (errorMessage : JsString) (st : State W) :
  tryCatchAsync m errorMessage st
  = mkOutcome
      match result (m st) with
      | inr a => inr a
      | inl e => inl (rethrown errorMessage e)
      end
      (final (m st)) (trace (m st)).
Proof.
  unfold tryCatchAsync, tryCatch, rethrown.
  destruct (result (m st)) as [e|a] eqn:Er.
  - destruct (isMcpError e); cbn; rewrite app_nil_r; reflexivity.
  - rewrite <- Er. reflexivity.
Qed.

Lemma getGitHubApi_run (st : State W) :
  trace (getGitHubApi env st) = []
  /\ world (final (getGitHubApi env st)) = world st.
Proof.
  unfold getGitHubApi, bind, getState. cbn [result final trace].
  destruct (githubApiInstance st) as [instance|]; [split; reflexivity|].
  destruct (negb (truthy (GITHUB_PERSONAL_ACCESS_TOKEN env))); [split; reflexivity|].
  destruct (new (GITHUB_PERSONAL_ACCESS_TOKEN env) (GITHUB_API_URL env));
    split; reflexivity.
Qed.

Lemma pushFiles_call (args : JsVal) (st : State W) :
  PushCall remote env stringify args st (pushFiles remote env stringify args st).
Proof.
  unfold pushFiles, parse. rewrite bind_unfold.
  destruct (Zod.run Validation.PushFilesSchema [] args) as [[|issue issues] parsed] eqn:Ez;
    cbn [throw ret result final trace].
  - rewrite bind_unfold.
    destruct (getGitHubApi_run st) as [Ht Hw].
    destruct (result (getGitHubApi env st)) as [e|github] eqn:Eg.
    + rewrite Ht. exact (push_unconfigured remote env stringify args st parsed e Ez Eg).
    + rewrite tryCatchAsync_run. cbn [result final trace]. rewrite Ht. cbn [app].
      exact (push_engine remote env stringify args st parsed github _ Ez Eg eq_refl).
  - exact (push_invalid remote env stringify args st issue issues parsed Ez).
Qed.

End HandlerLemmas.


(** ** The dispatcher *)

Section DispatcherLemmas.
Import Async Octokit ErrorHandling Server Dispatch.
Context {W : Type} (remote : Remote W) (env : Env) (stringify : JsVal -> JsString)
        (bodies : Tools.Bodies W).

Lemma select_Some_In (table : list (JsString * (JsVal -> M W JsVal)))
    (name : JsString) (handler : JsVal -> M W JsVal) :
  select table name = Some handler -> In name (List.map fst table).
Proof.
  induction table as [|[label h] table IH]; simpl; [discriminate|].
  unfold eqbStr. destruct (bool_decide (name = label)) eqn:E.
  - apply bool_decide_eq_true in E. auto.
  - auto.
Qed.

Lemma toolTable_labels :
  List.map fst (toolTable remote env stringify bodies) = catalog.
Proof. reflexivity. Qed.

Lemma select_outside_catalog (name : JsString) :
  ~ In name catalog -> select (toolTable remote env stringify bodies) name = None.
Proof.
  intros Hout.
  destruct (select (toolTable remote env stringify bodies) name) as [h|] eqn:E;
    [|reflexivity].
  apply select_Some_In in E. rewrite toolTable_labels in E. contradiction.
Qed.

(** How every dispatched call goes. *)
Lemma callTool_run (name : JsString) (args : JsVal) (st : State W) :
  callTool remote env stringify bodies name args st
  = match bagOf args with
    | None =>
        mkOutcome
          (inl (McpError InvalidParams
                  (js "Invalid JSON" ++ js ": "
                   ++ JSON.syntaxErrorMessage (asString args))))
          st []
    | Some bag =>
        match select (toolTable remote env stringify bodies) name with
        | None =>
            mkOutcome (inl (McpError MethodNotFound (js "Unknown tool: " ++ name)))
              st []
        | Some handler =>
            mkOutcome
              match result (handler bag st) with
              | inr r => inr (envelope stringify r)
              | inl e => inl (dispatched name e)
              end
              (final (handler bag st)) (trace (handler bag st))
        end
    end.
Proof.
  assert (Hbag : forall bag,
    tryCatch
      (result <-
         match select (toolTable remote env stringify bodies) name with
         | Some handler => handler bag
         | None => throw (McpError MethodNotFound (js "Unknown tool: " ++ name))
         end ;;
       ret (JObj [(js "content",
                   JArr [JObj [(js "type", JStr (js "text"));
                               (js "text", JStr (stringify result))]])]))
      (fun error =>
         if isMcpError error then throw error
         else throw (McpError InternalError
                       (js "Error executing tool " ++ name ++ js ": "
                        ++ messageOf error))) st
    = match select (toolTable remote env stringify bodies) name with
      | None =>
          mkOutcome (inl (McpError MethodNotFound (js "Unknown tool: " ++ name)))
            st []
      | Some handler =>
          mkOutcome
            match result (handler bag st) with
            | inr r => inr (envelope stringify r)
            | inl e => inl (dispatched name e)
            end
            (final (handler bag st)) (trace (handler bag st))
      end).
  { intros bag. unfold dispatched, envelope.
    destruct (select (toolTable remote env stringify bodies) name) as [handler|];
      [|reflexivity].
    rewrite tryCatch_unfold, bind_unfold.
    destruct (result (handler bag st)) as [e|r] eqn:Er; cbn [result final trace ret].
    - destruct (isMcpError e); cbn [throw result final trace];
        rewrite app_nil_r; reflexivity.
    - rewrite app_nil_r. reflexivity. }
  unfold callTool, bagOf.
  destruct args as [| | | |text| | |];
    try (rewrite <- Hbag; reflexivity).
  unfold safeJsonParse. cbn [asString].
  destruct (JSON.parse text) as [bag|].
  - rewrite <- Hbag. reflexivity.
  - reflexivity.
Qed.

End DispatcherLemmas.


(** C6 (as stated): a request for an operation outside the catalog does not
    always get Method Not Found.  The dispatcher deserializes a textual
    argument bag before it looks at the operation name, so for the unknown
    name [no-such-tool] with the malformed text [{] it answers Invalid
    Parameters. *)
Lemma unknown_tool_malformed_text :
  ~ In (js "no-such-tool") Server.catalog
  /\ Async.result
       (Server.callTool InMemory.remote InMemory.env InMemory.stringify InMemory.bodies
          (js "no-such-tool") (JStr (js "{")) InMemory.start)
     = inl (McpError InvalidParams
              (js "Invalid JSON: " ++ JSON.syntaxErrorMessage (js "{")))
  /\ ~ (exists text,
          Async.result
            (Server.callTool InMemory.remote InMemory.env InMemory.stringify
               InMemory.bodies (js "no-such-tool") (JStr (js "{")) InMemory.start)
          = inl (McpError MethodNotFound text)).
Proof.
  assert (Hr : Async.result
       (Server.callTool InMemory.remote InMemory.env InMemory.stringify InMemory.bodies
          (js "no-such-tool") (JStr (js "{")) InMemory.start)
     = inl (McpError InvalidParams
              (js "Invalid JSON: " ++ JSON.syntaxErrorMessage (js "{"))))
    by (vm_compute; reflexivity).
  split; [|split].
  - vm_compute. intuition discriminate.
  - exact Hr.
  - intros [text H]. rewrite Hr in H. discriminate H.
Qed.

Section Dispatcher.
Import Async Octokit Server Dispatch.
Context {W : Type} (remote : Remote W) (env : Env) (stringify : JsVal -> JsString)
        (bodies : Tools.Bodies W).

(** C6 (amended): for every request whose operation name is not in the
    catalog and whose argument bag is structured data or a text that
    deserializes, the dispatcher throws Method Not Found, no handler is
    selected (so neither a handler nor the validator runs), the state is
    unchanged and no remote exchange takes place.  When the bag is a text
    that does not deserialize, the dispatcher throws Invalid Parameters
    instead, again with no exchange and the state unchanged. *)
Theorem unknown_tool_method_not_found :
  forall (name : JsString) (args : JsVal) (st : State W),
    ~ In name catalog ->
    select (toolTable remote env stringify bodies) name = None
    /\ (forall bag, bagOf args = Some bag ->
          callTool remote env stringify bodies name args st
          = mkOutcome (inl (McpError MethodNotFound (js "Unknown tool: " ++ name)))
              st [])
    /\ (bagOf args = None ->
          exists text,
            callTool remote env stringify bodies name args st
            = mkOutcome (inl (McpError InvalidParams text)) st []).
Proof.
  intros name args st Hout.
  pose proof (select_outside_catalog remote env stringify bodies name Hout) as Hsel.
  split; [exact Hsel|]. split.
  - intros bag Hbag. rewrite callTool_run, Hbag, Hsel. reflexivity.
  - intros Hbag. rewrite callTool_run, Hbag. eexists. reflexivity.
Qed.

End Dispatcher.

Lemma unknown_tool_method_not_found_witness :
  ~ In (js "no-such-tool") Server.catalog
  /\ Server.callTool InMemory.remote InMemory.env InMemory.stringify InMemory.bodies
       (js "no-such-tool") (JObj [(js "owner", JStr (js "acme"))]) InMemory.start
     = Async.mkOutcome
         (inl (McpError MethodNotFound (js "Unknown tool: " ++ js "no-such-tool")))
         InMemory.start [].
Proof.
  assert (H : ~ In (js "no-such-tool") Server.catalog)
    by (vm_compute; intuition discriminate).
  split; [exact H|].
  exact (proj1 (proj2 (unknown_tool_method_not_found InMemory.remote InMemory.env
                         InMemory.stringify InMemory.bodies (js "no-such-tool")
                         (JObj [(js "owner", JStr (js "acme"))]) InMemory.start H))
           _ eq_refl).
Defined.


(** ** Failure of the final ref update *)

Lemma Forall_last {A : Type} (P : A -> Prop) (l : list A) (x : A) :
  Forall P l -> last l = Some x -> P x.
Proof.
  intros Hall Hlast. rewrite Forall_forall in Hall. apply Hall.
  apply last_Some_elem_of. exact Hlast.
Qed.

Section UpdateFailure.
Import Async Octokit GithubApi Files Runs Calls ErrorHandling Server Dispatch.
Context {W : Type} (remote : Remote W).

Lemma ensure_trace_no_commit_step github owner repo branch (st : State W)
    (o : Outcome W bool) :
  EnsureRun remote github owner repo branch st o ->
  Forall (fun ev => isCommitStep (ev_call ev) = false) (trace o).
Proof. intros H; destruct H; cbn [trace]; repeat constructor. Qed.

Lemma lookups_are_content_lookups github owner repo branch files (st : State W)
    settled st' tl :
  settleAll (List.map (treeEntryFor remote github owner repo branch) files) st
    = mkOutcome (inr settled) st' tl ->
  Forall (fun ev => isContentLookup (ev_call ev) = true) tl.
Proof.
  intros Hs.
  destruct (settleAll_lookups remote github owner repo branch files st)
    as (settled' & st'' & tl' & Hs' & _ & Hc & _).
  rewrite Hs in Hs'. apply (f_equal trace) in Hs'. cbn in Hs'. subst tl'.
  clear Hs. revert files Hc.
  induction tl as [|ev tl IH]; intros files Hc; [constructor|].
  destruct files as [|file files]; [discriminate|].
  cbn in Hc. injection Hc as Hev Hc.
  constructor; [rewrite Hev; reflexivity | exact (IH files Hc)].
Qed.

(** When the last exchange of an engine run is a ref update that failed,
    the run throws the error of that exchange. *)
Lemma pushRun_ref_update_error github owner repo branch files message
    (st : State W) (o : Outcome W JsVal) (ev : Event) (e : JsError) :
  PushRun remote github owner repo branch files message st o ->
  last (trace o) = Some ev ->
  isRefUpdate (ev_call ev) = true ->
  ev_error ev = Some e ->
  result o = inl e.
Proof.
  intros Hrun Hlast Hup Herr.
  assert (Hno : forall l : list Event,
             Forall (fun x => isRefUpdate (ev_call x) = false) l ->
             last l = Some ev -> False).
  { intros l Hall Hl. pose proof (Forall_last _ _ _ Hall Hl) as Hf.
    cbn in Hf. congruence. }
  assert (Hweak : forall l : list Event,
             Forall (fun x => isCommitStep (ev_call x) = false) l ->
             Forall (fun x => isRefUpdate (ev_call x) = false) l).
  { intros l Hl. eapply Forall_impl; [exact Hl|]. intros x.
    cbn beta. destruct (ev_call x); cbn; intros; congruence. }
  assert (Hlook : forall l : list Event,
             Forall (fun x => isContentLookup (ev_call x) = true) l ->
             Forall (fun x => isRefUpdate (ev_call x) = false) l).
  { intros l Hl. eapply Forall_impl; [exact Hl|]. intros x.
    cbn beta. destruct (ev_call x); cbn; intros; congruence. }
  destruct Hrun as
    [ e' st1 t He
    | existed st1 t e' w2 He E1
    | existed st1 t refData w2 e' w3 He E1 E2
    | existed st1 t refData w2 commitData w3 settled st4 tl e' He E1 E2 Hs Hrej
    | existed st1 t refData w2 commitData w3 settled st4 tl e' w5 He E1 E2 Hs Hrej E3
    | existed st1 t refData w2 commitData w3 settled st4 tl newTree w5 e' w6
        He E1 E2 Hs Hrej E3 E4
    | existed st1 t refData w2 commitData w3 settled st4 tl newTree w5 newCommit w6
        e' w7 He E1 E2 Hs Hrej E3 E4 E5
    | existed st1 t refData w2 commitData w3 settled st4 tl newTree w5 newCommit w6
        updated w7 He E1 E2 Hs Hrej E3 E4 E5 ];
    cbn [trace result] in *;
    pose proof (ensureBranch_run remote github owner repo branch st) as Hens;
    rewrite He in Hens;
    apply ensure_trace_no_commit_step in Hens; cbn [trace] in Hens;
    apply Hweak in Hens;
    try (apply lookups_are_content_lookups in Hs; apply Hlook in Hs).
  - exfalso. exact (Hno _ Hens Hlast).
  - exfalso. refine (Hno _ _ Hlast).
    apply Forall_app_2; [exact Hens|repeat constructor].
  - exfalso. refine (Hno _ _ Hlast).
    apply Forall_app_2; [exact Hens|repeat constructor].
  - exfalso. refine (Hno _ _ Hlast).
    apply Forall_app_2; [exact Hens|]. apply Forall_app_2; [repeat constructor|exact Hs].
  - exfalso. refine (Hno _ _ Hlast).
    apply Forall_app_2; [exact Hens|]. apply Forall_app_2; [repeat constructor|].
    apply Forall_app_2; [exact Hs|repeat constructor].
  - exfalso. refine (Hno _ _ Hlast).
    apply Forall_app_2; [exact Hens|]. apply Forall_app_2; [repeat constructor|].
    apply Forall_app_2; [exact Hs|repeat constructor].
  - rewrite !app_assoc in Hlast.
    change ([exchange github (GitCreateTree owner repo (tree_sha commitData)
                                (fulfilled settled)) (inr newTree);
             exchange github (GitCreateCommit owner repo message (sha newTree)
                                [object_sha refData]) (inr newCommit);
             exchange github (GitUpdateRef owner repo (js "heads/" ++ branch)
                                (sha newCommit)) (inl e')])
      with ([exchange github (GitCreateTree owner repo (tree_sha commitData)
                                (fulfilled settled)) (inr newTree);
             exchange github (GitCreateCommit owner repo message (sha newTree)
                                [object_sha refData]) (inr newCommit)]
            ++ [exchange github (GitUpdateRef owner repo (js "heads/" ++ branch)
                                   (sha newCommit)) (inl e')]) in Hlast.
    rewrite app_assoc, last_snoc in Hlast. injection Hlast as <-.
    cbn in Herr. injection Herr as <-. reflexivity.
  - rewrite !app_assoc in Hlast.
    change ([exchange github (GitCreateTree owner repo (tree_sha commitData)
                                (fulfilled settled)) (inr newTree);
             exchange github (GitCreateCommit owner repo message (sha newTree)
                                [object_sha refData]) (inr newCommit);
             exchange github (GitUpdateRef owner repo (js "heads/" ++ branch)
                                (sha newCommit)) (inr updated)])
      with ([exchange github (GitCreateTree owner repo (tree_sha commitData)
                                (fulfilled settled)) (inr newTree);
             exchange github (GitCreateCommit owner repo message (sha newTree)
                                [object_sha refData]) (inr newCommit)]
            ++ [exchange github (GitUpdateRef owner repo (js "heads/" ++ branch)
                                   (sha newCommit)) (inr updated)]) in Hlast.
    rewrite app_assoc, last_snoc in Hlast. injection Hlast as <-.
    cbn in Herr. discriminate Herr.
Qed.

End UpdateFailure.


Section UpdateFailureClaim.
Import Async Octokit GithubApi Files Runs Calls ErrorHandling Server Dispatch.
Context {W : Type} (remote : Remote W) (env : Env) (stringify : JsVal -> JsString)
        (bodies : Tools.Bodies W).

Lemma select_push_files :
  select (toolTable remote env stringify bodies) (js "push-files")
  = Some (pushFiles remote env stringify).
Proof. reflexivity. Qed.

(** C8: when the last exchange of a push-files run is a ref update that
    failed, the handler returns no result and throws what [tryCatchAsync]
    makes of the failure.  [pushFiles] calls the client itself
    ([getOctokit().git.updateRef]), not the adapter's classifier, so the
    failure is the client's own error: it leaves as an Internal error
    whose message is [Failed to push files: ] followed by the failure's
    message, whatever its HTTP status.  Only a failure that already is an
    [McpError] would pass unchanged.  The dispatcher throws the same
    error: its [catch] does not wrap a second time. *)
Theorem push_files_ref_update_error :
  forall (args : JsVal) (st : State W) (ev : Event) (e : JsError),
    isRefUpdate (ev_call ev) = true ->
    ev_error ev = Some e ->
    let thrown :=
      if isMcpError e then e
      else McpError InternalError
             (js "Failed to push files" ++ js ": " ++ messageOf e) in
    (last (trace (pushFiles remote env stringify args st)) = Some ev ->
       result (pushFiles remote env stringify args st) = inl thrown)
    /\ (last (trace (callTool remote env stringify bodies (js "push-files") args st))
          = Some ev ->
        result (callTool remote env stringify bodies (js "push-files") args st)
        = inl thrown)
    /\ (forall status message responseMessage,
          e = OtherError status message responseMessage ->
          thrown = McpError InternalError
                     (js "Failed to push files" ++ js ": " ++ message)
          /\ thrown <> e).
Proof.
  intros args st ev e Hup Herr thrown.
  assert (Hhandler : forall bag,
    last (trace (pushFiles remote env stringify bag st)) = Some ev ->
    result (pushFiles remote env stringify bag st) = inl thrown).
  { intros bag Hlast.
    destruct (pushFiles_call remote env stringify bag st)
      as [issue issues out Hz | parsed e' Hz Hg | parsed github o Hz Hg Ho];
      cbn [trace result] in *; try discriminate.
    subst o.
    rewrite (pushRun_ref_update_error remote _ _ _ _ _ _ _ _ ev e
               (pushFilesBody_run remote _ _ _ _ _ _ _) Hlast Hup Herr).
    reflexivity. }
  split; [exact (Hhandler args)|]. split.
  - rewrite callTool_run.
    destruct (bagOf args) as [bag|]; cbn [trace result]; [|discriminate].
    rewrite select_push_files. cbn [trace result].
    intros Hlast. rewrite (Hhandler bag Hlast).
    subst thrown. destruct (isMcpError e) eqn:Ecls.
    + destruct e; try discriminate Ecls. reflexivity.
    + reflexivity.
  - intros status message responseMessage ->. subst thrown. cbn.
    split; [reflexivity|discriminate].
Qed.

End UpdateFailureClaim.

Lemma push_files_ref_update_error_witness :
  Async.result
    (Server.callTool InMemory.remote InMemory.env InMemory.stringify InMemory.bodies
       (js "push-files") InMemory.pushBag InMemory.conflicting)
  = inl (McpError InternalError
           (js "Failed to push files" ++ js ": " ++ js "Update is not a fast forward")).
Proof.
  refine (proj1 (proj2 (push_files_ref_update_error InMemory.remote InMemory.env
                          InMemory.stringify InMemory.bodies InMemory.pushBag
                          InMemory.conflicting
                          (Octokit.mkEvent (Octokit.mkClient (js "token") None)
                             (Octokit.GitUpdateRef (js "acme") (js "widgets")
                                (js "heads/main") (js "commit1"))
                             (inl InMemory.conflict))
                          InMemory.conflict _ _)) _);
    vm_compute; reflexivity.
Defined.

(** The design document's failure case, run: the service refuses the ref
    update of the scenario's request with status 422.  The dispatcher
    answers with an Internal error and a prefixed message: not the
    service's error, and not what the adapter's classifier makes of it
    (Invalid Parameters). *)
Lemma push_files_conflict_is_rewrapped :
  (exists ev,
      last (Async.trace
              (Server.callTool InMemory.remote InMemory.env InMemory.stringify
                 InMemory.bodies (js "push-files") InMemory.pushBag
                 InMemory.conflicting)) = Some ev
      /\ Runs.isRefUpdate (Octokit.ev_call ev) = true
      /\ Octokit.ev_error ev = Some InMemory.conflict)
  /\ statusOf InMemory.conflict = Some 422
  /\ Async.result
       (Server.callTool InMemory.remote InMemory.env InMemory.stringify
          InMemory.bodies (js "push-files") InMemory.pushBag InMemory.conflicting)
     = inl (McpError InternalError
              (js "Failed to push files: Update is not a fast forward"))
  /\ Async.result
       (Files.pushFiles InMemory.remote InMemory.env InMemory.stringify
          InMemory.pushBag InMemory.conflicting)
     = inl (McpError InternalError
              (js "Failed to push files: Update is not a fast forward"))
  /\ kindOf (GithubApi.handleApiError InMemory.conflict) = Some InvalidParams
  /\ McpError InternalError (js "Failed to push files: Update is not a fast forward")
     <> InMemory.conflict.
Proof.
  split; [|repeat split; try (vm_compute; reflexivity); discriminate].
  eexists. split; [vm_compute; reflexivity|]. split; reflexivity.
Qed.


(** ** Branch-ensure comes first and is idempotent *)

Lemma handleApiError_classified (e : JsError) :
  isMcpError (GithubApi.handleApiError e) = true.
Proof.
  unfold GithubApi.handleApiError. destruct (isMcpError e) eqn:E; [exact E|reflexivity].
Qed.


Section BranchEnsure.
Import Async Octokit GithubApi Files Runs Calls ErrorHandling.
Context {W : Type} (remote : Remote W).


(** An error of the branch-ensure step is a classified one. *)
Lemma ensureBranch_error_classified github owner repo branch (st : State W) :
  forall e, result (ensureBranch remote github owner repo branch st) = inl e ->
            isMcpError e = true.
Proof.
  intros e Hres.
  destruct (ensureBranch_run remote github owner repo branch st);
    cbn [result] in Hres; try discriminate;
    injection Hres as <-; apply handleApiError_classified.
Qed.


End BranchEnsure.


(** ** The result of a successful push *)

Lemma fileOf_asFile (item parsed : JsVal) :
  fileOf item parsed ->
  Files.asFile parsed = Files.asFile item
  /\ prop item "path" = JStr (Files.path (Files.asFile item)).
Proof.
  intros (props & p & c & -> & Hp & Hc & _ & _ & ->).
  unfold Files.asFile, prop. rewrite Hp, Hc. split; reflexivity.
Qed.

Lemma parsed_bag_fields (owner repo branch message : JsString) (files : list JsVal) :
  let parsed := JObj [(js "owner", JStr owner); (js "repo", JStr repo);
                      (js "branch", JStr branch); (js "files", JArr files);
                      (js "message", JStr message)] in
  prop parsed "owner" = JStr owner /\ prop parsed "repo" = JStr repo
  /\ prop parsed "branch" = JStr branch /\ prop parsed "files" = JArr files
  /\ prop parsed "message" = JStr message.
Proof. repeat split; vm_compute; reflexivity. Qed.

(** The fields the handler reads from the parsed bag are those of the bag. *)
Lemma PushFilesSchema_fields (args parsed : JsVal) :
  Zod.run Validation.PushFilesSchema [] args = ([], parsed) ->
  asString (prop parsed "owner") = asString (prop args "owner")
  /\ asString (prop parsed "repo") = asString (prop args "repo")
  /\ asString (prop parsed "branch") = asString (prop args "branch")
  /\ asString (prop parsed "message") = asString (prop args "message")
  /\ List.map Files.asFile (asArray (prop parsed "files"))
     = List.map Files.asFile (asArray (prop args "files"))
  /\ asArray (prop args "files") <> []
  /\ List.map (fun item => prop item "path") (asArray (prop args "files"))
     = List.map (fun item => JStr (Files.path (Files.asFile item)))
         (asArray (prop args "files")).
Proof.
  intros H.
  apply PushFilesSchema_inv in H
    as (props & owner & repo & branch & items & files & message
        & -> & Ho & Hr & Hb & Hf & Hm & Hall & Hne & ->).
  destruct (parsed_bag_fields owner repo branch message files)
    as (-> & -> & -> & -> & ->).
  change (prop (JObj props) "owner") with (getProp props (js "owner")).
  change (prop (JObj props) "repo") with (getProp props (js "repo")).
  change (prop (JObj props) "branch") with (getProp props (js "branch")).
  change (prop (JObj props) "files") with (getProp props (js "files")).
  change (prop (JObj props) "message") with (getProp props (js "message")).
  rewrite Ho, Hr, Hb, Hf, Hm. cbn [asString asArray].
  repeat split; try reflexivity; try exact Hne.
  - clear -Hall. induction Hall as [|item out items outs H Hall IH]; [reflexivity|].
    cbn [List.map]. rewrite IH, (proj1 (fileOf_asFile _ _ H)). reflexivity.
  - clear -Hall. induction Hall as [|item out items outs H Hall IH]; [reflexivity|].
    cbn [List.map]. rewrite IH, (proj2 (fileOf_asFile _ _ H)). reflexivity.
Qed.

(** ** Branch-ensure comes first, for the bag's branch *)

Section BranchEnsureClaim.
Import Async Octokit GithubApi Files Runs Calls ErrorHandling.
Context {W : Type} (remote : Remote W) (env : Env) (stringify : JsVal -> JsString).


End BranchEnsureClaim.



Section PushResult.
Import Async Octokit GithubApi Files Runs Calls ErrorHandling.
Context {W : Type} (remote : Remote W) (env : Env) (stringify : JsVal -> JsString).

(** A successful [pushFiles] call is a completed engine run. *)
Lemma pushFiles_success (args : JsVal) (st : State W) (r : JsVal) :
  result (pushFiles remote env stringify args st) = inr r ->
  exists parsed github,
    Zod.run Validation.PushFilesSchema [] args = ([], parsed)
    /\ result (getGitHubApi env st) = inr github
    /\ pushFiles remote env stringify args st
       = pushFilesBody remote github
           (asString (prop args "owner")) (asString (prop args "repo"))
           (asString (prop args "branch"))
           (List.map asFile (asArray (prop args "files")))
           (asString (prop args "message"))
           (final (getGitHubApi env st)).
Proof.
  intros Hres.
  destruct (pushFiles_call remote env stringify args st)
    as [issue issues out Hz | parsed e Hz Hg | parsed github o Hz Hg Ho];
    cbn [result] in *; try discriminate.
  exists parsed, github. split; [exact Hz|]. split; [exact Hg|].
  subst o.
  destruct (PushFilesSchema_fields args parsed Hz) as (E1 & E2 & E3 & E4 & E5 & _).
  rewrite E1, E2, E3, E4, E5 in *.
  destruct (result (pushFilesBody _ _ _ _ _ _ _ _)) eqn:Er; [discriminate|].
  rewrite <- Er. reflexivity.
Qed.

(** C10: the commit URL of a successful push is
    [https://github.com/<owner>/<repo>/commit/<sha>] with the owner and
    repository of the request and the id of the new commit, whatever the
    environment says about the API base URL and whatever adapter
    instance the state holds. *)
Theorem push_files_commit_url :
  forall (args : JsVal) (st : State W) (r : JsVal),
    result (pushFiles remote env stringify args st) = inr r ->
    exists commitSha,
      prop (prop r "commit") "sha" = JStr commitSha
      /\ prop (prop r "commit") "url"
         = JStr (js "https://github.com/" ++ asString (prop args "owner") ++ js "/"
                 ++ asString (prop args "repo") ++ js "/commit/" ++ commitSha).
Proof.
  intros args st r Hres.
  destruct (pushFiles_success args st r Hres) as (parsed & github & Hz & Hg & Heq).
  rewrite Heq in Hres.
  pose proof (pushFilesBody_run remote github
                (asString (prop args "owner")) (asString (prop args "repo"))
                (asString (prop args "branch"))
                (List.map asFile (asArray (prop args "files")))
                (asString (prop args "message"))
                (final (getGitHubApi env st))) as Hrun.
  destruct Hrun; cbn [result] in Hres; try discriminate Hres.
  injection Hres as <-.
  exists (sha newCommit). split; reflexivity.
Qed.

End PushResult.

Lemma push_files_commit_url_witness :
  exists commitSha,
    prop (prop InMemory.pushed "commit") "sha" = JStr commitSha
    /\ prop (prop InMemory.pushed "commit") "url"
       = JStr (js "https://github.com/acme/widgets/commit/" ++ commitSha).
Proof.
  exact (push_files_commit_url InMemory.remote InMemory.enterpriseEnv InMemory.stringify
           InMemory.pushBag InMemory.start InMemory.pushed
           eq_refl).
Defined.


(** ** The exchanges of a push *)

(** C1 (as stated): on the design document's scenario (branch [main] at
    commit [c0] with tree [t0], files [a.txt] and [b.txt], message [M]) the
    run does not issue exactly one ref-lookup and is not free of per-file
    probes: it looks the ref up twice (the existence probe, then the head
    read) and looks each file up on the branch before it builds the tree. *)
Lemma push_files_scenario_exchanges :
  let o := Files.pushFiles InMemory.remote InMemory.env InMemory.stringify
             InMemory.pushBag InMemory.start in
  InMemory.callNames o
  = [Octokit.GitGetRef (js "acme") (js "widgets") (js "heads/main");
     Octokit.GitGetRef (js "acme") (js "widgets") (js "heads/main");
     Octokit.GitGetCommit (js "acme") (js "widgets") (js "c0");
     Octokit.ReposGetContent (js "acme") (js "widgets") (js "a.txt") (Some (js "main"));
     Octokit.ReposGetContent (js "acme") (js "widgets") (js "b.txt") (Some (js "main"));
     Octokit.GitCreateTree (js "acme") (js "widgets") (js "t0")
       [Octokit.mkTreeEntry (js "a.txt") (js "100644") (js "blob") (js "x");
        Octokit.mkTreeEntry (js "b.txt") (js "100644") (js "blob") (js "y")];
     Octokit.GitCreateCommit (js "acme") (js "widgets") (js "M") (js "tree0") [js "c0"];
     Octokit.GitUpdateRef (js "acme") (js "widgets") (js "heads/main") (js "commit1")]
  /\ List.length (List.filter Runs.isRefLookup (InMemory.callNames o)) = 2%nat
  /\ List.length (List.filter Runs.isContentLookup (InMemory.callNames o)) = 2%nat.
Proof. vm_compute. repeat split; reflexivity. Qed.

Section PushExchanges.
Import Async Octokit GithubApi Files Runs Calls ErrorHandling.
Context {W : Type} (remote : Remote W) (env : Env) (stringify : JsVal -> JsString).

(** C1 (amended): every successful push-files call whose first exchange
    succeeded (the existence probe found the target branch) consists of
    exactly these exchanges, in this order: the probe's ref-lookup of
    [heads/<branch>], a second ref-lookup of it that reads the head commit
    C0, one commit-read of C0 giving its tree T0, one content lookup per
    input file (its path, on the branch) in input order, one tree-create
    with base tree T0 and one entry per input file, one commit-create with
    the single parent C0, and one ref-update of [heads/<branch>] to the
    new commit.  The file list is not empty, and the [files] of the
    result are the input file paths in input order. *)
Theorem push_files_exchanges :
  forall (args : JsVal) (st : State W) (r : JsVal),
    result (pushFiles remote env stringify args st) = inr r ->
    hd_error (List.map ev_error (trace (pushFiles remote env stringify args st)))
      = Some None ->
    let owner := asString (prop args "owner") in
    let repo := asString (prop args "repo") in
    let branch := asString (prop args "branch") in
    let message := asString (prop args "message") in
    let files := List.map asFile (asArray (prop args "files")) in
    exists github probed C0 T0 newTree newCommit updated lookups,
      trace (pushFiles remote env stringify args st)
      = [exchange github (lookupRef owner repo branch) (inr probed);
         exchange github (lookupRef owner repo branch) (inr (mkRef C0));
         exchange github (GitGetCommit owner repo C0) (inr (mkCommit T0))]
        ++ lookups
        ++ [exchange github
              (GitCreateTree owner repo T0 (List.map entryOf files))
              (inr (mkSha newTree));
            exchange github (GitCreateCommit owner repo message newTree [C0])
              (inr (mkSha newCommit));
            exchange github (GitUpdateRef owner repo (js "heads/" ++ branch) newCommit)
              (inr updated)]
      /\ List.map ev_call lookups = List.map (contentLookup owner repo branch) files
      /\ files <> []
      /\ prop r "files"
         = JArr (List.map (fun item => prop item "path") (asArray (prop args "files"))).
Proof.
  intros args st r Hres Hfirst owner repo branch message files.
  destruct (pushFiles_success remote env stringify args st r Hres)
    as (parsed & github & Hz & Hg & Heq).
  destruct (PushFilesSchema_fields args parsed Hz) as (_ & _ & _ & _ & _ & Hne & Hpaths).
  rewrite Heq in Hres, Hfirst. rewrite Heq. clear Heq.
  fold owner repo branch message files in Hres, Hfirst |- *.
  pose proof (pushFilesBody_run remote github owner repo branch files message
                (final (getGitHubApi env st))) as Hrun.
  destruct Hrun as
    [ e' st1 t He
    | existed st1 t e' w2 He E1
    | existed st1 t refData w2 e' w3 He E1 E2
    | existed st1 t refData w2 commitData w3 settled st4 tl e' He E1 E2 Hs Hrej
    | existed st1 t refData w2 commitData w3 settled st4 tl e' w5 He E1 E2 Hs Hrej E3
    | existed st1 t refData w2 commitData w3 settled st4 tl newTree w5 e' w6
        He E1 E2 Hs Hrej E3 E4
    | existed st1 t refData w2 commitData w3 settled st4 tl newTree w5 newCommit w6
        e' w7 He E1 E2 Hs Hrej E3 E4 E5
    | existed st1 t refData w2 commitData w3 settled st4 tl newTree w5 newCommit w6
        updated w7 He E1 E2 Hs Hrej E3 E4 E5 ];
    cbn [result trace] in Hres, Hfirst |- *; try discriminate Hres.
  injection Hres as <-.
  pose proof (ensureBranch_run remote github owner repo branch
                (final (getGitHubApi env st))) as Hens.
  rewrite He in Hens.
  destruct (settleAll_lookups remote github owner repo branch files
              (after w3 st1)) as (settled' & st4' & tl' & Hs' & _ & Hc & Hful).
  rewrite Hs in Hs'.
  assert (Hsettled : settled' = settled)
    by (apply (f_equal result) in Hs'; cbn in Hs'; congruence).
  assert (Htl : tl' = tl) by (apply (f_equal trace) in Hs'; cbn in Hs'; congruence).
  subst settled' tl'. rewrite (Hful Hrej).
  destruct refData as [C0], commitData as [T0], newTree as [treeSha],
    newCommit as [commitSha]. cbn [object_sha tree_sha sha].
  inversion Hens as [data w1 E0 Heq | | | | |e0 w1 repoData w2' refData' w3' data w4'
                                          E0 H404 Ea Eb Ec Heq];
    subst; cbn [List.map hd_error app] in Hfirst.
  - exists github, data, C0, T0, treeSha, commitSha, updated, tl.
    split; [reflexivity|]. split; [exact Hc|]. split.
    + unfold files. intros Hnil. apply map_eq_nil in Hnil. exact (Hne Hnil).
    + unfold pushResult.
      change (prop (JObj _) "files") with
        (JArr (List.map (fun file => JStr (path file)) files)).
      unfold files. rewrite Hpaths, map_map. reflexivity.
  - discriminate Hfirst.
Qed.

End PushExchanges.

Lemma push_files_exchanges_witness :
  prop InMemory.pushed "files" = JArr [JStr (js "a.txt"); JStr (js "b.txt")].
Proof.
  destruct (push_files_exchanges InMemory.remote InMemory.enterpriseEnv
              InMemory.stringify InMemory.pushBag InMemory.start InMemory.pushed
              eq_refl eq_refl)
    as (github & probed & C0 & T0 & newTree & newCommit & updated & lookups
        & _ & _ & _ & Hfiles).
  exact Hfiles.
Defined.


(** ** Undeclared fields *)

Lemma getProp_snoc_other (props : list (JsString * JsVal)) (k k' : JsString) (v : JsVal) :
  k' <> k -> getProp (props ++ [(k, v)]) k' = getProp props k'.
Proof.
  intros Hne. induction props as [|[k0 v0] props IH]; simpl.
  - unfold eqbStr. rewrite bool_decide_eq_false_2; [reflexivity|congruence].
  - destruct (eqbStr k0 k'); [reflexivity|exact IH].
Qed.

Lemma hasProp_snoc_other (props : list (JsString * JsVal)) (k k' : JsString) (v : JsVal) :
  k' <> k -> hasProp (props ++ [(k, v)]) k' = hasProp props k'.
Proof.
  intros Hne. unfold hasProp. rewrite existsb_app. simpl.
  unfold eqbStr at 2. rewrite bool_decide_eq_false_2; [|congruence].
  rewrite !orb_false_r. reflexivity.
Qed.

(** An object schema does not look at a key outside its shape: adding one
    to the bag changes neither the issues nor the parsed value. *)
Lemma undeclared_field_is_stripped (shape : list (JsString * Zod.Schema))
    (path : list PathElem) (props : list (JsString * JsVal)) (k : JsString) (v : JsVal) :
  ~ In k (List.map fst shape) ->
  Zod.run (Zod.ZObject shape) path (JObj (props ++ [(k, v)]))
  = Zod.run (Zod.ZObject shape) path (JObj props).
Proof.
  intros Hout. rewrite !run_object.
  assert (H : Zod.eachField
                (fun k0 sk => Zod.run sk (path ++ [PKey k0]) (getProp (props ++ [(k, v)]) k0))
                (props ++ [(k, v)]) shape
              = Zod.eachField
                  (fun k0 sk => Zod.run sk (path ++ [PKey k0]) (getProp props k0))
                  props shape).
  { induction shape as [|[k0 sk] shape IH]; [reflexivity|].
    simpl in Hout. cbn [Zod.eachField].
    rewrite IH by tauto.
    rewrite getProp_snoc_other, hasProp_snoc_other by (intros ->; tauto).
    reflexivity. }
  rewrite H. reflexivity.
Qed.

(** C2, at a failing input: the descriptor of [push-files] declares
    [additionalProperties: false] and neither a property [per_page] nor a
    property [mode] of a file, yet the validator accepts the scenario's bag
    extended with both and parses it to the bag without them; the handler
    then runs as it does on the scenario's bag.  [OwnerRepoSchema] accepts
    an undeclared [perPage] the same way. *)
Theorem undeclared_field_accepted :
  (exists d,
      ToolList.descriptorOf (js "push-files") = Some d
      /\ ToolList.tool_additionalProperties d = false
      /\ ~ In (js "per_page") (ToolList.tool_properties d))
  /\ Zod.run Validation.PushFilesSchema [] InMemory.pushBagWithExtra
     = ([], InMemory.pushBag)
  /\ Async.result
       (Files.pushFiles InMemory.remote InMemory.env InMemory.stringify
          InMemory.pushBagWithExtra InMemory.start)
     = Async.result
         (Files.pushFiles InMemory.remote InMemory.env InMemory.stringify
            InMemory.pushBag InMemory.start)
  /\ (exists r,
        Async.result
          (Files.pushFiles InMemory.remote InMemory.env InMemory.stringify
             InMemory.pushBagWithExtra InMemory.start) = inr r)
  /\ Zod.run Validation.OwnerRepoSchema []
       (JObj [(js "owner", JStr (js "acme")); (js "repo", JStr (js "widgets"));
              (js "perPage", JNum 5)])
     = ([], JObj [(js "owner", JStr (js "acme")); (js "repo", JStr (js "widgets"))]).
Proof.
  split.
  { eexists. split; [vm_compute; reflexivity|]. split; [reflexivity|].
    vm_compute. intuition discriminate. }
  split; [vm_compute; reflexivity|].
  split; [vm_compute; reflexivity|].
  split; [eexists; vm_compute; reflexivity|].
  vm_compute; reflexivity.
Qed.


(** ** Missing required fields *)

Lemma run_undefined_rejected (s : Zod.Schema) (path : list PathElem) :
  rejectsUndefined s = true -> fst (Zod.run s path JUndefined) <> [].
Proof.
  revert path.
  induction s as [ml|checks| |values|element IHe ml|shape|inner IHi
                  |first IH1 second IH2|valueType IHv|inner IHi check message];
    intros path Hreq; try discriminate Hreq; try (simpl; discriminate).
  - cbn [rejectsUndefined] in Hreq. apply andb_true_iff in Hreq as [H1 H2].
    specialize (IH1 path H1). specialize (IH2 path H2).
    cbn [Zod.run].
    destruct (Zod.run first path JUndefined) as [[|i1 is1] o1]; [contradiction|].
    destruct (Zod.run second path JUndefined) as [[|i2 is2] o2]; [contradiction|].
    simpl. discriminate.
  - cbn [rejectsUndefined] in Hreq. specialize (IHi path Hreq).
    cbn [Zod.run].
    destruct (Zod.run inner path JUndefined) as [[|i1 is1] o1]; [contradiction|].
    simpl. discriminate.
Qed.

Lemma eachField_missing {S : Type} (f : JsString -> S -> list ZodIssue * JsVal)
    (props : list (JsString * JsVal)) (shape : list (JsString * S))
    (k : JsString) (sk : S) :
  In (k, sk) shape -> fst (f k sk) <> [] -> fst (Zod.eachField f props shape) <> [].
Proof.
  intros Hin Hbad. induction shape as [|[k0 s0] shape IH]; [contradiction|].
  cbn [Zod.eachField].
  destruct (f k0 s0) as [is1 o1] eqn:E1.
  destruct (Zod.eachField f props shape) as [is2 o2].
  cbn [fst] in *. intros Hnil. apply app_eq_nil in Hnil as [-> ->].
  destruct Hin as [Heq|Hin].
  - injection Heq as -> ->. rewrite E1 in Hbad. apply Hbad. reflexivity.
  - apply (IH Hin). reflexivity.
Qed.

Section MissingField.
Import Async Octokit GithubApi Files ErrorHandling Server Dispatch.
Context {W : Type} (remote : Remote W) (env : Env) (stringify : JsVal -> JsString)
        (bodies : Tools.Bodies W).

(** Where a handler starts with [Schema.parse], a bag without a required
    field of an object schema is thrown back as a [ZodError] before
    anything else happens. *)
Lemma parse_missing_required (shape : list (JsString * Zod.Schema))
    (k : JsString) (sk : Zod.Schema) (props : list (JsString * JsVal)) (st : State W) :
  In (k, sk) shape -> rejectsUndefined sk = true -> getProp props k = JUndefined ->
  exists issues text,
    issues <> []
    /\ parse stringify (Zod.ZObject shape) (JObj props) st
       = mkOutcome (inl (ZodError issues text)) st [].
Proof.
  intros Hin Hreq Hmiss. unfold parse. rewrite run_object.
  pose proof (eachField_missing
                (fun k0 s0 => Zod.run s0 ([] ++ [PKey k0]) (getProp props k0))
                props shape k sk Hin) as Hbad.
  cbn beta in Hbad. rewrite Hmiss in Hbad.
  specialize (Hbad (run_undefined_rejected sk _ Hreq)).
  destruct (Zod.eachField _ props shape) as [[|issue issues] out]; cbn [fst snd] in *;
    [contradiction|].
  eexists _, _. split; [|reflexivity]. discriminate.
Qed.

Lemma validated_missing_required (shape : list (JsString * Zod.Schema))
    (body : GitHubApi -> JsVal -> M W JsVal) (errorMessage : String.string)
    (k : JsString) (sk : Zod.Schema) (props : list (JsString * JsVal)) (st : State W) :
  In (k, sk) shape -> rejectsUndefined sk = true -> getProp props k = JUndefined ->
  exists issues text,
    issues <> []
    /\ Tools.validated env stringify (Zod.ZObject shape) body errorMessage (JObj props) st
       = mkOutcome (inl (ZodError issues text)) st [].
Proof.
  intros Hin Hreq Hmiss.
  destruct (parse_missing_required shape k sk props st Hin Hreq Hmiss)
    as (issues & text & Hne & Hp).
  exists issues, text. split; [exact Hne|].
  unfold Tools.validated. rewrite bind_unfold, Hp. reflexivity.
Qed.

(** [pushFiles] is one of them: without [owner], [repo], [branch],
    [files] or [message] it makes no exchange. *)
Lemma pushFiles_missing_required (k : JsString) (props : list (JsString * JsVal))
    (st : State W) :
  In k (List.map js ["owner"; "repo"; "branch"; "files"; "message"]%string) ->
  getProp props k = JUndefined ->
  exists issues text,
    pushFiles remote env stringify (JObj props) st
    = mkOutcome (inl (ZodError issues text)) st [].
Proof.
  intros Hin Hmiss. unfold pushFiles. rewrite bind_unfold, PushFilesSchema_shape.
  assert (Hk : exists sk,
             In (k, sk)
               [(js "owner", Validation.required "Repository owner is required");
                (js "repo", Validation.required "Repository name is required");
                (js "branch", Validation.required "Branch name is required");
                (js "files",
                 Zod.ZArray fileSchema (Some (1%nat, js "At least one file is required")));
                (js "message", Validation.required "Commit message is required")]
             /\ rejectsUndefined sk = true).
  { cbn [List.map In] in Hin.
    destruct Hin as [<-|[<-|[<-|[<-|[<-|[]]]]]]; eexists;
      (split; [cbn [In]; eauto 10|reflexivity]). }
  destruct Hk as (sk & Hsk & Hreq).
  destruct (parse_missing_required _ k sk props st Hsk Hreq Hmiss)
    as (issues & text & _ & Hp).
  rewrite Hp. eexists _, _. reflexivity.
Qed.

(** C3, at two failing inputs: the descriptors of [fork-repository] and of
    [get-pull-request-files] require [owner] and [repo] (and
    [pull_number]), but their handlers only cast the bag.  Dispatched with
    the empty bag, each makes one call to the remote client, with
    [undefined] for every parameter. *)
Theorem missing_required_field_reaches_remote :
  forall (st : State W) (github : GitHubApi),
    result (getGitHubApi env st) = inr github ->
    (exists d,
        ToolList.descriptorOf (js "fork-repository") = Some d
        /\ ToolList.tool_required d = [js "owner"; js "repo"])
    /\ List.map ev_call
         (trace (callTool remote env stringify bodies (js "fork-repository")
                   (JObj []) st))
       = [ReposCreateFork JUndefined JUndefined JUndefined]
    /\ (exists d,
          ToolList.descriptorOf (js "get-pull-request-files") = Some d
          /\ ToolList.tool_required d = [js "owner"; js "repo"; js "pull_number"])
    /\ List.map ev_call
         (trace (callTool remote env stringify bodies (js "get-pull-request-files")
                   (JObj []) st))
       = [PullsListFiles JUndefined JUndefined JUndefined].
Proof.
  intros st github Hg.
  destruct (getGitHubApi_run env st) as [Ht Hw].
  split; [eexists; split; vm_compute; reflexivity|].
  split; [|split; [eexists; split; vm_compute; reflexivity|]].
  - rewrite callTool_run. cbn [bagOf].
    change (select (toolTable remote env stringify bodies) (js "fork-repository"))
      with (Some (forkRepository remote env)).
    cbn [trace]. unfold forkRepository, destructure.
    rewrite bind_unfold. cbn [ret result final trace app].
    rewrite bind_unfold, Hg, Ht. cbn [app].
    rewrite tryCatchAsync_run. cbn [trace]. rewrite bind_call_run.
    destruct (respond remote (octokit github) _ _) as [[e|d] w]; reflexivity.
  - rewrite callTool_run. cbn [bagOf].
    change (select (toolTable remote env stringify bodies) (js "get-pull-request-files"))
      with (Some (getPullRequestFiles remote env)).
    cbn [trace]. unfold getPullRequestFiles, destructure.
    rewrite bind_unfold. cbn [ret result final trace app].
    rewrite bind_unfold, Hg, Ht. cbn [app].
    rewrite tryCatchAsync_run. cbn [trace]. rewrite bind_call_run.
    destruct (respond remote (octokit github) _ _) as [[e|d] w]; reflexivity.
Qed.

End MissingField.

Lemma missing_required_field_reaches_remote_witness :
  List.map Octokit.ev_call
    (Async.trace
       (Server.callTool InMemory.remote InMemory.env InMemory.stringify InMemory.bodies
          (js "fork-repository") InMemory.emptyBag InMemory.start))
  = [Octokit.ReposCreateFork JUndefined JUndefined JUndefined].
Proof.
  exact (proj1 (proj2 (missing_required_field_reaches_remote InMemory.remote InMemory.env
                         InMemory.stringify InMemory.bodies InMemory.start
                         (mkGitHubApi (Octokit.mkClient (js "token") None) None)
                         eq_refl))).
Defined.


(** ** The base64 and UTF-8 converters *)

Module CodecFacts.
Import Buffer.

Lemma list_ind3 {A : Type} (P : list A -> Prop) :
  P [] -> (forall a, P [a]) -> (forall a b, P [a; b]) ->
  (forall a b c l, P l -> P (a :: b :: c :: l)) ->
  forall l, P l.
Proof.
  intros H0 H1 H2 H3.
  fix IH 1.
  intros [|a [|b [|c l]]];
    [exact H0 | exact (H1 a) | exact (H2 a b) | exact (H3 a b c l (IH l))].
Qed.

(** Decide the comparison that the goal's left-hand side is waiting for. *)
Ltac decide_test c :=
  lazymatch c with
  | (if ?a then _ else _) => decide_test a
  | andb ?a _ => decide_test a
  | orb ?a _ => decide_test a
  | Z.leb ?a ?b =>
      first [ rewrite (proj2 (Z.leb_le a b)) by lia
            | rewrite (proj2 (Z.leb_gt a b)) by lia ]
  | Z.ltb ?a ?b =>
      first [ rewrite (proj2 (Z.ltb_lt a b)) by lia
            | rewrite (proj2 (Z.ltb_ge a b)) by lia ]
  | Z.eqb ?a ?b =>
      first [ rewrite (proj2 (Z.eqb_eq a b)) by lia
            | rewrite (proj2 (Z.eqb_neq a b)) by lia ]
  end.

Ltac step_tests :=
  repeat (lazymatch goal with
          | |- (if ?c then _ else _) = _ => decide_test c
          end; cbn [andb orb negb]).

Lemma unbase64_base64Char (v : Z) :
0 <= v < 64 -> (base64Char v =? 61) = false /\ unbase64 (base64Char v) = Some v.
Proof.
intros Hv. unfold base64Char.
destruct (Z.ltb_spec v 26); [|destruct (Z.ltb_spec v 52);
  [|destruct (Z.ltb_spec v 62); [|destruct (Z.eqb_spec v 62)]]];
  (split; [apply Z.eqb_neq; lia | unfold unbase64; step_tests; f_equal; lia]).
Qed.

Lemma base64Char_low_byte (v : Z) :
  0 <= v < 64 -> base64Char v mod 256 = base64Char v.
Proof.
  intros Hv. apply Z.mod_small. unfold base64Char.
  destruct (Z.ltb_spec v 26); [|destruct (Z.ltb_spec v 52);
    [|destruct (Z.ltb_spec v 62); [|destruct (Z.eqb_spec v 62)]]]; lia.
Qed.

Lemma sextets_cons (v : Z) (rest : JsString) :
  0 <= v < 64 -> sextets (base64Char v :: rest) = v :: sextets rest.
Proof.
  intros Hv. destruct (unbase64_base64Char v Hv) as [H1 H2].
  cbn [sextets]. cbv zeta. rewrite (base64Char_low_byte v Hv), H1, H2. reflexivity.
Qed.

(** Decoding what the encoder wrote gives the bytes back. *)
Lemma fromBase64_toBase64String (bs : list Z) :
  Forall isByte bs -> fromBase64 (toBase64String bs) = bs.
Proof.
  unfold fromBase64, isByte.
  induction bs as [|a|a b|a b c l IH] using list_ind3; intros Hall.
  - reflexivity.
  - apply Forall_cons_1 in Hall as [Ha _].
    cbn [toBase64String].
    rewrite !sextets_cons by (Z.div_mod_to_equations; lia).
    cbn. f_equal. Z.div_mod_to_equations; lia.
  - apply Forall_cons_1 in Hall as [Ha Hall]. apply Forall_cons_1 in Hall as [Hb _].
    cbn [toBase64String].
    rewrite !sextets_cons by (Z.div_mod_to_equations; lia).
    cbn. repeat f_equal; Z.div_mod_to_equations; lia.
  - apply Forall_cons_1 in Hall as [Ha Hall]. apply Forall_cons_1 in Hall as [Hb Hall].
    apply Forall_cons_1 in Hall as [Hc Hall].
    cbn [toBase64String].
    rewrite !sextets_cons by (Z.div_mod_to_equations; lia).
    cbn [unpack]. rewrite (IH Hall).
    repeat f_equal; Z.div_mod_to_equations; lia.
Qed.

Lemma split64 (x : Z) :
  exists q r, x / 64 = q /\ x mod 64 = r /\ x = 64 * q + r /\ 0 <= r < 64.
Proof.
  exists (x / 64), (x mod 64). repeat split.
  - apply Z.div_mod. lia.
  - apply Z.mod_pos_bound. lia.
  - apply Z.mod_pos_bound. lia.
Qed.

Lemma pair_1024 (a b : Z) :
  0 <= b < 1024 -> (a * 1024 + b) / 1024 = a /\ (a * 1024 + b) mod 1024 = b.
Proof.
  intros Hb. split; symmetry.
  - apply (Z.div_unique _ _ a b); lia.
  - apply (Z.mod_unique _ _ a b); lia.
Qed.

Lemma div_4096 (x : Z) : x / 4096 = x / 64 / 64.
Proof. rewrite Z.div_div by lia. reflexivity. Qed.

Lemma div_262144 (x : Z) : x / 262144 = x / 64 / 64 / 64.
Proof. rewrite !Z.div_div by lia. reflexivity. Qed.

Lemma utf8Encode_bytes (cp : Z) :
  isScalar cp -> Forall isByte (utf8EncodeCodePoint cp).
Proof.
  intros [Hr Hs]. unfold utf8EncodeCodePoint, isByte.
  rewrite div_4096, div_262144.
  destruct (split64 cp) as (q1 & r1 & -> & -> & Hcp & Hr1).
  destruct (split64 q1) as (q2 & r2 & -> & -> & Hq1 & Hr2).
  destruct (split64 q2) as (q3 & r3 & -> & -> & Hq2 & Hr3).
  destruct (Z.ltb_spec cp 0x80); [|destruct (Z.ltb_spec cp 0x800);
    [|destruct (Z.ltb_spec cp 0x10000)]];
    repeat constructor; lia.
Qed.

(** The decoder reads back one encoded code point. *)
Lemma utf8Decode_encoded (cp : Z) (rest : list Z) :
  isScalar cp -> utf8Decode (utf8EncodeCodePoint cp ++ rest) = cp :: utf8Decode rest.
Proof.
  intros [Hr Hs]. unfold utf8EncodeCodePoint.
  rewrite div_4096, div_262144.
  destruct (split64 cp) as (q1 & r1 & -> & -> & Hcp & Hr1).
  destruct (split64 q1) as (q2 & r2 & -> & -> & Hq1 & Hr2).
  destruct (split64 q2) as (q3 & r3 & -> & -> & Hq2 & Hr3).
  destruct (Z.ltb_spec cp 0x80); [|destruct (Z.ltb_spec cp 0x800);
    [|destruct (Z.ltb_spec cp 0x10000)]];
    cbn [app utf8Decode]; unfold secondOk, isCont.
  - step_tests. reflexivity.
  - step_tests. f_equal. lia.
  - destruct (Z.eq_dec q2 0) as [E0|E0];
      [|destruct (Z.eq_dec q2 13) as [ED|ED]];
      step_tests; f_equal; lia.
  - destruct (Z.eq_dec q3 0) as [E0|E0];
      [|destruct (Z.eq_dec q3 4) as [E4|E4]];
      step_tests; f_equal; lia.
Qed.

Lemma utf8Decode_encode (cps : list Z) :
  Forall isScalar cps ->
  utf8Decode (List.concat (List.map utf8EncodeCodePoint cps)) = cps.
Proof.
  induction 1 as [|cp cps Hcp Hall IH]; [reflexivity|].
  cbn [List.map List.concat]. rewrite utf8Decode_encoded, IH by assumption.
  reflexivity.
Qed.

Lemma utf8Encode_all_bytes (cps : list Z) :
  Forall isScalar cps -> Forall isByte (List.concat (List.map utf8EncodeCodePoint cps)).
Proof.
  induction 1 as [|cp cps Hcp Hall IH]; [constructor|].
  cbn [List.map List.concat]. apply Forall_app_2; [apply utf8Encode_bytes; exact Hcp|exact IH].
Qed.

(** The code points of a well-formed string are scalar values, and
    writing them back as UTF-16 gives the string. *)
Lemma codePoints_wellFormed (s : JsString) :
  Forall isCodeUnit s -> isWellFormed s = true ->
  Forall isScalar (codePoints s)
  /\ List.concat (List.map utf16EncodeCodePoint (codePoints s)) = s.
Proof.
  functional induction (isWellFormed s); intros Hall Hwf; try discriminate Hwf.
  - split; [constructor|reflexivity].
  - rewrite codePoints_equation.
    match goal with H : isHighSurrogate u = true |- _ => rewrite H end.
    match goal with H : isLowSurrogate v = true |- _ => rewrite H end.
    apply Forall_cons_1 in Hall as [Hu Hall]. apply Forall_cons_1 in Hall as [Hv Hall].
    destruct (IHb Hall Hwf) as [IH1 IH2].
    unfold isHighSurrogate, isLowSurrogate, isCodeUnit in *.
    match goal with H : _ && _ = true |- _ => apply andb_true_iff in H as [Hu1 Hu2] end.
    match goal with H : _ && _ = true |- _ => apply andb_true_iff in H as [Hv1 Hv2] end.
    apply Z.leb_le in Hu1, Hu2, Hv1, Hv2.
    split.
    + constructor; [unfold isScalar; lia|exact IH1].
    + cbn [List.map List.concat]. rewrite IH2. unfold utf16EncodeCodePoint.
      rewrite (proj2 (Z.ltb_ge _ 0x10000)) by lia. cbn [app].
      replace (0x10000 + (u - 0xD800) * 0x400 + (v - 0xDC00) - 0x10000)
        with ((u - 0xD800) * 1024 + (v - 0xDC00)) by lia.
      destruct (pair_1024 (u - 0xD800) (v - 0xDC00)) as [-> ->]; [lia|].
      repeat f_equal; lia.
  - rewrite codePoints_equation.
    match goal with H : isHighSurrogate u = false |- _ => rewrite H end.
    match goal with H : isLowSurrogate u = false |- _ => rewrite H end.
    apply Forall_cons_1 in Hall as [Hu Hall].
    destruct (IHb Hall Hwf) as [IH1 IH2].
    unfold isHighSurrogate, isLowSurrogate, isCodeUnit in *.
    split.
    + constructor; [|exact IH1]. unfold isScalar.
      repeat match goal with
             | H : _ && _ = false |- _ => apply andb_false_iff in H as [H|H]
             | H : (_ <=? _) = false |- _ => apply Z.leb_gt in H
             end; lia.
    + cbn [List.map List.concat]. rewrite IH2. unfold utf16EncodeCodePoint.
      assert (Hlt : u < 0x10000) by lia.
      rewrite (proj2 (Z.ltb_lt u 0x10000) Hlt). reflexivity.
Qed.

End CodecFacts.

(** ** Writing a file and reading it back *)

(** What a bag is at [content] when [CreateOrUpdateFileSchema] accepts it. *)
Lemma CreateOrUpdateFileSchema_content (args parsed : JsVal) :
  Zod.run Validation.CreateOrUpdateFileSchema [] args = ([], parsed) ->
  exists s,
    prop args "content" = JStr s /\ prop parsed "content" = JStr s /\ s <> [].
Proof.
  change Validation.CreateOrUpdateFileSchema
    with (Zod.ZObject
            [(js "owner", Validation.required "Repository owner is required");
             (js "repo", Validation.required "Repository name is required");
             (js "path", Validation.required "File path is required");
             (js "content", Validation.required "File content is required");
             (js "message", Validation.required "Commit message is required");
             (js "branch", Validation.required "Branch name is required");
             (js "sha", Zod.optional Zod.string)]).
  intros H. apply run_object_inv in H as (props & fields & -> & -> & E).
  apply eachField_nil_inv in E as (o1 & r1 & H1 & E & ->).
  apply run_required_inv in H1 as (owner & _ & -> & _).
  apply eachField_nil_inv in E as (o2 & r2 & H2 & E & ->).
  apply run_required_inv in H2 as (repo & _ & -> & _).
  apply eachField_nil_inv in E as (o3 & r3 & H3 & E & ->).
  apply run_required_inv in H3 as (path & _ & -> & _).
  apply eachField_nil_inv in E as (o4 & r4 & H4 & E & ->).
  apply run_required_inv in H4 as (s & Hs & -> & Hne).
  exists s. split; [exact Hs|]. split; [reflexivity|exact Hne].
Qed.

Section FileContent.
Import Async Octokit GithubApi Files Runs ErrorHandling.
Context {W : Type} (remote : Remote W) (env : Env) (stringify : JsVal -> JsString).

(** A successful [createOrUpdateFile] ends with the exchange that writes
    the file, and hands over the base64 text of the bag's content. *)
Lemma createOrUpdateFile_sends (args : JsVal) (st : State W) (r : JsVal) :
  result (createOrUpdateFile remote env stringify args st) = inr r ->
  asString (prop args "content") <> []
  /\ exists ev,
       last (trace (createOrUpdateFile remote env stringify args st)) = Some ev
       /\ sentContent (ev_call ev)
          = Some (utf8ToBase64 (asString (prop args "content"))).
Proof.
  unfold createOrUpdateFile, parse. rewrite bind_unfold.
  destruct (Zod.run Validation.CreateOrUpdateFileSchema [] args)
    as [[|issue issues] parsed] eqn:Ez;
    cbn [throw ret result final trace]; [|discriminate].
  destruct (CreateOrUpdateFileSchema_content args parsed Ez) as (s & -> & -> & Hne).
  cbn [asString].
  rewrite bind_unfold.
  destruct (getGitHubApi_run env st) as [Ht Hw].
  destruct (result (getGitHubApi env st)) as [e|github] eqn:Eg;
    cbn [result final trace]; [discriminate|].
  rewrite tryCatchAsync_run. cbn [result final trace]. rewrite Ht. cbn [app].
  rewrite bind_unfold.
  destruct (result (ensureBranch remote github _ _ _ _)) as [e|existed] eqn:Ee;
    cbn [result final trace]; [discriminate|].
  rewrite bind_call_run.
  destruct (respond remote _ _ _) as [[e|data] w]; cbn [result final trace ret];
    [discriminate|].
  intros _. split; [exact Hne|].
  eexists. split; [apply last_snoc|]. reflexivity.
Qed.

(** A successful [getFileContents] made one exchange; when the service
    served a file with a non-empty text, the result's content is that
    text, decoded. *)
Lemma getFileContents_decodes (args : JsVal) (st : State W) (r : JsVal)
    (ev : Event) (item : ContentItem) (text : JsString) :
  result (getFileContents remote env stringify args st) = inr r ->
  In ev (trace (getFileContents remote env stringify args st)) ->
  servedItem ev = Some item ->
  item_type item = js "file" ->
  item_content item = Some text ->
  text <> [] ->
  prop r "content" = JStr (base64ToUtf8 text).
Proof.
  unfold getFileContents, parse. rewrite bind_unfold.
  destruct (Zod.run Validation.GetFileContentsSchema [] args)
    as [[|issue issues] parsed] eqn:Ez;
    cbn [throw ret result final trace]; [|discriminate].
  rewrite bind_unfold.
  destruct (getGitHubApi_run env st) as [Ht Hw].
  destruct (result (getGitHubApi env st)) as [e|github] eqn:Eg;
    cbn [result final trace]; [discriminate|].
  rewrite tryCatchAsync_run. cbn [result final trace]. rewrite Ht. cbn [app].
  rewrite bind_call_run.
  destruct (respond remote _ _ _) as [[e|data] w]; cbn [result final trace];
    [discriminate|].
  destruct data as [items|item']; cbn [ret result trace].
  - intros _ [<-|[]]. discriminate.
  - intros Hr [<-|Hin].
    + cbn [servedItem]. intros Hs. injection Hs as ->.
      intros Htype Hcontent Hne. revert Hr. rewrite Htype, Hcontent.
      destruct text as [|u text]; [contradiction|].
      cbn [truthy]. unfold eqbStr. rewrite bool_decide_eq_true_2 by reflexivity.
      cbn [ret result default]. intros Hr. injection Hr as <-. reflexivity.
    + destruct (eqbStr (item_type item') (js "file")); cbn [trace] in Hin;
        contradiction.
Qed.

(** C7: for every well-formed string [s] (a sequence of UTF-16 code units
    without a lone surrogate, that is, a string with a UTF-8 encoding),
    decoding as base64 and UTF-8 what [utf8ToBase64 s] produced gives [s]
    back, code unit for code unit: [base64ToUtf8 (utf8ToBase64 s) = s].
    The two handlers go through these converters: a successful
    [createOrUpdateFile] whose bag has the content [s] ends by handing
    [utf8ToBase64 s] to the service, and [s] is not empty; and when the
    service serves [getFileContents] a file whose text holds the bytes
    of that base64 text, however it is broken into lines, the content of
    the result is [s]. *)
Theorem file_content_round_trip :
  forall s : JsString,
    Forall isCodeUnit s ->
    Buffer.isWellFormed s = true ->
    base64ToUtf8 (utf8ToBase64 s) = s
    /\ (forall (args : JsVal) (st : State W) (r : JsVal),
          asString (prop args "content") = s ->
          result (createOrUpdateFile remote env stringify args st) = inr r ->
          s <> []
          /\ exists ev,
               last (trace (createOrUpdateFile remote env stringify args st)) = Some ev
               /\ sentContent (ev_call ev) = Some (utf8ToBase64 s))
    /\ (forall (args : JsVal) (st : State W) (r : JsVal)
               (ev : Event) (item : ContentItem) (text : JsString),
          s <> [] ->
          result (getFileContents remote env stringify args st) = inr r ->
          In ev (trace (getFileContents remote env stringify args st)) ->
          servedItem ev = Some item ->
          item_type item = js "file" ->
          item_content item = Some text ->
          Buffer.fromBase64 text = Buffer.fromBase64 (utf8ToBase64 s) ->
          prop r "content" = JStr s).
Proof.
  intros s Hunits Hwf.
  destruct (CodecFacts.codePoints_wellFormed s Hunits Hwf) as [Hscalar Hback].
  assert (Hbytes : Buffer.fromBase64 (utf8ToBase64 s) = Buffer.fromUtf8 s).
  { unfold utf8ToBase64, Buffer.fromUtf8.
    apply CodecFacts.fromBase64_toBase64String.
    apply CodecFacts.utf8Encode_all_bytes. exact Hscalar. }
  assert (Hcodec : base64ToUtf8 (utf8ToBase64 s) = s).
  { unfold base64ToUtf8. rewrite Hbytes.
    unfold Buffer.toUtf8String, Buffer.fromUtf8.
    rewrite CodecFacts.utf8Decode_encode by exact Hscalar.
    exact Hback. }
  split; [exact Hcodec|]. split.
  - intros args st r <- Hres.
    exact (createOrUpdateFile_sends args st r Hres).
  - intros args st r ev item text Hne Hres Hin Hserved Htype Hcontent Hsame.
    assert (Hdecoded : base64ToUtf8 text = s).
    { unfold base64ToUtf8. rewrite Hsame. exact Hcodec. }
    rewrite <- Hdecoded.
    apply (getFileContents_decodes args st r ev item text Hres Hin Hserved Htype Hcontent).
    intros ->. apply Hne. rewrite <- Hdecoded. reflexivity.
Qed.

End FileContent.

Lemma file_content_round_trip_witness :
  ErrorHandling.base64ToUtf8 (ErrorHandling.utf8ToBase64 FileStore.text) = FileStore.text
  /\ (exists ev,
        last (Async.trace FileStore.written) = Some ev
        /\ sentContent (Octokit.ev_call ev) = Some (ErrorHandling.utf8ToBase64 FileStore.text))
  /\ (exists r,
        Async.result FileStore.readBack = inr r
        /\ prop r "content" = JStr FileStore.text).
Proof.
  assert (Hunits : Forall isCodeUnit FileStore.text)
    by (unfold FileStore.text, InMemory.sample, isCodeUnit; repeat constructor; lia).
  destruct (file_content_round_trip FileStore.remote InMemory.env InMemory.stringify
              FileStore.text Hunits eq_refl) as (Hcodec & Hwrite & Hread).
  split; [exact Hcodec|]. split; [|eexists; split; [vm_compute; reflexivity|]].
  - apply (Hwrite FileStore.writeBag FileStore.start
             (match Async.result FileStore.written with inr r => r | inl _ => JUndefined end));
      vm_compute; reflexivity.
  - eapply (Hread FileStore.readBag (Async.final FileStore.written)).
    + vm_compute. discriminate.
    + vm_compute. reflexivity.
    + vm_compute. left. reflexivity.
    + vm_compute. reflexivity.
    + vm_compute. reflexivity.
    + vm_compute. reflexivity.
    + vm_compute. reflexivity.
Defined.

(** The hypothesis cannot be dropped: a string with a lone surrogate has no
    UTF-8 encoding, [Buffer.from] writes U+FFFD in its place, and that is
    what comes back. *)
Remark lone_surrogate_replaced :
  Buffer.isWellFormed [0xD800] = false
  /\ ErrorHandling.base64ToUtf8 (ErrorHandling.utf8ToBase64 [0xD800]) = [0xFFFD].
Proof. split; reflexivity. Qed.


(** * Further properties of the sources *)

(** ** error-handling.ts: the wrappers *)

Section Wrappers.
Import Async ErrorHandling Runs.
Context {W : Type}.

(** X1: [tryCatchAsync] lets a result and a classified error through
    unchanged, turns any other error into an Internal error whose message
    is the given prefix, a colon and the error's message, and neither adds
    nor removes an exchange or a state change.  Whatever it throws is
    classified, so a second wrapper around it changes nothing; the
    synchronous [tryCatch] maps a result or an error the same way. *)
Theorem tryCatchAsync_outcomes :
  forall (A : Type) (fn : M W A) (errorMessage outer : JsString) (st : State W),
    (forall a, result (fn st) = inr a -> tryCatchAsync fn errorMessage st = fn st)
    /\ (forall code text, result (fn st) = inl (McpError code text) ->
          result (tryCatchAsync fn errorMessage st) = inl (McpError code text))
    /\ (forall e, result (fn st) = inl e -> isMcpError e = false ->
          result (tryCatchAsync fn errorMessage st)
          = inl (McpError InternalError (errorMessage ++ js ": " ++ messageOf e)))
    /\ (forall e, result (tryCatchAsync fn errorMessage st) = inl e ->
          isMcpError e = true)
    /\ trace (tryCatchAsync fn errorMessage st) = trace (fn st)
    /\ final (tryCatchAsync fn errorMessage st) = final (fn st)
    /\ tryCatchAsync (tryCatchAsync fn errorMessage) outer st
       = tryCatchAsync fn errorMessage st
    /\ result (tryCatchAsync fn errorMessage st)
       = Sync.tryCatch (result (fn st)) errorMessage.
Proof.
  intros A fn errorMessage outer st.
  assert (Hrun : forall (m : M W A) msg,
    tryCatchAsync m msg st
    = mkOutcome match result (m st) with
                | inr a => inr a
                | inl e => inl (rethrown msg e)
                end (final (m st)) (trace (m st)))
    by (intros m msg; apply tryCatchAsync_run).
  repeat split.
  - intros a Ha. rewrite Hrun, Ha. rewrite <- Ha. reflexivity.
  - intros code text He. rewrite Hrun, He. reflexivity.
  - intros e He Hraw. rewrite Hrun, He. unfold rethrown. rewrite Hraw. reflexivity.
  - intros e. rewrite Hrun. cbn [result].
    destruct (result (fn st)) as [e0|a]; [|discriminate].
    intros H; injection H as <-. unfold rethrown.
    destruct (isMcpError e0) eqn:E; [exact E|reflexivity].
  - rewrite Hrun. reflexivity.
  - rewrite Hrun. reflexivity.
  - rewrite (Hrun (tryCatchAsync fn errorMessage) outer), !Hrun. cbn [result final trace].
    destruct (result (fn st)) as [e0|a]; [|reflexivity].
    unfold rethrown. destruct (isMcpError e0) eqn:E; [rewrite E|]; reflexivity.
  - rewrite Hrun. cbn [result]. unfold Sync.tryCatch, rethrown.
    destruct (result (fn st)) as [e0|a]; [|reflexivity].
    destruct (isMcpError e0); reflexivity.
Qed.

End Wrappers.

(** ** error-handling.ts and github-api.ts: configuration *)



Section Configuration.
Import Async Octokit ErrorHandling GithubApi.
Context {W : Type}.

(** X3: the check the server's constructor makes and the adapter's own
    agree.  On a state without an adapter instance: when the check passes,
    [getGitHubApi] builds the adapter from the token (and from the API URL
    when that is set and not empty), keeps it, and makes no exchange; when
    the check fails, [getGitHubApi] throws a Configuration error and keeps
    nothing. *)
Theorem startupCheck_guards_adapter :
  forall (processEnv : JsString -> option JsString) (env : Env) (st : State W),
    Sync.reads processEnv env ->
    githubApiInstance st = None ->
    (Sync.startupCheck processEnv = inr tt ->
       exists token,
         GITHUB_PERSONAL_ACCESS_TOKEN env = Some token /\ token <> []
         /\ let instance :=
              mkGitHubApi
                (mkClient token
                   (if truthy (GITHUB_API_URL env) then GITHUB_API_URL env else None))
                (GITHUB_API_URL env) in
            getGitHubApi env st
            = mkOutcome (inr instance) (mkState (world st) (Some instance)) [])
    /\ (Sync.startupCheck processEnv <> inr tt ->
          getGitHubApi env st
          = mkOutcome
              (inl (McpError ConfigurationError
                      (js "GITHUB_PERSONAL_ACCESS_TOKEN environment variable is required")))
              st []).
Proof.
  intros processEnv env st [Htoken _] Hnone.
  unfold Sync.startupCheck, Sync.validateEnvVariables. cbn [List.filter].
  rewrite Htoken.
  unfold getGitHubApi, bind, getState, putInstance, new. cbn [result final trace].
  rewrite Hnone.
  destruct (GITHUB_PERSONAL_ACCESS_TOKEN env) as [[|u token]|];
    cbn [truthy negb List.length Nat.ltb Nat.leb throw ret result final trace app default].
  - split; [discriminate|]. intros _. reflexivity.
  - split; [|intros H; contradiction H; reflexivity].
    intros _. exists (u :: token). split; [reflexivity|]. split; [discriminate|].
    reflexivity.
  - split; [discriminate|]. intros _. reflexivity.
Qed.

(** X4: the adapter is a singleton.  Once [getGitHubApi] has returned an
    instance, every later call returns that same instance without reading
    the environment again (whatever the variables have become), without an
    exchange and without changing the state. *)
Theorem getGitHubApi_singleton :
  forall (env env' : Env) (st : State W) (instance : GitHubApi),
    result (getGitHubApi env st) = inr instance ->
    githubApiInstance (final (getGitHubApi env st)) = Some instance
    /\ getGitHubApi env' (final (getGitHubApi env st))
       = mkOutcome (inr instance) (final (getGitHubApi env st)) [].
Proof.
  intros env env' st instance.
  assert (Hkept : githubApiInstance (final (getGitHubApi env st)) = Some instance
                  -> getGitHubApi env' (final (getGitHubApi env st))
                     = mkOutcome (inr instance) (final (getGitHubApi env st)) []).
  { intros H. unfold getGitHubApi at 1. unfold bind, getState.
    cbn [result final trace]. rewrite H. reflexivity. }
  intros Hres. cut (githubApiInstance (final (getGitHubApi env st)) = Some instance);
    [intros H; split; [exact H|exact (Hkept H)]|].
  clear Hkept. revert Hres.
  unfold getGitHubApi, bind, getState, putInstance, new. cbn [result final trace].
  destruct (githubApiInstance st) as [g|] eqn:Est; cbn [ret result final].
  - intros H; injection H as <-. exact Est.
  - destruct (negb (truthy (GITHUB_PERSONAL_ACCESS_TOKEN env)));
      cbn [throw ret result final githubApiInstance]; [discriminate|].
    intros H; injection H as <-. reflexivity.
Qed.

End Configuration.

Lemma startupCheck_guards_adapter_witness :
  exists instance,
    GithubApi.getGitHubApi InMemory.enterpriseEnv InMemory.start
    = Async.mkOutcome (inr instance)
        (Async.mkState InMemory.initial (Some instance)) []
    /\ Octokit.clientBaseUrl (octokit instance)
       = Some (js "https://ghe.example.com/api/v3").
Proof.
  destruct (startupCheck_guards_adapter
              (fun name => if eqbStr name (js "GITHUB_API_URL")
                           then GITHUB_API_URL InMemory.enterpriseEnv
                           else GITHUB_PERSONAL_ACCESS_TOKEN InMemory.enterpriseEnv)
              InMemory.enterpriseEnv InMemory.start
              (conj eq_refl eq_refl) eq_refl) as [Hok _].
  destruct (Hok eq_refl) as (token & Htoken & _ & Hrun).
  injection Htoken as <-.
  eexists. split; [exact Hrun|reflexivity].
Defined.

Lemma getGitHubApi_singleton_witness :
  let first := GithubApi.getGitHubApi InMemory.env InMemory.start in
  exists instance,
    Async.result first = inr instance
    /\ Async.result (GithubApi.getGitHubApi InMemory.enterpriseEnv (Async.final first))
       = inr instance
    /\ Octokit.clientBaseUrl (octokit instance) = None.
Proof.
  cbv zeta.
  exists (mkGitHubApi (Octokit.mkClient (js "token") None) None).
  split; [reflexivity|]. split; [|reflexivity].
  rewrite (proj2 (getGitHubApi_singleton InMemory.env InMemory.enterpriseEnv
                    InMemory.start _ eq_refl)).
  reflexivity.
Defined.

(** ** github-api.ts: the adapter's methods *)

Section Adapter.
Import Async Octokit ErrorHandling GithubApi Runs.
Context {W : Type} (remote : Remote W).

(** [createBranch] from a named source branch, exchange by exchange. *)
Lemma createBranch_from_run (this : GitHubApi) (owner repo branch : JsString)
    (u : Z) (source : JsString) (st : State W) :
  let from := u :: source in
  createBranch remote this owner repo branch (Some from) st
  = match respond remote (octokit this) (GitGetRef owner repo (js "heads/" ++ from))
            (world st) with
    | (inl e, w1) =>
        mkOutcome (inl (handleApiError e)) (mkState w1 (githubApiInstance st))
          [mkEvent (octokit this) (GitGetRef owner repo (js "heads/" ++ from)) (inl e)]
    | (inr refData, w1) =>
        match respond remote (octokit this)
                (GitCreateRef owner repo (js "refs/heads/" ++ branch)
                   (object_sha refData)) w1 with
        | (inl e, w2) =>
            mkOutcome (inl (handleApiError e)) (mkState w2 (githubApiInstance st))
              [mkEvent (octokit this) (GitGetRef owner repo (js "heads/" ++ from))
                 (inr refData);
               mkEvent (octokit this)
                 (GitCreateRef owner repo (js "refs/heads/" ++ branch)
                    (object_sha refData)) (inl e)]
        | (inr data, w2) =>
            mkOutcome (inr data) (mkState w2 (githubApiInstance st))
              [mkEvent (octokit this) (GitGetRef owner repo (js "heads/" ++ from))
                 (inr refData);
               mkEvent (octokit this)
                 (GitCreateRef owner repo (js "refs/heads/" ++ branch)
                    (object_sha refData)) (inr data)]
        end
    end.
Proof.
  cbv zeta. unfold createBranch. cbn [truthy default].
  rewrite tryCatch_unfold, bind_unfold. cbn [ret result final trace app].
  rewrite bind_call_run.
  destruct (respond remote (octokit this) _ (world st)) as [[e|refData] w1];
    cbn [result final trace throw app]; [reflexivity|].
  rewrite bind_call_run. cbn [githubApiInstance world].
  destruct (respond remote (octokit this) _ w1) as [[e|data] w2];
    cbn [result final trace throw ret app]; reflexivity.
Qed.

(** X5: [createBranch] with a source branch never asks for the default
    branch: it reads the head of [heads/<source>] and creates
    [refs/heads/<branch>] at that commit, two exchanges when both succeed;
    an empty source name counts as none given, and the default branch is
    looked up as without it.  Whatever fails, the error thrown is the
    adapter's classification of the failed exchange's error. *)
Theorem createBranch_from_source :
  forall (this : GitHubApi) (owner repo branch source : JsString) (st : State W),
    let o := createBranch remote this owner repo branch (Some source) st in
    (source = [] -> o = createBranch remote this owner repo branch None st)
    /\ (source <> [] ->
          (exists answer rest,
              trace o = mkEvent (octokit this)
                          (GitGetRef owner repo (js "heads/" ++ source)) answer :: rest)
          /\ Forall (fun ev => match ev_call ev with ReposGet _ _ => False | _ => True end)
               (trace o)
          /\ (forall data, result o = inr data ->
                exists refData,
                  trace o
                  = [mkEvent (octokit this)
                       (GitGetRef owner repo (js "heads/" ++ source)) (inr refData);
                     mkEvent (octokit this)
                       (GitCreateRef owner repo (js "refs/heads/" ++ branch)
                          (object_sha refData)) (inr data)])
          /\ (forall e, result o = inl e ->
                exists ev e0,
                  last (trace o) = Some ev /\ ev_error ev = Some e0
                  /\ e = handleApiError e0)).
Proof.
  intros this owner repo branch source st. cbv zeta. split.
  - intros ->. reflexivity.
  - intros Hne. destruct source as [|u source]; [contradiction|].
    rewrite createBranch_from_run. cbv zeta.
    destruct (respond remote (octokit this) _ (world st)) as [[e|refData] w1].
    + cbn [result trace]. repeat split.
      * eexists _, _. reflexivity.
      * repeat constructor.
      * discriminate.
      * intros e' H; injection H as <-. eexists _, e. repeat split.
    + destruct (respond remote (octokit this) _ w1) as [[e|data] w2];
        cbn [result trace]; repeat split;
        try (eexists _, _; reflexivity); try (repeat constructor; fail);
        try discriminate.
      * intros e' H; injection H as <-. eexists _, e. repeat split.
      * intros d H; injection H as <-. exists refData. reflexivity.
Qed.

(** X6: every error that leaves the adapter is classified, and it is the
    classification of the error of the last exchange made: so for the
    existence probe, the default-branch lookup, branch creation and the
    branch-ensure step of the file handlers. *)
Theorem adapter_errors_are_classified :
  forall (this : GitHubApi) (owner repo branch : JsString) (st : State W),
    throwsClassified (branchExists remote this owner repo branch st)
    /\ throwsClassified (getDefaultBranch remote this owner repo st)
    /\ (forall fromBranch,
          throwsClassified (createBranch remote this owner repo branch fromBranch st))
    /\ throwsClassified (Files.ensureBranch remote this owner repo branch st).
Proof.
  intros this owner repo branch st. unfold throwsClassified.
  assert (Hdefault : forall s e,
    result (getDefaultBranch remote this owner repo s) = inl e ->
    isMcpError e = true
    /\ exists ev e0,
         last (trace (getDefaultBranch remote this owner repo s)) = Some ev
         /\ ev_error ev = Some e0 /\ e = handleApiError e0).
  { intros s e. rewrite getDefaultBranch_run.
    destruct (respond remote (octokit this) _ (world s)) as [[e0|d] w];
      cbn [result trace]; [|discriminate].
    intros H; injection H as <-. split; [apply handleApiError_classified|].
    eexists _, e0. repeat split. }
  assert (Hcreate : forall s e,
    result (createBranch remote this owner repo branch None s) = inl e ->
    isMcpError e = true
    /\ exists ev e0,
         last (trace (createBranch remote this owner repo branch None s)) = Some ev
         /\ ev_error ev = Some e0 /\ e = handleApiError e0).
  { intros s e. rewrite createBranch_run.
    destruct (respond remote (octokit this) _ (world s)) as [[e0|repoData] w1];
      cbn [result trace].
    { intros H; injection H as <-. split; [apply handleApiError_classified|].
      eexists _, e0. repeat split. }
    destruct (respond remote (octokit this) _ w1) as [[e0|refData] w2];
      cbn [result trace].
    { intros H; injection H as <-. split; [apply handleApiError_classified|].
      eexists _, e0. repeat split. }
    destruct (respond remote (octokit this) _ w2) as [[e0|data] w3];
      cbn [result trace]; [|discriminate].
    intros H; injection H as <-. split; [apply handleApiError_classified|].
    eexists _, e0. repeat split. }
  split; [|split; [exact (Hdefault st)|split]].
  - intros e. unfold branchExists. rewrite tryCatch_unfold, bind_call_run.
    destruct (respond remote (octokit this) _ (world st)) as [[e0|d] w];
      cbn [result final trace ret app]; [|discriminate].
    destruct (status_404_dec (statusOf e0)) as [-> |Hs]; cbn [result]; [discriminate|].
    rewrite (match_not_404 _ _ _ Hs). cbn [throw result trace app].
    intros H; injection H as <-. split; [apply handleApiError_classified|].
    eexists _, e0. repeat split.
  - intros [[|u source]|]; [exact (Hcreate st)| |exact (Hcreate st)].
    intros e. rewrite createBranch_from_run. cbv zeta.
    destruct (respond remote (octokit this) _ (world st)) as [[e0|refData] w1];
      cbn [result trace].
    { intros H; injection H as <-. split; [apply handleApiError_classified|].
      eexists _, e0. repeat split. }
    destruct (respond remote (octokit this) _ w1) as [[e0|data] w2];
      cbn [result trace]; [|discriminate].
    intros H; injection H as <-. split; [apply handleApiError_classified|].
    eexists _, e0. repeat split.
  - intros e Hres.
    destruct (ensureBranch_run remote this owner repo branch st);
      cbn [result trace] in *; try discriminate;
      injection Hres as <-; (split; [apply handleApiError_classified|]);
      eexists _, _; repeat split.
Qed.

End Adapter.

Lemma createBranch_from_source_witness :
  let this := mkGitHubApi (Octokit.mkClient (js "token") None) None in
  let o := GithubApi.createBranch InMemory.remote this (js "acme") (js "widgets")
             (js "feature-x") (Some (js "main")) InMemory.start in
  exists refData,
    Async.trace o
    = [Octokit.mkEvent (octokit this)
         (Octokit.GitGetRef (js "acme") (js "widgets") (js "heads/" ++ js "main"))
         (inr refData);
       Octokit.mkEvent (octokit this)
         (Octokit.GitCreateRef (js "acme") (js "widgets")
            (js "refs/heads/" ++ js "feature-x") (Octokit.object_sha refData))
         (inr (JObj [(js "ref", JStr (js "refs/heads/feature-x"))]))].
Proof.
  cbv zeta.
  destruct (proj2 (createBranch_from_source InMemory.remote
                     (mkGitHubApi (Octokit.mkClient (js "token") None) None)
                     (js "acme") (js "widgets") (js "feature-x") (js "main")
                     InMemory.start) ltac:(discriminate))
    as (_ & _ & Hdone & _).
  apply Hdone. vm_compute. reflexivity.
Defined.

(** ** server.ts: the dispatcher *)

Section DispatcherFacts.
Import Async Octokit ErrorHandling Server Dispatch.
Context {W : Type} (remote : Remote W) (env : Env) (stringify : JsVal -> JsString)
        (bodies : Tools.Bodies W).

(** A handler that begins with [Schema.parse(args)] stops there on a bag
    the schema rejects. *)
Lemma parse_bind_rejects {B : Type} (schema : Zod.Schema) (bag : JsVal)
    (k : JsVal -> M W B) (st : State W) (issue : ZodIssue) (issues : list ZodIssue)
    (out : JsVal) :
  Zod.run schema [] bag = (issue :: issues, out) ->
  bind (Files.parse stringify schema bag) k st
  = mkOutcome
      (inl (ZodError (issue :: issues)
              (stringify (JArr (List.map Zod.issueToJs (issue :: issues))))))
      st [].
Proof.
  intros Hrun. rewrite bind_unfold. unfold Files.parse. rewrite Hrun. reflexivity.
Qed.

(** X7: whatever the tool and the arguments, an error that leaves the
    dispatcher is classified; a result that leaves it is the text
    envelope around the value the selected handler returned; the
    dispatcher itself makes no exchange: its exchanges and its final
    state are the handler's; and a textual bag that is not JSON gets an
    Invalid Parameters error before any handler is looked up, for a tool
    of the catalog as for any other name. *)
Theorem callTool_outcomes :
  forall (name : JsString) (args : JsVal) (st : State W),
    let o := callTool remote env stringify bodies name args st in
    (forall e, result o = inl e -> isMcpError e = true)
    /\ (forall r, result o = inr r ->
          exists handler bag value,
            select (toolTable remote env stringify bodies) name = Some handler
            /\ bagOf args = Some bag
            /\ result (handler bag st) = inr value
            /\ r = envelope stringify value)
    /\ (forall handler bag,
          select (toolTable remote env stringify bodies) name = Some handler ->
          bagOf args = Some bag ->
          trace o = trace (handler bag st) /\ final o = final (handler bag st))
    /\ (bagOf args = None ->
          trace o = [] /\ final o = st
          /\ exists text,
               result o
               = inl (McpError InvalidParams (js "Invalid JSON" ++ js ": " ++ text))).
Proof.
  intros name args st. cbv zeta. rewrite callTool_run.
  destruct (bagOf args) as [bag|].
  - destruct (select (toolTable remote env stringify bodies) name) as [handler|].
    + cbn [result final trace]. split; [|split; [|split]].
      * intros e. destruct (result (handler bag st)) as [e0|r]; [|discriminate].
        intros H; injection H as <-. unfold dispatched.
        destruct (isMcpError e0) eqn:E; [exact E|reflexivity].
      * intros r. destruct (result (handler bag st)) as [e0|value] eqn:Er; [discriminate|].
        intros H; injection H as <-. exists handler, bag, value. auto.
      * intros handler' bag' Hh Hb. injection Hh as <-. injection Hb as <-.
        split; reflexivity.
      * discriminate.
    + cbn [result final trace]. split; [|split; [|split]]; try discriminate.
      intros e H; injection H as <-. reflexivity.
  - cbn [result final trace]. split; [|split; [|split]]; try discriminate.
    + intros e H; injection H as <-. reflexivity.
    + intros _. split; [reflexivity|]. split; [reflexivity|]. eexists. reflexivity.
Qed.

(** X8: the dispatcher does not care whether the argument bag arrives as
    structured data or as its JSON text. *)
Theorem callTool_textual_bag :
  forall (name text : JsString) (bag : JsVal) (st : State W),
    JSON.parse text = Some bag ->
    (forall inner, bag <> JStr inner) ->
    callTool remote env stringify bodies name (JStr text) st
    = callTool remote env stringify bodies name bag st.
Proof.
  intros name text bag st Hparse Hdata. rewrite !callTool_run.
  cbn [bagOf]. rewrite Hparse.
  destruct bag; try reflexivity. exfalso. eapply Hdata. reflexivity.
Qed.

(** X9: for every tool whose handler parses its bag, a bag the tool's
    schema rejects stops at the parser: no exchange is made and the state
    is unchanged.  The dispatcher reports it as an Internal error (the
    validator's error is not a classified one) whose message names the
    tool. *)
Theorem rejected_bag_is_internal_error :
  forall (name : JsString) (schema : Zod.Schema),
    In (name, schema) Parsing.schemaOf ->
    forall (args bag : JsVal) (st : State W) (issue : ZodIssue)
           (issues : list ZodIssue) (out : JsVal),
      bagOf args = Some bag ->
      Zod.run schema [] bag = (issue :: issues, out) ->
      exists text,
        callTool remote env stringify bodies name args st
        = mkOutcome
            (inl (McpError InternalError
                    (js "Error executing tool " ++ name ++ js ": " ++ text)))
            st [].
Proof.
  intros name schema Hin args bag st issue issues out Hbag Hrun.
  exists (stringify (JArr (List.map Zod.issueToJs (issue :: issues)))).
  rewrite callTool_run, Hbag.
  assert (Hhandler : exists handler,
    select (toolTable remote env stringify bodies) name = Some handler
    /\ handler bag st
       = mkOutcome
           (inl (ZodError (issue :: issues)
                   (stringify (JArr (List.map Zod.issueToJs (issue :: issues))))))
           st []).
  { unfold Parsing.schemaOf in Hin. cbn [In] in Hin.
    repeat (destruct Hin as [Hin|Hin];
            [injection Hin as <- <-; eexists; split; [reflexivity|];
             exact (parse_bind_rejects _ _ _ _ _ _ _ Hrun)|]).
    contradiction. }
  destruct Hhandler as (handler & -> & ->). reflexivity.
Qed.

End DispatcherFacts.

Lemma callTool_textual_bag_witness :
  Server.callTool InMemory.remote InMemory.env InMemory.stringify InMemory.bodies
    (js "fork-repository") (JStr (jsonText "{ 'owner': 'acme', 'repo': 'widgets' }"))
    InMemory.start
  = Server.callTool InMemory.remote InMemory.env InMemory.stringify InMemory.bodies
      (js "fork-repository")
      (JObj [(js "owner", JStr (js "acme")); (js "repo", JStr (js "widgets"))])
      InMemory.start.
Proof.
  apply callTool_textual_bag.
  - vm_compute. reflexivity.
  - discriminate.
Defined.

Lemma rejected_bag_is_internal_error_witness :
  exists text,
    Server.callTool InMemory.remote InMemory.env InMemory.stringify InMemory.bodies
      (js "get-issue")
      (JObj [(js "owner", JStr (js "acme")); (js "repo", JStr (js "widgets"));
             (js "issue_number", JNum 0)])
      InMemory.start
    = Async.mkOutcome
        (inl (McpError InternalError
                (js "Error executing tool " ++ js "get-issue" ++ js ": " ++ text)))
        InMemory.start [].
Proof.
  eapply (rejected_bag_is_internal_error InMemory.remote InMemory.env
            InMemory.stringify InMemory.bodies (js "get-issue")
            Validation.GetIssueSchema).
  - unfold Parsing.schemaOf. cbn [In]. do 13 right. left. reflexivity.
  - reflexivity.
  - vm_compute. reflexivity.
Defined.

(** ** validation.ts: what the schemas accept *)

Lemma eachField_issues {S : Type} (f : JsString -> S -> list ZodIssue * JsVal)
    (props : list (JsString * JsVal)) (shape : list (JsString * S)) :
  fst (Zod.eachField f props shape) = []
  <-> Forall (fun ks => fst (f (fst ks) (snd ks)) = []) shape.
Proof.
  induction shape as [|[k sk] shape IH]; cbn [Zod.eachField].
  - split; [constructor|reflexivity].
  - destruct (f k sk) as [is1 o1] eqn:E1.
    destruct (Zod.eachField f props shape) as [is2 o2]. cbn [fst] in *.
    split.
    + intros H. apply app_eq_nil in H as [-> H2]. constructor.
      * cbn [fst snd]. rewrite E1. reflexivity.
      * apply IH. exact H2.
    + intros H. inversion H as [|? ? H1 H2]; subst. cbn [fst snd] in H1.
      rewrite E1 in H1. cbn [fst] in H1. subst is1.
      apply IH in H2. rewrite H2. reflexivity.
Qed.

Lemma eachField_keys {S : Type} (f : JsString -> S -> list ZodIssue * JsVal)
    (props : list (JsString * JsVal)) (shape : list (JsString * S)) :
  sublist (List.map fst (snd (Zod.eachField f props shape))) (List.map fst shape).
Proof.
  induction shape as [|[k sk] shape IH]; cbn [Zod.eachField]; [constructor|].
  destruct (f k sk) as [is1 o1].
  destruct (Zod.eachField f props shape) as [is2 o2]. cbn [fst snd List.map] in *.
  destruct o1; try (apply sublist_skip; exact IH).
  destruct (hasProp props k); [apply sublist_skip|apply sublist_cons]; exact IH.
Qed.

Lemma eachField_agree {S : Type} (f g : JsString -> S -> list ZodIssue * JsVal)
    (props props' : list (JsString * JsVal)) (shape : list (JsString * S)) :
  (forall k sk, In (k, sk) shape ->
     f k sk = g k sk /\ hasProp props k = hasProp props' k) ->
  Zod.eachField f props shape = Zod.eachField g props' shape.
Proof.
  induction shape as [|[k sk] shape IH]; intros H; cbn [Zod.eachField]; [reflexivity|].
  destruct (H k sk (or_introl eq_refl)) as [-> ->].
  rewrite IH by (intros k' sk' Hin; apply H; right; exact Hin).
  reflexivity.
Qed.

(** X10: an object schema looks at the keys of its shape and at nothing
    else.  Two bags that agree on those keys get the same verdict and the
    same parsed value; the parsed object holds keys of the shape only, in
    the order of the shape; and it is accepted exactly when each key's
    value is accepted by that key's schema, a missing key counting as
    [undefined]. *)
Theorem object_schema_reads_its_shape_only :
  forall (shape : list (JsString * Zod.Schema)) (path : list PathElem)
         (props : list (JsString * JsVal)),
    (forall props',
        (forall k, In k (List.map fst shape) ->
           getProp props k = getProp props' k /\ hasProp props k = hasProp props' k) ->
        Zod.run (Zod.ZObject shape) path (JObj props)
        = Zod.run (Zod.ZObject shape) path (JObj props'))
    /\ (exists fields,
          snd (Zod.run (Zod.ZObject shape) path (JObj props)) = JObj fields
          /\ sublist (List.map fst fields) (List.map fst shape))
    /\ (fst (Zod.run (Zod.ZObject shape) path (JObj props)) = []
        <-> Forall (fun ks => fst (Zod.run (snd ks) (path ++ [PKey (fst ks)])
                                     (getProp props (fst ks))) = []) shape).
Proof.
  intros shape path props. rewrite run_object. cbn [fst snd]. repeat split.
  - intros props' Hagree. rewrite run_object. f_equal.
    + f_equal. apply eachField_agree. intros k sk Hin.
      destruct (Hagree k) as [Hg Hh]; [apply (in_map fst) in Hin; exact Hin|].
      rewrite Hg. auto.
    + do 2 f_equal. apply eachField_agree. intros k sk Hin.
      destruct (Hagree k) as [Hg Hh]; [apply (in_map fst) in Hin; exact Hin|].
      rewrite Hg. auto.
  - eexists. split; [reflexivity|]. apply eachField_keys.
  - apply (eachField_issues
             (fun k sk => Zod.run sk (path ++ [PKey k]) (getProp props k))).
  - apply (eachField_issues
             (fun k sk => Zod.run sk (path ++ [PKey k]) (getProp props k))).
Qed.

Lemma object_schema_reads_its_shape_only_witness :
  Zod.run Validation.OwnerRepoSchema []
    (JObj [(js "perPage", JNum 5); (js "owner", JStr (js "acme"));
           (js "repo", JStr (js "widgets"))])
  = Zod.run Validation.OwnerRepoSchema []
      (JObj [(js "owner", JStr (js "acme")); (js "repo", JStr (js "widgets"));
             (js "owner", JStr (js "shadowed"))]).
Proof.
  apply (proj1 (object_schema_reads_its_shape_only _ [] _)).
  intros k Hin. cbn [List.map fst In] in Hin.
  destruct Hin as [<-|[<-|[]]]; split; reflexivity.
Defined.

Lemma run_required_accepts (message : String.string) (path : list PathElem) (v : JsVal) :
  fst (Zod.run (Validation.required message) path v) = []
  <-> exists s, v = JStr s /\ s <> [].
Proof.
  unfold Validation.required, Zod.min, Zod.string. cbn [Zod.run].
  destruct v as [| | | |s| | |]; cbn [fst];
    try (split; [discriminate|intros (s0 & H & _); discriminate H]).
  destruct s as [|c s]; cbn [List.length Nat.ltb Nat.leb fst].
  - split; [discriminate|]. intros (s0 & H & Hne). injection H as <-. contradiction.
  - split; [|reflexivity]. intros _. eexists. split; [reflexivity|discriminate].
Qed.

Lemma run_optional_accepts (inner : Zod.Schema) (path : list PathElem) (v : JsVal) :
  fst (Zod.run (Zod.optional inner) path v) = []
  <-> v = JUndefined \/ (v <> JUndefined /\ fst (Zod.run inner path v) = []).
Proof.
  unfold Zod.optional. cbn [Zod.run].
  destruct v; cbn [fst];
    try (split; [intros H; right; split; [discriminate|exact H]
                |intros [H|[_ H]]; [discriminate H|exact H]]).
  split; [intros _; left; reflexivity|reflexivity].
Qed.

Lemma qle_bool_false (a b : Q) : Qle_bool a b = false <-> (b < a)%Q.
Proof.
  split.
  - intros H. apply Qnot_le_lt. intros Hle. apply Qle_bool_iff in Hle. congruence.
  - intros H. destruct (Qle_bool a b) eqn:E; [|reflexivity].
    apply Qle_bool_iff in E. exfalso. exact (Qlt_not_le _ _ H E).
Qed.

Lemma run_positive_int_accepts (path : list PathElem) (v : JsVal) :
  fst (Zod.run (Zod.positive (Zod.int Zod.number)) path v) = []
  <-> exists q, v = JNum q /\ Zod.isInteger q = true /\ (0 < q)%Q.
Proof.
  unfold Zod.positive, Zod.int, Zod.number, Zod.addCheck. cbn [app Zod.run].
  destruct v as [| | |q| | | |negative]; cbn [fst];
    try (split; [discriminate|intros (q0 & H & _); discriminate H]).
  cbn [List.map List.concat Zod.runCheck app].
  destruct (Zod.isInteger q) eqn:Ei; cbn [app].
  - destruct (Qle_bool q (inject_Z 0)) eqn:El.
    + split; [discriminate|]. intros (q0 & H & _ & Hpos). injection H as <-.
      apply Qle_bool_iff in El. exfalso. exact (Qlt_not_le _ _ Hpos El).
    + split; [|rewrite app_nil_r; reflexivity]. intros _. exists q.
      split; [reflexivity|]. split; [exact Ei|]. apply qle_bool_false. exact El.
  - split; [discriminate|]. intros (q0 & H & Hi & _). injection H as <-. congruence.
Qed.

Lemma run_bounded_accepts (lower upper : Z) (path : list PathElem) (v : JsVal) :
  fst (Zod.run (Zod.numMax (Zod.numMin Zod.number lower) upper) path v) = []
  <-> exists q, v = JNum q /\ (inject_Z lower <= q)%Q /\ (q <= inject_Z upper)%Q.
Proof.
  unfold Zod.numMax, Zod.numMin, Zod.number, Zod.addCheck. cbn [app Zod.run].
  destruct v as [| | |q| | | |negative]; cbn [fst];
    try (split; [discriminate|intros (q0 & H & _); discriminate H]).
  2:{ destruct negative; cbn [List.map List.concat Zod.runCheckInfinite app];
        (split; [discriminate|intros (q0 & H & _); discriminate H]). }
  cbn [List.map List.concat Zod.runCheck app]. unfold Zod.qlt.
  destruct (Qle_bool (inject_Z lower) q) eqn:E1; cbn [negb app].
  - destruct (Qle_bool q (inject_Z upper)) eqn:E2; cbn [negb app].
    + split; [|reflexivity]. intros _. exists q. split; [reflexivity|].
      split; apply Qle_bool_iff; assumption.
    + split; [discriminate|]. intros (q0 & H & _ & Hu). injection H as <-.
      apply Qle_bool_iff in Hu. congruence.
  - split; [discriminate|]. intros (q0 & H & Hl & _). injection H as <-.
    apply Qle_bool_iff in Hl. congruence.
Qed.

Lemma run_at_least_accepts (lower : Z) (path : list PathElem) (v : JsVal) :
  fst (Zod.run (Zod.numMin Zod.number lower) path v) = []
  <-> (exists q, v = JNum q /\ (inject_Z lower <= q)%Q) \/ v = JInfinity false.
Proof.
  unfold Zod.numMin, Zod.number, Zod.addCheck. cbn [app Zod.run].
  destruct v as [| | |q| | | |negative]; cbn [fst];
    try (split; [discriminate|intros [(q0 & H & _)|H]; discriminate H]).
  2:{ destruct negative; cbn [List.map List.concat Zod.runCheckInfinite app].
      - split; [discriminate|intros [(q0 & H & _)|H]; discriminate H].
      - split; [intros _; right; reflexivity|reflexivity]. }
  cbn [List.map List.concat Zod.runCheck app]. unfold Zod.qlt.
  destruct (Qle_bool (inject_Z lower) q) eqn:E1; cbn [negb app].
  - split; [|reflexivity]. intros _. left. exists q. split; [reflexivity|].
    apply Qle_bool_iff; assumption.
  - split; [discriminate|]. intros [(q0 & H & Hl)|H]; [|discriminate H].
    injection H as <-. apply Qle_bool_iff in Hl. congruence.
Qed.

Lemma run_enum_accepts (values : list String.string) (path : list PathElem) (v : JsVal) :
  fst (Zod.run (Validation.enum values) path v) = []
  <-> exists s, v = JStr s /\ In s (List.map js values).
Proof.
  unfold Validation.enum. cbn [Zod.run].
  destruct v as [| | | |s| | |]; cbn [fst];
    try (split; [discriminate|intros (s0 & H & _); discriminate H]).
  destruct (existsb (eqbStr s) (List.map js values)) eqn:E; cbn [fst].
  - split; [|reflexivity]. intros _. exists s. split; [reflexivity|].
    apply existsb_exists in E as (x & Hin & Heq).
    unfold eqbStr in Heq. apply bool_decide_eq_true_1 in Heq. subst x. exact Hin.
  - split; [discriminate|]. intros (s0 & H & Hin). injection H as <-.
    assert (existsb (eqbStr s) (List.map js values) = true); [|congruence].
    apply existsb_exists. exists s. split; [exact Hin|].
    unfold eqbStr. apply bool_decide_eq_true_2. reflexivity.
Qed.

Lemma run_object_accepts (shape : list (JsString * Zod.Schema)) (path : list PathElem)
    (v : JsVal) :
  fst (Zod.run (Zod.ZObject shape) path v) = []
  <-> exists props,
        v = JObj props
        /\ Forall (fun ks => fst (Zod.run (snd ks) (path ++ [PKey (fst ks)])
                                    (getProp props (fst ks))) = []) shape.
Proof.
  destruct v as [| | | | | |props|];
    try (cbn [Zod.run fst]; split; [discriminate|intros (p & H & _); discriminate H]).
  rewrite run_object. cbn [fst].
  rewrite (eachField_issues
             (fun k sk => Zod.run sk (path ++ [PKey k]) (getProp props k))).
  split.
  - intros H. exists props. split; [reflexivity|exact H].
  - intros (p & H & Hall). injection H as <-. exact Hall.
Qed.

(** X11: the schema of the tools that name a pull request or an issue by
    its number accepts a bag exactly when the bag is an object whose
    [owner] and [repo] are non-empty strings and whose number is an
    integer greater than zero: zero, a negative number and a fraction are
    rejected. *)
Theorem numbered_request_accepted :
  forall (key : String.string) (schema : Zod.Schema),
    In (key, schema)
       [("issue_number", Validation.GetIssueSchema);
        ("pull_number", Validation.GetPullRequestSchema);
        ("pull_number", Validation.GetPullRequestFilesSchema);
        ("pull_number", Validation.GetPullRequestStatusSchema);
        ("pull_number", Validation.GetPullRequestCommentsSchema);
        ("pull_number", Validation.GetPullRequestReviewsSchema)]%string ->
    forall args : JsVal,
      fst (Zod.run schema [] args) = []
      <-> exists props owner repo number,
            args = JObj props
            /\ getProp props (js "owner") = JStr owner /\ owner <> []
            /\ getProp props (js "repo") = JStr repo /\ repo <> []
            /\ getProp props (js key) = JNum number
            /\ Zod.isInteger number = true /\ (0 < number)%Q.
Proof.
  intros key schema Hin args.
  assert (Hshape : schema
                   = Zod.ZObject
                       [(js "owner", Validation.required "Repository owner is required");
                        (js "repo", Validation.required "Repository name is required");
                        (js key, Zod.positive (Zod.int Zod.number))]).
  { cbn [In] in Hin.
    repeat (destruct Hin as [Hin|Hin]; [injection Hin as <- <-; reflexivity|]).
    contradiction. }
  rewrite Hshape, run_object_accepts. cbn [app]. split.
  - intros (props & -> & Hall).
    inversion Hall as [|? ? Ho Hall1]; subst. inversion Hall1 as [|? ? Hr Hall2]; subst.
    inversion Hall2 as [|? ? Hn _]; subst. cbn [fst snd] in *.
    apply run_required_accepts in Ho as (owner & Ho & Hone).
    apply run_required_accepts in Hr as (repo & Hr & Hrne).
    apply run_positive_int_accepts in Hn as (q & Hn & Hi & Hpos).
    exists props, owner, repo, q. auto 10.
  - intros (props & owner & repo & q & -> & Ho & Hone & Hr & Hrne & Hn & Hi & Hpos).
    exists props. split; [reflexivity|].
    repeat constructor; cbn [fst snd].
    + apply run_required_accepts. eauto.
    + apply run_required_accepts. eauto.
    + apply run_positive_int_accepts. eauto.
Qed.

(** X12: [SearchCodeSchema] accepts an object exactly when [q] is a
    non-empty string, [order] is absent or one of [asc] and [desc], [page]
    is absent or a number at least 1 ([Infinity] is one), and [per_page]
    is absent or a number from 1 to 100, bounds included. *)
Theorem search_code_bag_accepted :
  forall props : list (JsString * JsVal),
    fst (Zod.run Validation.SearchCodeSchema [] (JObj props)) = []
    <-> (exists q, getProp props (js "q") = JStr q /\ q <> [])
        /\ (getProp props (js "order") = JUndefined
            \/ getProp props (js "order") = JStr (js "asc")
            \/ getProp props (js "order") = JStr (js "desc"))
        /\ (getProp props (js "page") = JUndefined
            \/ (exists n, getProp props (js "page") = JNum n /\ (1 <= n)%Q)
            \/ getProp props (js "page") = JInfinity false)
        /\ (getProp props (js "per_page") = JUndefined
            \/ exists n, getProp props (js "per_page") = JNum n
                         /\ (1 <= n)%Q /\ (n <= 100)%Q).
Proof.
  intros props.
  change Validation.SearchCodeSchema
    with (Zod.ZObject
            [(js "q", Validation.required "Search query is required");
             (js "order", Zod.optional (Validation.enum ["asc"; "desc"]%string));
             (js "page", Zod.optional (Zod.numMin Zod.number 1));
             (js "per_page", Zod.optional (Zod.numMax (Zod.numMin Zod.number 1) 100))]).
  rewrite run_object_accepts. cbn [app]. split.
  - intros (p & H & Hall). injection H as <-.
    inversion Hall as [|? ? Hq Hall1]; subst. inversion Hall1 as [|? ? Ho Hall2]; subst.
    inversion Hall2 as [|? ? Hp Hall3]; subst. inversion Hall3 as [|? ? Hpp _]; subst.
    cbn [fst snd] in *.
    apply run_required_accepts in Hq.
    apply run_optional_accepts in Ho. apply run_optional_accepts in Hp.
    apply run_optional_accepts in Hpp.
    split; [exact Hq|]. split; [|split].
    + destruct Ho as [Ho|[_ Ho]]; [left; exact Ho|right].
      apply run_enum_accepts in Ho as (s & Hs & Hin). rewrite Hs.
      cbn [List.map In] in Hin. destruct Hin as [<-|[<-|[]]]; auto.
    + destruct Hp as [Hp|[_ Hp]]; [left; exact Hp|right].
      apply run_at_least_accepts in Hp. exact Hp.
    + destruct Hpp as [Hpp|[_ Hpp]]; [left; exact Hpp|right].
      apply run_bounded_accepts in Hpp. exact Hpp.
  - intros (Hq & Ho & Hp & Hpp). exists props. split; [reflexivity|].
    repeat constructor; cbn [fst snd].
    + apply run_required_accepts. exact Hq.
    + apply run_optional_accepts.
      destruct Ho as [Ho|Ho]; [left; exact Ho|right].
      split; [destruct Ho as [-> | ->]; discriminate|].
      apply run_enum_accepts.
      destruct Ho as [-> | ->]; eexists; (split; [reflexivity|]); cbn [List.map In]; auto.
    + apply run_optional_accepts.
      destruct Hp as [Hp|[(n & Hn & Hle)|Hinf]]; [left; exact Hp|right|right].
      * split; [rewrite Hn; discriminate|].
        apply run_at_least_accepts. eauto.
      * split; [rewrite Hinf; discriminate|].
        apply run_at_least_accepts. right. exact Hinf.
    + apply run_optional_accepts.
      destruct Hpp as [Hpp|(n & Hn & Hle)]; [left; exact Hpp|right].
      split; [rewrite Hn; discriminate|].
      apply run_bounded_accepts. eauto.
Qed.

Lemma numbered_request_accepted_witness :
  fst (Zod.run Validation.GetPullRequestFilesSchema []
         (JObj [(js "owner", JStr (js "acme")); (js "repo", JStr (js "widgets"));
                (js "pull_number", JNum 7)])) = []
  /\ fst (Zod.run Validation.GetPullRequestFilesSchema []
            (JObj [(js "owner", JStr (js "acme")); (js "repo", JStr (js "widgets"));
                   (js "pull_number", JNum (7 # 2))])) <> [].
Proof.
  split.
  - apply (proj2 (numbered_request_accepted "pull_number"
                    Validation.GetPullRequestFilesSchema
                    ltac:(cbn [In]; auto) _)).
    eexists _, _, _, _. repeat split; try reflexivity; discriminate.
  - intros H.
    apply (proj1 (numbered_request_accepted "pull_number"
                    Validation.GetPullRequestFilesSchema
                    ltac:(cbn [In]; auto) _)) in H
      as (props & owner & repo & number & Hp & _ & _ & _ & _ & Hn & Hi & _).
    injection Hp as <-. vm_compute in Hn. injection Hn as <-. discriminate Hi.
Defined.

(** ** repository.ts: deleting a repository *)

Section DeleteRepository.
Import Async Octokit ErrorHandling GithubApi.
Context {W : Type} (env : Env) (stringify : JsVal -> JsString)
        (bodies : Tools.Bodies W).

(** X13: [deleteRepository] reaches the remote client only for a bag whose
    [confirm] is the boolean [true].  Any other bag stops at the parser,
    with no exchange and no state change; and a bag the parser accepts
    always passes the handler's own test of [confirm], which therefore
    never throws. *)
Theorem deleteRepository_needs_confirmation :
  forall (args : JsVal) (st : State W),
    (prop args "confirm" <> JBool true ->
       exists issues text,
         issues <> []
         /\ Tools.deleteRepository env stringify bodies args st
            = mkOutcome (inl (ZodError issues text)) st [])
    /\ (forall parsed,
          Zod.run Validation.DeleteRepositorySchema [] args = ([], parsed) ->
          prop args "confirm" = JBool true
          /\ Tools.deleteRepository env stringify bodies args st
             = bind (getGitHubApi env)
                 (fun github =>
                    tryCatchAsync (Tools.deleteRepositoryBody W bodies github parsed)
                      (js "Failed to delete repository")) st).
Proof.
  intros args st.
  assert (Haccepted : forall parsed,
    Zod.run Validation.DeleteRepositorySchema [] args = ([], parsed) ->
    prop args "confirm" = JBool true /\ prop parsed "confirm" = JBool true).
  { intros parsed.
    change Validation.DeleteRepositorySchema
      with (Zod.ZObject
              [(js "owner", Validation.required "Repository owner is required");
               (js "repo", Validation.required "Repository name is required");
               (js "confirm",
                Zod.ZRefine Zod.boolean Validation.isTrue
                  (js "You must confirm deletion by setting confirm to true"))]).
    intros H. apply run_object_inv in H as (props & fields & -> & -> & E).
    apply eachField_nil_inv in E as (o1 & r1 & H1 & E & ->).
    apply run_required_inv in H1 as (owner & _ & -> & _).
    apply eachField_nil_inv in E as (o2 & r2 & H2 & E & ->).
    apply run_required_inv in H2 as (repo & _ & -> & _).
    apply eachField_nil_inv in E as (o3 & r3 & H3 & E & ->).
    cbn [Zod.eachField] in E. injection E as <-.
    change (prop (JObj props) "confirm") with (getProp props (js "confirm")).
    cbn [Zod.run Zod.boolean] in H3.
    destruct (getProp props (js "confirm")) as [| |b| | | | |]; try discriminate H3.
    destruct b; cbn [Validation.isTrue] in H3; [|discriminate H3].
    injection H3 as <-. split; reflexivity. }
  split.
  - intros Hno.
    destruct (Zod.run Validation.DeleteRepositorySchema [] args)
      as [[|issue issues] parsed] eqn:Ez.
    + destruct (Haccepted parsed eq_refl) as [Hyes _]. contradiction.
    + eexists _, _. split; [|exact (parse_bind_rejects stringify _ _ _ _ _ _ _ Ez)].
      discriminate.
  - intros parsed Hz. destruct (Haccepted parsed Hz) as [Hargs Hparsed].
    split; [exact Hargs|].
    assert (Hp : Files.parse stringify Validation.DeleteRepositorySchema args st
                 = mkOutcome (inr parsed) st [])
      by (unfold Files.parse; rewrite Hz; reflexivity).
    unfold Tools.deleteRepository. rewrite bind_unfold, Hp.
    cbn [result final trace app]. rewrite Hparsed. reflexivity.
Qed.

End DeleteRepository.

Lemma deleteRepository_needs_confirmation_witness :
  exists issues text,
    Tools.deleteRepository InMemory.env InMemory.stringify InMemory.bodies
      (JObj [(js "owner", JStr (js "acme")); (js "repo", JStr (js "widgets"));
             (js "confirm", JBool false)])
      InMemory.start
    = Async.mkOutcome (inl (ZodError issues text)) InMemory.start [].
Proof.
  destruct (proj1 (deleteRepository_needs_confirmation InMemory.env InMemory.stringify
                     InMemory.bodies
                     (JObj [(js "owner", JStr (js "acme"));
                            (js "repo", JStr (js "widgets"));
                            (js "confirm", JBool false)])
                     InMemory.start) ltac:(discriminate))
    as (issues & text & _ & H).
  exists issues, text. exact H.
Defined.

(** ** server.ts and validation.ts: the advertised schemas *)

Lemma incl_by_test (l1 l2 : list JsString) :
  forallb (fun k => existsb (eqbStr k) l2) l1 = true -> incl l1 l2.
Proof.
  intros H k Hin. rewrite forallb_forall in H. specialize (H k Hin).
  apply existsb_exists in H as (x & Hx & Heq).
  unfold eqbStr in Heq. apply bool_decide_eq_true_1 in Heq. subst. exact Hx.
Qed.

(** X14: for every tool whose handler parses its bag, the input schema
    the server advertises and the schema the handler parses with name the
    same fields: the advertised [required] list is the list of the keys
    whose schema rejects [undefined], in the same order; every advertised
    property is a key of the handler's schema; and every key of the
    handler's schema is advertised, but for [org] of [create-repository]. *)
Theorem descriptors_name_the_schema_fields :
  forall (name : JsString) (schema : Zod.Schema),
    In (name, schema) Parsing.schemaOf ->
    exists d,
      ToolList.descriptorOf name = Some d
      /\ ToolList.tool_required d = Parsing.requiredOf schema
      /\ incl (ToolList.tool_properties d) (Parsing.keysOf schema)
      /\ incl (Parsing.keysOf schema)
           (ToolList.tool_properties d
            ++ (if eqbStr name (js "create-repository") then [js "org"] else [])).
Proof.
  intros name schema Hin. unfold Parsing.schemaOf in Hin. cbn [In] in Hin.
  repeat (destruct Hin as [Hin|Hin];
          [injection Hin as <- <-; eexists;
           split; [vm_compute; reflexivity|];
           split; [vm_compute; reflexivity|];
           split; apply incl_by_test; vm_compute; reflexivity|]).
  contradiction.
Qed.

(** ** files.ts: the commit engine, once more *)


Section EngineFacts.
Import Async Octokit GithubApi Files Runs Calls ErrorHandling.
Context {W : Type} (remote : Remote W).

(** The exchanges of an engine run, but for the last one when that is the
    ref update, are none of them a ref update; those that are not commit
    steps come first. *)
Lemma pushRun_trace github owner repo branch files message
    (st : State W) (o : Outcome W JsVal) :
  PushRun remote github owner repo branch files message st o ->
  (Forall (fun ev => isRefUpdate (ev_call ev) = false) (trace o)
   /\ (forall r, result o <> inr r)
   /\ (forall ev e0, last (trace o) = Some ev -> isCommitStep (ev_call ev) = true ->
         ev_error ev = Some e0 -> result o = inl e0))
  \/ exists before commitData settled newTree refData newCommit answer,
       Forall (fun ev => isRefUpdate (ev_call ev) = false) before
       /\ trace o
          = before
            ++ [exchange github
                  (GitCreateTree owner repo (tree_sha commitData) (fulfilled settled))
                  (inr newTree);
                exchange github
                  (GitCreateCommit owner repo message (sha newTree) [object_sha refData])
                  (inr newCommit);
                exchange github
                  (GitUpdateRef owner repo (js "heads/" ++ branch) (sha newCommit))
                  answer]
       /\ result o = match answer with
                     | inl e => inl e
                     | inr _ => inr (pushResult owner repo branch files message
                                       (sha newCommit))
                     end.
Proof.
  intros Hrun.
  assert (Hweak : forall l : list Event,
             Forall (fun x => isCommitStep (ev_call x) = false) l ->
             Forall (fun x => isRefUpdate (ev_call x) = false) l).
  { intros l Hl. eapply Forall_impl; [exact Hl|]. intros x.
    cbn beta. destruct (ev_call x); cbn; intros; congruence. }
  assert (Hlook : forall l : list Event,
             Forall (fun x => isContentLookup (ev_call x) = true) l ->
             Forall (fun x => isRefUpdate (ev_call x) = false) l
             /\ Forall (fun x => isCommitStep (ev_call x) = false) l).
  { intros l Hl. split; (eapply Forall_impl; [exact Hl|]); intros x;
      cbn beta; destruct (ev_call x); cbn; intros; congruence. }
  assert (Hquiet : forall (l : list Event) ev e0,
             Forall (fun x => isCommitStep (ev_call x) = false) l ->
             last l = Some ev -> isCommitStep (ev_call ev) = true ->
             ev_error ev = Some e0 -> False).
  { intros l ev e0 Hl Hlast Hstep _.
    pose proof (Forall_last _ _ _ Hl Hlast) as Hf. cbn beta in Hf. congruence. }
  destruct Hrun as
    [ e' st1 t He
    | existed st1 t e' w2 He E1
    | existed st1 t refData w2 e' w3 He E1 E2
    | existed st1 t refData w2 commitData w3 settled st4 tl e' He E1 E2 Hs Hrej
    | existed st1 t refData w2 commitData w3 settled st4 tl e' w5 He E1 E2 Hs Hrej E3
    | existed st1 t refData w2 commitData w3 settled st4 tl newTree w5 e' w6
        He E1 E2 Hs Hrej E3 E4
    | existed st1 t refData w2 commitData w3 settled st4 tl newTree w5 newCommit w6
        e' w7 He E1 E2 Hs Hrej E3 E4 E5
    | existed st1 t refData w2 commitData w3 settled st4 tl newTree w5 newCommit w6
        updated w7 He E1 E2 Hs Hrej E3 E4 E5 ];
    cbn [trace result];
    pose proof (ensureBranch_run remote github owner repo branch st) as Hens;
    rewrite He in Hens;
    apply ensure_trace_no_commit_step in Hens; cbn [trace] in Hens;
    pose proof (Hweak _ Hens) as Hens';
    try (apply lookups_are_content_lookups in Hs; apply Hlook in Hs as [Hs Hs']).
  - left. split; [exact Hens'|]. split; [discriminate|].
    intros ev e0 Hlast Hstep Herr. exfalso. exact (Hquiet _ _ _ Hens Hlast Hstep Herr).
  - left. split; [apply Forall_app_2; [exact Hens'|repeat constructor]|].
    split; [discriminate|].
    intros ev e0 Hlast Hstep Herr. exfalso. refine (Hquiet _ _ _ _ Hlast Hstep Herr).
    apply Forall_app_2; [exact Hens|repeat constructor].
  - left. split; [apply Forall_app_2; [exact Hens'|repeat constructor]|].
    split; [discriminate|].
    intros ev e0 Hlast Hstep Herr.
    rewrite last_app in Hlast. cbn [last] in Hlast. injection Hlast as <-.
    cbn in Herr. injection Herr as <-. reflexivity.
  - left. split.
    { apply Forall_app_2; [exact Hens'|].
      apply Forall_app_2; [repeat constructor|exact Hs]. }
    split; [discriminate|].
    intros ev e0 Hlast Hstep Herr. exfalso.
    rewrite last_app in Hlast.
    change ([exchange github (lookupRef owner repo branch) (inr refData);
             exchange github (GitGetCommit owner repo (object_sha refData))
               (inr commitData)] ++ tl)
      with (exchange github (lookupRef owner repo branch) (inr refData)
            :: exchange github (GitGetCommit owner repo (object_sha refData))
                 (inr commitData) :: tl) in Hlast.
    destruct tl as [|x tl]; cbn [last] in Hlast.
    + injection Hlast as <-. cbn in Herr. discriminate Herr.
    + refine (Hquiet (x :: tl) _ _ Hs' _ Hstep Herr).
      destruct (last (x :: tl)) eqn:El; [exact Hlast|].
      apply last_None in El. discriminate El.
  - left. split.
    { apply Forall_app_2; [exact Hens'|].
      apply Forall_app_2; [repeat constructor|].
      apply Forall_app_2; [exact Hs|repeat constructor]. }
    split; [discriminate|].
    intros ev e0 Hlast Hstep Herr.
    rewrite !app_assoc, last_snoc in Hlast. injection Hlast as <-.
    cbn in Herr. injection Herr as <-. reflexivity.
  - left. split.
    { apply Forall_app_2; [exact Hens'|].
      apply Forall_app_2; [repeat constructor|].
      apply Forall_app_2; [exact Hs|repeat constructor]. }
    split; [discriminate|].
    intros ev e0 Hlast Hstep Herr.
    rewrite !last_app in Hlast. cbn [last] in Hlast. injection Hlast as <-.
    cbn in Herr. injection Herr as <-. reflexivity.
  - right.
    exists (t ++ [exchange github (lookupRef owner repo branch) (inr refData);
                  exchange github (GitGetCommit owner repo (object_sha refData))
                    (inr commitData)] ++ tl),
      commitData, settled, newTree, refData, newCommit, (inl e').
    split.
    { apply Forall_app_2; [exact Hens'|].
      apply Forall_app_2; [repeat constructor|exact Hs]. }
    split; [rewrite <- !app_assoc; reflexivity|reflexivity].
  - right.
    exists (t ++ [exchange github (lookupRef owner repo branch) (inr refData);
                  exchange github (GitGetCommit owner repo (object_sha refData))
                    (inr commitData)] ++ tl),
      commitData, settled, newTree, refData, newCommit, (inr updated).
    split.
    { apply Forall_app_2; [exact Hens'|].
      apply Forall_app_2; [repeat constructor|exact Hs]. }
    split; [rewrite <- !app_assoc; reflexivity|reflexivity].
Qed.

End EngineFacts.

Section EngineTheorems.
Import Async Octokit GithubApi Files Runs Calls ErrorHandling.
Context {W : Type} (remote : Remote W) (env : Env) (stringify : JsVal -> JsString).

(** What a run of the handler is: nothing, or a run of the engine on the
    fields of the bag. *)
Lemma pushFiles_trace (args : JsVal) (st : State W) :
  let o := pushFiles remote env stringify args st in
  (trace o = [] /\ forall r, result o <> inr r)
  \/ exists github st0 body,
       PushRun remote github
         (asString (prop args "owner")) (asString (prop args "repo"))
         (asString (prop args "branch"))
         (List.map asFile (asArray (prop args "files")))
         (asString (prop args "message")) st0 body
       /\ trace o = trace body
       /\ result o = match result body with
                     | inr r => inr r
                     | inl e => inl (rethrown (js "Failed to push files") e)
                     end.
Proof.
  cbv zeta.
  destruct (pushFiles_call remote env stringify args st)
    as [issue issues out Hz | parsed e Hz Hg | parsed github o Hz Hg Ho];
    cbn [trace result].
  - left. split; [reflexivity|discriminate].
  - left. split; [reflexivity|discriminate].
  - right. subst o.
    destruct (PushFilesSchema_fields args parsed Hz) as (-> & -> & -> & -> & -> & _).
    eexists github, _, _.
    split; [apply pushFilesBody_run|]. split; reflexivity.
Qed.


(** X16: the commit steps of [pushFiles] call the remote client directly,
    so their errors are not classified by status.  When the last exchange
    of a run is a commit read, a tree creation, a commit creation or a ref
    update that failed, the handler throws that error itself when it is
    classified already and otherwise an Internal error with the message
    [Failed to push files: <message>], whatever the status of the failed
    exchange. *)
Theorem push_files_commit_step_error :
  forall (args : JsVal) (st : State W) (ev : Event) (e0 : JsError),
    let o := pushFiles remote env stringify args st in
    last (trace o) = Some ev ->
    isCommitStep (ev_call ev) = true ->
    ev_error ev = Some e0 ->
    result o = inl (rethrown (js "Failed to push files") e0)
    /\ (isMcpError e0 = false ->
          result o
          = inl (McpError InternalError
                   (js "Failed to push files" ++ js ": " ++ messageOf e0))).
Proof.
  intros args st ev e0. cbv zeta. intros Hlast Hstep Herr.
  assert (Hres : result (pushFiles remote env stringify args st)
                 = inl (rethrown (js "Failed to push files") e0)).
  { destruct (pushFiles_trace args st)
      as [[Ht Hr]|(github & st0 & body & Hrun & Ht & Hr)].
    - rewrite Ht in Hlast. discriminate Hlast.
    - rewrite Ht in Hlast. rewrite Hr.
      destruct (pushRun_trace remote _ _ _ _ _ _ _ _ Hrun)
        as [(_ & _ & Hstepped)
           |(before & commitData & settled & newTree & refData & newCommit & answer
             & Hall & Htrace & Hbody)].
      + rewrite (Hstepped ev e0 Hlast Hstep Herr). reflexivity.
      + rewrite Htrace, last_app in Hlast. cbn [last] in Hlast.
        injection Hlast as <-. rewrite Hbody.
        destruct answer as [e|updated]; cbn in Herr; [|discriminate Herr].
        injection Herr as <-. reflexivity. }
  split; [exact Hres|].
  intros Hraw. rewrite Hres. unfold rethrown. rewrite Hraw. reflexivity.
Qed.

End EngineTheorems.


Lemma push_files_commit_step_error_witness :
  let refused := OtherError (Some 403) (js "Resource not accessible") None in
  let st := Async.mkState
              (InMemory.mkWorld (InMemory.refs InMemory.initial)
                 (InMemory.commits InMemory.initial)
                 (InMemory.defaultBranch InMemory.initial) O (Some refused))
              None in
  Async.result
    (Files.pushFiles InMemory.remote InMemory.env InMemory.stringify InMemory.pushBag st)
  = inl (McpError InternalError
           (js "Failed to push files" ++ js ": " ++ js "Resource not accessible")).
Proof.
  intros refused st.
  assert (Hlast : last (Async.trace
                          (Files.pushFiles InMemory.remote InMemory.env
                             InMemory.stringify InMemory.pushBag st))
                  = Some (Octokit.mkEvent (Octokit.mkClient (js "token") None)
                            (Octokit.GitUpdateRef (js "acme") (js "widgets")
                               (js "heads/main") (js "commit1"))
                            (inl refused)))
    by (vm_compute; reflexivity).
  exact (proj2 (push_files_commit_step_error InMemory.remote InMemory.env
                  InMemory.stringify InMemory.pushBag st _ refused
                  Hlast eq_refl eq_refl) eq_refl).
Defined.

(** ** files.ts: the single-file handlers *)

(** The fields [createOrUpdateFile] reads from the parsed bag are those
    of the bag. *)
Lemma CreateOrUpdateFileSchema_fields (args parsed : JsVal) :
  Zod.run Validation.CreateOrUpdateFileSchema [] args = ([], parsed) ->
  asString (prop parsed "owner") = asString (prop args "owner")
  /\ asString (prop parsed "repo") = asString (prop args "repo")
  /\ asString (prop parsed "path") = asString (prop args "path")
  /\ asString (prop parsed "content") = asString (prop args "content")
  /\ asString (prop parsed "message") = asString (prop args "message")
  /\ asString (prop parsed "branch") = asString (prop args "branch")
  /\ asOptionalString (prop parsed "sha") = asOptionalString (prop args "sha").
Proof.
  change Validation.CreateOrUpdateFileSchema
    with (Zod.ZObject
            [(js "owner", Validation.required "Repository owner is required");
             (js "repo", Validation.required "Repository name is required");
             (js "path", Validation.required "File path is required");
             (js "content", Validation.required "File content is required");
             (js "message", Validation.required "Commit message is required");
             (js "branch", Validation.required "Branch name is required");
             (js "sha", Zod.optional Zod.string)]).
  intros H. apply run_object_inv in H as (props & fields & -> & -> & E).
  apply eachField_nil_inv in E as (o1 & r1 & H1 & E & ->).
  apply run_required_inv in H1 as (owner & Ho & -> & _).
  apply eachField_nil_inv in E as (o2 & r2 & H2 & E & ->).
  apply run_required_inv in H2 as (repo & Hr & -> & _).
  apply eachField_nil_inv in E as (o3 & r3 & H3 & E & ->).
  apply run_required_inv in H3 as (path & Hp & -> & _).
  apply eachField_nil_inv in E as (o4 & r4 & H4 & E & ->).
  apply run_required_inv in H4 as (content & Hc & -> & _).
  apply eachField_nil_inv in E as (o5 & r5 & H5 & E & ->).
  apply run_required_inv in H5 as (message & Hm & -> & _).
  apply eachField_nil_inv in E as (o6 & r6 & H6 & E & ->).
  apply run_required_inv in H6 as (branch & Hb & -> & _).
  apply eachField_nil_inv in E as (o7 & r7 & H7 & E & ->).
  cbn [Zod.eachField] in E. injection E as <-.
  change (prop (JObj props) "owner") with (getProp props (js "owner")).
  change (prop (JObj props) "repo") with (getProp props (js "repo")).
  change (prop (JObj props) "path") with (getProp props (js "path")).
  change (prop (JObj props) "content") with (getProp props (js "content")).
  change (prop (JObj props) "message") with (getProp props (js "message")).
  change (prop (JObj props) "branch") with (getProp props (js "branch")).
  change (prop (JObj props) "sha") with (getProp props (js "sha")).
  rewrite Ho, Hr, Hp, Hc, Hm, Hb.
  repeat (split; [reflexivity|]).
  cbn [Zod.run Zod.optional Zod.string] in H7.
  destruct (getProp props (js "sha")) as [| | | |s| | |]; try discriminate H7;
    injection H7 as <-; [|reflexivity].
  destruct (hasProp props (js "sha")); reflexivity.
Qed.

Lemma GetFileContentsSchema_fields (args parsed : JsVal) :
  Zod.run Validation.GetFileContentsSchema [] args = ([], parsed) ->
  asString (prop parsed "owner") = asString (prop args "owner")
  /\ asString (prop parsed "repo") = asString (prop args "repo")
  /\ asString (prop parsed "path") = asString (prop args "path")
  /\ asOptionalString (prop parsed "branch") = asOptionalString (prop args "branch").
Proof.
  change Validation.GetFileContentsSchema
    with (Zod.ZObject
            [(js "owner", Validation.required "Repository owner is required");
             (js "repo", Validation.required "Repository name is required");
             (js "path", Validation.required "File path is required");
             (js "branch", Zod.optional Zod.string)]).
  intros H. apply run_object_inv in H as (props & fields & -> & -> & E).
  apply eachField_nil_inv in E as (o1 & r1 & H1 & E & ->).
  apply run_required_inv in H1 as (owner & Ho & -> & _).
  apply eachField_nil_inv in E as (o2 & r2 & H2 & E & ->).
  apply run_required_inv in H2 as (repo & Hr & -> & _).
  apply eachField_nil_inv in E as (o3 & r3 & H3 & E & ->).
  apply run_required_inv in H3 as (path & Hp & -> & _).
  apply eachField_nil_inv in E as (o4 & r4 & H4 & E & ->).
  cbn [Zod.eachField] in E. injection E as <-.
  change (prop (JObj props) "owner") with (getProp props (js "owner")).
  change (prop (JObj props) "repo") with (getProp props (js "repo")).
  change (prop (JObj props) "path") with (getProp props (js "path")).
  change (prop (JObj props) "branch") with (getProp props (js "branch")).
  rewrite Ho, Hr, Hp.
  repeat (split; [reflexivity|]).
  cbn [Zod.run Zod.optional Zod.string] in H4.
  destruct (getProp props (js "branch")) as [| | | |s| | |]; try discriminate H4;
    injection H4 as <-; [|reflexivity].
  destruct (hasProp props (js "branch")); reflexivity.
Qed.

Section FileHandlers.
Import Async Octokit GithubApi Files Runs ErrorHandling.
Context {W : Type} (remote : Remote W) (env : Env) (stringify : JsVal -> JsString).

(** X17: [createOrUpdateFile] ensures the branch first and writes once.
    A bag the validator rejects stops the run at the parser, and a
    missing credential stops it at [getGitHubApi]: no exchange is made.
    For an accepted bag with the adapter at hand, the run makes the
    exchanges of the branch-ensure step for the bag's owner, repository
    and branch and, only when that step succeeded, one write after them:
    of the bag's path on the bag's branch, with the bag's message and
    [sha], and with the base64 text of the bag's content.  An error of
    the branch-ensure step is thrown as it is; an error of the write goes
    through [tryCatchAsync]; a write that succeeds gives a result. *)
Theorem createOrUpdateFile_exchanges :
  forall (args : JsVal) (st : State W),
    let o := createOrUpdateFile remote env stringify args st in
    let owner := asString (prop args "owner") in
    let repo := asString (prop args "repo") in
    let branch := asString (prop args "branch") in
    let write :=
      ReposCreateOrUpdateFileContents owner repo (asString (prop args "path"))
        (asString (prop args "message"))
        (utf8ToBase64 (asString (prop args "content"))) branch
        (asOptionalString (prop args "sha")) in
    (fst (Zod.run Validation.CreateOrUpdateFileSchema [] args) <> [] ->
       trace o = [] /\ final o = st
       /\ exists issues text, result o = inl (ZodError issues text))
    /\ (forall e,
          fst (Zod.run Validation.CreateOrUpdateFileSchema [] args) = [] ->
          result (getGitHubApi env st) = inl e ->
          trace o = [] /\ result o = inl e)
    /\ (forall github,
          fst (Zod.run Validation.CreateOrUpdateFileSchema [] args) = [] ->
          result (getGitHubApi env st) = inr github ->
          let ensure :=
            ensureBranch remote github owner repo branch
              (final (getGitHubApi env st)) in
          let answer := fst (ask remote github write (world (final ensure))) in
          (forall e, result ensure = inl e ->
             trace o = trace ensure /\ result o = inl e)
          /\ (forall existed, result ensure = inr existed ->
                trace o = trace ensure ++ [exchange github write answer]
                /\ (forall e, answer = inl e ->
                      result o
                      = inl (rethrown (js "Failed to create or update file") e))
                /\ (forall data, answer = inr data -> exists r, result o = inr r))).
Proof.
  intros args st. cbv zeta.
  unfold createOrUpdateFile, parse. rewrite bind_unfold.
  destruct (Zod.run Validation.CreateOrUpdateFileSchema [] args)
    as [[|issue issues] parsed] eqn:Ez;
    cbn [throw ret result final trace fst].
  2:{ split; [|split].
      - intros _. split; [reflexivity|]. split; [reflexivity|].
        eexists _, _. reflexivity.
      - intros e H; discriminate H.
      - intros github H; discriminate H. }
  destruct (CreateOrUpdateFileSchema_fields args parsed Ez)
    as (-> & -> & -> & -> & -> & -> & ->).
  rewrite bind_unfold.
  destruct (getGitHubApi_run env st) as [Ht Hw].
  split; [intros Hne; contradiction Hne; reflexivity|].
  destruct (result (getGitHubApi env st)) as [e|github] eqn:Eg;
    cbn [result final trace app].
  { split.
    - intros e' _ H; injection H as <-. split; [exact Ht|reflexivity].
    - intros github _ H; discriminate H. }
  split; [intros e _ H; discriminate H|].
  intros github' _ H; injection H as <-.
  rewrite tryCatchAsync_run. cbn [result final trace]. rewrite Ht. cbn [app].
  rewrite bind_unfold.
  pose proof (ensureBranch_error_classified remote github
                (asString (prop args "owner")) (asString (prop args "repo"))
                (asString (prop args "branch")) (final (getGitHubApi env st)))
    as Hclass.
  destruct (result (ensureBranch remote github _ _ _ _)) as [e|existed] eqn:Ee;
    cbn [result final trace].
  - split; [|intros existed H; discriminate H].
    intros e' H; injection H as <-. split; [reflexivity|].
    unfold rethrown. rewrite (Hclass e eq_refl). reflexivity.
  - split; [intros e H; discriminate H|].
    intros existed' _. rewrite bind_call_run. unfold ask.
    destruct (respond remote _ _ _) as [[e|data] w]; cbn [result final trace ret fst].
    + split; [reflexivity|].
      split; [|discriminate]. intros e' H; injection H as <-. reflexivity.
    + split; [reflexivity|].
      split; [discriminate|]. intros d _. eexists. reflexivity.
Qed.

End FileHandlers.

Lemma createOrUpdateFile_exchanges_witness :
  let github := mkGitHubApi (Octokit.mkClient (js "token") None) None in
  exists data,
    Async.trace FileStore.written
    = [Runs.exchange github
         (Octokit.GitGetRef (js "acme") (js "widgets") (js "heads/main"))
         (inr (Octokit.mkRef (js "c0")));
       Runs.exchange github
         (Octokit.ReposCreateOrUpdateFileContents (js "acme") (js "widgets")
            (js "notes.txt") (js "M") (ErrorHandling.utf8ToBase64 FileStore.text)
            (js "main") None)
         (inr data)].
Proof.
  cbv zeta.
  destruct (proj2 (proj2 (createOrUpdateFile_exchanges FileStore.remote InMemory.env
                            InMemory.stringify FileStore.writeBag FileStore.start))
              (mkGitHubApi (Octokit.mkClient (js "token") None) None)
              ltac:(vm_compute; reflexivity) ltac:(vm_compute; reflexivity))
    as [_ Hwrite].
  destruct (Hwrite true ltac:(vm_compute; reflexivity)) as (Htrace & _ & _).
  eexists. etransitivity; [exact Htrace|]. vm_compute. reflexivity.
Defined.

Section ReadHandlers.
Import Async Octokit GithubApi Files Runs ErrorHandling.
Context {W : Type} (remote : Remote W) (env : Env) (stringify : JsVal -> JsString).

(** X18: a [getFileContents] that returns made exactly one exchange, the
    content lookup of the bag's path at the bag's branch (no ref when the
    bag names none).  For a directory the result is an array with one
    entry per item, in the order served, none of them with a [content];
    for a file the [content] is the served text decoded from base64 and
    UTF-8, and it is [null], not the empty string, when the served text is
    absent or empty; for anything else (a symlink, a submodule) the result
    has neither [content] nor [encoding]. *)
Theorem getFileContents_result :
  forall (args : JsVal) (st : State W) (r : JsVal),
    let o := getFileContents remote env stringify args st in
    result o = inr r ->
    exists github data,
      trace o
      = [exchange github
           (ReposGetContent (asString (prop args "owner"))
              (asString (prop args "repo")) (asString (prop args "path"))
              (asOptionalString (prop args "branch")))
           (inr data)]
      /\ match data with
         | Listing items =>
             r = JArr (List.map listingEntry items)
             /\ Forall (fun entry => hasKey entry "content" = false)
                  (List.map listingEntry items)
         | Single item =>
             if eqbStr (item_type item) (js "file") then
               prop r "content"
               = match item_content item with
                 | Some (u :: text) => JStr (base64ToUtf8 (u :: text))
                 | _ => JNull
                 end
               /\ prop r "encoding" = item_encoding item
             else hasKey r "content" = false /\ hasKey r "encoding" = false
         end.
Proof.
  intros args st r. cbv zeta.
  unfold getFileContents, parse. rewrite bind_unfold.
  destruct (Zod.run Validation.GetFileContentsSchema [] args)
    as [[|issue issues] parsed] eqn:Ez;
    cbn [throw ret result final trace]; [|discriminate].
  destruct (GetFileContentsSchema_fields args parsed Ez) as (-> & -> & -> & ->).
  rewrite bind_unfold.
  destruct (getGitHubApi_run env st) as [Ht Hw].
  destruct (result (getGitHubApi env st)) as [e|github] eqn:Eg;
    cbn [result final trace]; [discriminate|].
  rewrite tryCatchAsync_run. cbn [result final trace]. rewrite Ht. cbn [app].
  rewrite bind_call_run.
  destruct (respond remote _ _ _) as [[e|data] w]; cbn [result final trace];
    [discriminate|].
  intros Hres. exists github, data. split.
  - destruct data as [items|item]; [reflexivity|].
    destruct (eqbStr (item_type item) (js "file")); reflexivity.
  - destruct data as [items|item].
    + cbn [ret result] in Hres. injection Hres as <-. split; [reflexivity|].
      induction items as [|item items IH]; cbn [List.map]; constructor;
        [reflexivity|exact IH].
    + destruct (eqbStr (item_type item) (js "file")); cbn [ret result] in Hres;
        injection Hres as <-.
      * split; [|reflexivity].
        destruct (item_content item) as [[|u text]|]; reflexivity.
      * split; reflexivity.
Qed.

(** X19: [getEnterpriseStats] does not fail on the remote side.  With an
    adapter at hand: when [GITHUB_API_URL] is unset or empty it returns
    its notice without an exchange; otherwise it makes one request, of
    [GET /enterprise/stats/all], and returns the data served or, whatever
    the error, the fallback object that names the API URL. *)
Theorem getEnterpriseStats_outcomes :
  forall (st : State W) (github : GitHubApi),
    result (getGitHubApi env st) = inr github ->
    let o := Tools.getEnterpriseStats remote env st in
    (truthy (GITHUB_API_URL env) = false ->
       trace o = []
       /\ result o
          = inr (JObj [(js "error",
                        JStr (js "This function is only available for GitHub Enterprise"))]))
    /\ (forall url, GITHUB_API_URL env = Some url -> url <> [] ->
          exists answer,
            trace o = [exchange github (Request (js "GET /enterprise/stats/all")) answer]
            /\ result o
               = inr match answer with
                     | inr data => data
                     | inl _ =>
                         JObj [(js "message",
                                JStr (js "Enterprise stats not available or insufficient permissions"));
                               (js "api_url", JStr url)]
                     end).
Proof.
  intros st github Hg. cbv zeta.
  unfold Tools.getEnterpriseStats. rewrite bind_unfold, Hg.
  destruct (getGitHubApi_run env st) as [Ht Hw]. rewrite Ht.
  cbn [result final trace app]. split.
  - intros Hno. rewrite Hno. cbn [negb ret result trace]. split; reflexivity.
  - intros url Hurl Hne. rewrite Hurl.
    destruct url as [|u url]; [contradiction|]. cbn [truthy negb default].
    rewrite tryCatchAsync_run, tryCatch_unfold.
    unfold call. cbn [result final trace].
    destruct (respond remote (octokit github) _ _) as [[e|data] w];
      cbn [result final trace ret app].
    + exists (inl e). split; reflexivity.
    + exists (inr data). split; reflexivity.
Qed.

(** X20: the two handlers named [getPullRequestFiles].  The one of
    pull-requests.ts stops at its parser, with no exchange, on a bag
    [GetPullRequestFilesSchema] rejects; on a bag that schema accepts it
    and the one of files.ts, which the server calls, do the same thing:
    same exchanges, same result, same final state. *)
Theorem getPullRequestFiles_siblings :
  forall (args : JsVal) (st : State W),
    (forall parsed,
        Zod.run Validation.GetPullRequestFilesSchema [] args = ([], parsed) ->
        PullRequests.getPullRequestFiles remote env stringify args st
        = Files.getPullRequestFiles remote env args st)
    /\ (fst (Zod.run Validation.GetPullRequestFilesSchema [] args) <> [] ->
          trace (PullRequests.getPullRequestFiles remote env stringify args st) = []
          /\ exists issues text,
               result (PullRequests.getPullRequestFiles remote env stringify args st)
               = inl (ZodError issues text)).
Proof.
  intros args st. split.
  - intros parsed Hz.
    assert (Hp : Files.parse stringify Validation.GetPullRequestFilesSchema args st
                 = mkOutcome (inr parsed) st [])
      by (unfold Files.parse; rewrite Hz; reflexivity).
    revert Hz.
    change Validation.GetPullRequestFilesSchema
      with (Zod.ZObject
              [(js "owner", Validation.required "Repository owner is required");
               (js "repo", Validation.required "Repository name is required");
               (js "pull_number", Zod.positive (Zod.int Zod.number))]).
    intros H. apply run_object_inv in H as (props & fields & -> & -> & E).
    apply eachField_nil_inv in E as (o1 & r1 & H1 & E & ->).
    apply run_required_inv in H1 as (owner & Ho & -> & _).
    apply eachField_nil_inv in E as (o2 & r2 & H2 & E & ->).
    apply run_required_inv in H2 as (repo & Hr & -> & _).
    apply eachField_nil_inv in E as (o3 & r3 & H3 & E & ->).
    cbn [Zod.eachField] in E. injection E as <-.
    assert (Hn : exists q, getProp props (js "pull_number") = JNum q /\ o3 = JNum q).
    { revert H3. unfold Zod.positive, Zod.int, Zod.number, Zod.addCheck.
      cbn [Zod.run app].
      destruct (getProp props (js "pull_number")); try discriminate.
      intros H; injection H as _ <-. eexists. split; reflexivity. }
    destruct Hn as (q & Hn & ->).
    unfold PullRequests.getPullRequestFiles, Files.getPullRequestFiles.
    rewrite !bind_unfold, Hp. unfold destructure.
    cbn [ret result final trace app].
    change (prop (JObj props) "owner") with (getProp props (js "owner")).
    change (prop (JObj props) "repo") with (getProp props (js "repo")).
    change (prop (JObj props) "pull_number") with (getProp props (js "pull_number")).
    rewrite Ho, Hr, Hn. reflexivity.
  - intros Hbad.
    destruct (Zod.run Validation.GetPullRequestFilesSchema [] args)
      as [[|issue issues] out] eqn:Ez; [contradiction Hbad; reflexivity|].
    unfold PullRequests.getPullRequestFiles.
    rewrite (parse_bind_rejects stringify _ _ _ _ _ _ _ Ez).
    split; [reflexivity|]. eexists _, _. reflexivity.
Qed.

End ReadHandlers.

(** ** error-handling.ts: the converters, once more *)

Lemma sextets_skip (before after : JsString) (u : Z) :
  Buffer.unbase64 (u mod 256) = None -> u mod 256 <> 61 ->
  Buffer.sextets (before ++ u :: after) = Buffer.sextets (before ++ after).
Proof.
  intros Hc Hne. induction before as [|b before IH]; cbn [app Buffer.sextets]; cbv zeta.
  - rewrite Hc. destruct (Z.eqb_spec (u mod 256) 61); [contradiction|reflexivity].
  - rewrite IH. reflexivity.
Qed.

Lemma sextets_low_byte (before after : JsString) (u : Z) :
  Buffer.sextets (before ++ u :: after)
  = Buffer.sextets (before ++ (u mod 256) :: after).
Proof.
  induction before as [|b before IH]; cbn [app Buffer.sextets]; cbv zeta.
  - rewrite Z.mod_mod by lia. reflexivity.
  - rewrite IH. reflexivity.
Qed.

(** X21: [base64ToUtf8] takes every code unit of the text by its low byte
    (a unit above 255 reads as the character of that byte), and it reads
    through a unit whose low byte is not of the base64 alphabet nor the
    padding sign: a line feed, a space or any other such character,
    wherever it stands in the text, changes nothing of what is decoded.
    The content API breaks the text of a file into lines; the file reads
    the same. *)
Theorem base64ToUtf8_skips_foreign_characters :
  forall (before after : JsString) (u : Z),
    ErrorHandling.base64ToUtf8 (before ++ u :: after)
    = ErrorHandling.base64ToUtf8 (before ++ (u mod 256) :: after)
    /\ (Buffer.unbase64 (u mod 256) = None -> u mod 256 <> 61 ->
        ErrorHandling.base64ToUtf8 (before ++ u :: after)
        = ErrorHandling.base64ToUtf8 (before ++ after)).
Proof.
  intros before after u.
  unfold ErrorHandling.base64ToUtf8, Buffer.fromBase64. split.
  - rewrite (sextets_low_byte before after u). reflexivity.
  - intros Hc Hne. rewrite (sextets_skip before after u Hc Hne). reflexivity.
Qed.

Lemma base64ToUtf8_skips_foreign_characters_witness :
  ErrorHandling.base64ToUtf8 (js "aGVs" ++ 10 :: js "bG8=")
  = ErrorHandling.base64ToUtf8 (js "aGVs" ++ js "bG8=")
  /\ ErrorHandling.base64ToUtf8 (js "aGVs" ++ 10 :: js "bG8=") = js "hello".
Proof.
  split; [|reflexivity].
  apply (proj2 (base64ToUtf8_skips_foreign_characters (js "aGVs") (js "bG8=") 10));
    [reflexivity|discriminate].
Defined.

(** A unit above 255 is not skipped when its low byte is of the alphabet:
    U+0141 reads as the letter A. *)
Remark base64ToUtf8_low_byte_example :
  ErrorHandling.base64ToUtf8 (js "aGVs" ++ 0x141 :: js "bG8=")
  = ErrorHandling.base64ToUtf8 (js "aGVs" ++ js "AbG8=")
  /\ ErrorHandling.base64ToUtf8 (js "aGVs" ++ 0x141 :: js "bG8=") <> js "hello".
Proof. split; [reflexivity|discriminate]. Qed.

Lemma base64Char_alphabet (v : Z) :
  0 <= v < 64 -> base64Char_ok (Buffer.base64Char v).
Proof.
  intros Hv. right. exists v. apply CodecFacts.unbase64_base64Char. exact Hv.
Qed.

Lemma toBase64String_shape (bs : list Z) :
  Forall isByte bs ->
  Z.of_nat (List.length (Buffer.toBase64String bs))
  = 4 * ((Z.of_nat (List.length bs) + 2) / 3)
  /\ Forall base64Char_ok (Buffer.toBase64String bs).
Proof.
  unfold isByte.
  induction bs as [|a|a b|a b c l IH] using CodecFacts.list_ind3; intros Hall.
  - split; [reflexivity|constructor].
  - apply Forall_cons_1 in Hall as [Ha _]. split; [reflexivity|].
    cbn [Buffer.toBase64String].
    repeat first
      [ apply List.Forall_nil
      | apply List.Forall_cons;
        [first [left; reflexivity
               |apply base64Char_alphabet; Z.div_mod_to_equations; lia]|] ].
  - apply Forall_cons_1 in Hall as [Ha Hall]. apply Forall_cons_1 in Hall as [Hb _].
    split; [reflexivity|]. cbn [Buffer.toBase64String].
    repeat first
      [ apply List.Forall_nil
      | apply List.Forall_cons;
        [first [left; reflexivity
               |apply base64Char_alphabet; Z.div_mod_to_equations; lia]|] ].
  - apply Forall_cons_1 in Hall as [Ha Hall]. apply Forall_cons_1 in Hall as [Hb Hall].
    apply Forall_cons_1 in Hall as [Hc Hall].
    destruct (IH Hall) as [IHlen IHall]. cbn [Buffer.toBase64String]. split.
    + cbn [List.length]. rewrite !Nat2Z.inj_succ, IHlen.
      Z.div_mod_to_equations; lia.
    + repeat (apply List.Forall_cons;
              [apply base64Char_alphabet; Z.div_mod_to_equations; lia|]).
      exact IHall.
Qed.

(** X22: the text [utf8ToBase64] hands to the service is plain base64: for
    a well-formed string, four characters for every three bytes of its
    UTF-8 encoding, the last group padded, and every character either of
    the base64 alphabet or the padding sign; in particular no line
    break. *)
Theorem utf8ToBase64_text :
  forall s : JsString,
    Forall isCodeUnit s ->
    Buffer.isWellFormed s = true ->
    Z.of_nat (List.length (ErrorHandling.utf8ToBase64 s))
    = 4 * ((Z.of_nat (List.length (Buffer.fromUtf8 s)) + 2) / 3)
    /\ Forall base64Char_ok (ErrorHandling.utf8ToBase64 s)
    /\ ~ In 10 (ErrorHandling.utf8ToBase64 s).
Proof.
  intros s Hunits Hwf.
  destruct (CodecFacts.codePoints_wellFormed s Hunits Hwf) as [Hscalar _].
  pose proof (CodecFacts.utf8Encode_all_bytes _ Hscalar) as Hbytes.
  destruct (toBase64String_shape _ Hbytes) as [Hlen Hall].
  unfold ErrorHandling.utf8ToBase64, Buffer.fromUtf8.
  split; [exact Hlen|]. split; [exact Hall|].
  intros Hin. rewrite List.Forall_forall in Hall.
  destruct (Hall 10 Hin) as [H|(v & H)]; discriminate H.
Qed.

Lemma utf8ToBase64_text_witness :
  Z.of_nat (List.length (ErrorHandling.utf8ToBase64 InMemory.sample)) = 16
  /\ ~ In 10 (ErrorHandling.utf8ToBase64 InMemory.sample).
Proof.
  assert (Hunits : Forall isCodeUnit InMemory.sample)
    by (unfold InMemory.sample, isCodeUnit; repeat constructor; lia).
  destruct (utf8ToBase64_text InMemory.sample Hunits eq_refl) as (Hlen & _ & Hno).
  split; [rewrite Hlen; vm_compute; reflexivity|exact Hno].
Defined.

(** ** mcp-sdk: routing a request and answering it *)

Lemma errorCodeValue_inj (c1 c2 : ErrorCode) :
  errorCodeValue c1 = errorCodeValue c2 -> c1 = c2.
Proof. destruct c1, c2; cbn; intros H; try reflexivity; discriminate H. Qed.

Section SdkFacts.
Import Async Sdk.
Context {W : Type}.

Lemma rethrow_unfold {A : Type} (m : M W A) (st : State W) :
  tryCatch m (fun error => throw error) st = m st.
Proof.
  rewrite tryCatch_unfold. destruct (result (m st)) as [e|a] eqn:E; [|reflexivity].
  cbn [throw result final trace]. rewrite app_nil_r, <- E. reflexivity.
Qed.

(** The handlers server.ts registers serve two methods. *)
Lemma setupRequestHandlers_routes (listTools callTool : JsVal -> M W JsVal)
    (request : Request) (st : State W) :
  onRequest (setupRequestHandlers listTools callTool) request st
  = if eqbStr (method request) (js "call_tool")
    then callTool (JObj [(js "params", params request)]) st
    else if eqbStr (method request) (js "list_tools")
    then listTools (JObj [(js "params", params request)]) st
    else mkOutcome
           (inl (McpError MethodNotFound
                   (js "Method not found: " ++ method request)))
           st [].
Proof.
  unfold onRequest, handlerFor, setupRequestHandlers, setRequestHandler.
  rewrite rethrow_unfold. unfold Handlers.
  change (schemaId CallToolRequestSchema) with (js "call_tool").
  change (schemaId ListToolsRequestSchema) with (js "list_tools").
  unfold eqbStr.
  destruct (decide (method request = js "call_tool")) as [->|Hc].
  + reflexivity.
  + rewrite (bool_decide_eq_false_2 _ Hc).
    rewrite lookup_insert_ne by congruence.
    destruct (decide (method request = js "list_tools")) as [->|Hl].
    * reflexivity.
    * rewrite (bool_decide_eq_false_2 _ Hl).
      rewrite !lookup_insert_ne by (try congruence; discriminate).
      rewrite !lookup_empty. reflexivity.
Qed.

(** X23: how the server routes a request.  A handler registered for a
    schema serves the requests whose method is the schema's id, until
    another is registered for that id; registering it changes nothing for
    the other methods, unless the schema has neither id nor name, which
    makes the handler the one for every method without a handler of its
    own.  A method with no handler and no such fallback gets a Method Not
    Found error without any exchange.  With the two handlers server.ts
    registers, the methods served are [list_tools] and [call_tool] and
    every other method, [tools/call] included, is not found. *)
Theorem sdk_routes_by_schema_id :
  forall (handlers : Handlers (W := W)) (schema : RequestSchema)
         (handler : JsVal -> M W JsVal) (request : Request) (st : State W),
    let bag := JObj [(js "params", params request)] in
    (method request = schemaId schema ->
       onRequest (setRequestHandler handlers schema handler) request st
       = handler bag st)
    /\ (method request <> schemaId schema -> schemaId schema <> js "unknown" ->
          onRequest (setRequestHandler handlers schema handler) request st
          = onRequest handlers request st)
    /\ (ErrorHandling.truthy (schema_id schema) = false ->
        ErrorHandling.truthy (schema_name schema) = false ->
        handlers !! method request = None ->
          onRequest (setRequestHandler handlers schema handler) request st
          = handler bag st)
    /\ (handlers !! method request = None -> handlers !! js "unknown" = None ->
          onRequest handlers request st
          = mkOutcome
              (inl (McpError MethodNotFound (js "Method not found: " ++ method request)))
              st [])
    /\ (forall listTools callTool,
          onRequest (setupRequestHandlers listTools callTool) request st
          = if eqbStr (method request) (js "call_tool") then callTool bag st
            else if eqbStr (method request) (js "list_tools") then listTools bag st
            else mkOutcome
                   (inl (McpError MethodNotFound
                           (js "Method not found: " ++ method request)))
                   st []).
Proof.
  intros handlers schema handler request st. cbv zeta.
  split; [|split; [|split; [|split]]];
    try (unfold onRequest, setRequestHandler, handlerFor; rewrite !rethrow_unfold;
         unfold Handlers in * ).
  - intros ->. rewrite lookup_insert. destruct (decide _); [reflexivity|contradiction].
  - intros Hm Hu. rewrite !lookup_insert_ne by congruence. reflexivity.
  - intros Hid Hname Hnone. unfold schemaId. rewrite Hid, Hname.
    destruct (decide (method request = js "unknown")) as [->|Hne].
    + rewrite lookup_insert. destruct (decide _); [reflexivity|contradiction].
    + rewrite lookup_insert_ne, Hnone, lookup_insert by congruence.
      destruct (decide _); [reflexivity|contradiction].
  - intros -> ->. reflexivity.
  - intros listTools callTool.
    exact (setupRequestHandlers_routes listTools callTool request st).
Qed.


End SdkFacts.

Lemma sdk_routes_by_schema_id_witness :
  Sdk.onRequest
    (Sdk.setupRequestHandlers (fun _ => Async.ret (JArr []))
       (fun _ => Async.ret JNull))
    (Sdk.mkRequest (js "tools/call") JUndefined (JNum 1)) InMemory.start
  = Async.mkOutcome
      (inl (McpError MethodNotFound (js "Method not found: " ++ js "tools/call")))
      InMemory.start [].
Proof.
  rewrite (proj2 (proj2 (proj2 (proj2
             (sdk_routes_by_schema_id ∅ Sdk.CallToolRequestSchema
                (fun _ => Async.ret JNull)
                (Sdk.mkRequest (js "tools/call") JUndefined (JNum 1))
                InMemory.start))))).
  reflexivity.
Defined.

Section SdkResponse.
Import Async Octokit Server Dispatch Sdk.
Context {W : Type} (remote : Remote W) (env : Env)
        (stringify toText : JsVal -> JsString) (bodies : Tools.Bodies W).

Lemma callTool_throws_classified (name : JsString) (args : JsVal) (st : State W) :
  forall e, result (callTool remote env stringify bodies name args st) = inl e ->
            isMcpError e = true.
Proof.
  intros e. rewrite callTool_run.
  destruct (bagOf args) as [bag|]; [|intros H; injection H as <-; reflexivity].
  destruct (select (toolTable remote env stringify bodies) name) as [handler|];
    [|intros H; injection H as <-; reflexivity].
  cbn [result]. destruct (result (handler bag st)) as [e0|r]; [|discriminate].
  intros H; injection H as <-. unfold dispatched.
  destruct (isMcpError e0) eqn:E; [exact E|reflexivity].
Qed.

(** The handler on a request whose [params] can be destructured. *)
Lemma callToolHandler_run (params : JsVal) (st : State W) :
  params <> JUndefined -> params <> JNull ->
  let o := GitHubEnterpriseServer.callToolHandler remote env stringify toText bodies
             (JObj [(js "params", params)]) st in
  match prop params "name" with
  | JStr name =>
      o = callTool remote env stringify bodies name (prop params "arguments") st
  | name =>
      trace o = [] /\ final o = st
      /\ result o
         = inl match bagOf (prop params "arguments") with
               | Some _ => McpError MethodNotFound (js "Unknown tool: " ++ toText name)
               | None =>
                   McpError InvalidParams
                     (js "Invalid JSON" ++ js ": "
                      ++ JSON.syntaxErrorMessage (asString (prop params "arguments")))
               end
  end.
Proof.
  intros Hu Hn. cbv zeta.
  unfold GitHubEnterpriseServer.callToolHandler.
  change (prop (JObj [(js "params", params)]) "params") with params.
  rewrite bind_unfold.
  assert (Hd : GitHubEnterpriseServer.destructure params st
               = mkOutcome (inr (prop params "name", prop params "arguments")) st [])
    by (destruct params; try reflexivity; contradiction).
  rewrite Hd. cbn [result final trace fst snd app].
  assert (Hdefault : forall name : JsVal,
    let o := tryCatch
        (_ <- match prop params "arguments" with
              | JStr text => ErrorHandling.safeJsonParse text (js "Invalid JSON")
              | _ => ret (prop params "arguments")
              end ;;
         (throw (McpError MethodNotFound (js "Unknown tool: " ++ toText name))
          : M W JsVal))
        (fun error =>
           if isMcpError error then throw error
           else throw (McpError InternalError
                         (js "Error executing tool " ++ toText name ++ js ": "
                          ++ messageOf error))) st in
    trace o = [] /\ final o = st
    /\ result o
       = inl match bagOf (prop params "arguments") with
             | Some _ => McpError MethodNotFound (js "Unknown tool: " ++ toText name)
             | None =>
                 McpError InvalidParams
                   (js "Invalid JSON" ++ js ": "
                    ++ JSON.syntaxErrorMessage (asString (prop params "arguments")))
             end).
  { intros name. cbv zeta. rewrite tryCatch_unfold, bind_unfold.
    destruct (prop params "arguments") as [| |b'|q'|text|items'|props'|];
      cbn [bagOf asString ret throw result final trace app isMcpError];
      try (split; [reflexivity|split; reflexivity]).
    unfold ErrorHandling.safeJsonParse.
    destruct (JSON.parse text);
      cbn [ret throw result final trace app isMcpError];
      (split; [reflexivity|split; reflexivity]). }
  destruct (prop params "name") as [| |b|q|name|items|props|];
    try reflexivity; apply Hdefault.
Qed.

(** X24: what the transport answers to a [call_tool] request.  The
    response keeps the request's id.  A request without [params] (or
    with [null]) is rejected by the handler's first statement, before
    its [try]: no exchange, and the response carries the transport's
    default code, that of an Internal error, with the engine's message.
    A request whose [params] name a tool by a string is answered by the
    dispatcher.  Whenever the handler returns, the response holds the
    result and no error; whenever it throws, the response holds no result
    and the number of the error's kind when it is a classified error,
    which it is unless [params] could not be destructured.  Two kinds
    never share a number, all of them in the range JSON-RPC reserves, so
    the default never replaces the number of a kind. *)
Theorem sdk_answers_tool_call :
  forall (listTools : JsVal -> M W JsVal) (request : Request) (st : State W),
    method request = js "call_tool" ->
    let o := GitHubEnterpriseServer.onRequest remote env stringify toText bodies
               listTools request st in
    let answer := GitHubEnterpriseServer.answer remote env stringify toText bodies
                    listTools request st in
    prop answer "id" = id request
    /\ (params request = JUndefined \/ params request = JNull ->
          trace o = [] /\ final o = st
          /\ hasKey answer "result" = false
          /\ prop (prop answer "error") "code"
             = JNum (inject_Z (errorCodeValue InternalError))
          /\ exists text,
               result o = inl (OtherError None text None)
               /\ prop (prop answer "error") "message" = JStr text)
    /\ (forall name,
          params request <> JUndefined -> params request <> JNull ->
          prop (params request) "name" = JStr name ->
          o = callTool remote env stringify bodies name
                (prop (params request) "arguments") st)
    /\ (forall r, result o = inr r ->
          prop answer "result" = r /\ hasKey answer "error" = false)
    /\ (forall e, result o = inl e ->
          hasKey answer "result" = false
          /\ (params request <> JUndefined -> params request <> JNull ->
              exists code text,
                e = McpError code text
                /\ prop (prop answer "error") "code"
                   = JNum (inject_Z (errorCodeValue code))
                /\ (text <> [] -> prop (prop answer "error") "message" = JStr text)))
    /\ (forall code code' : ErrorCode,
          (errorCodeValue code = errorCodeValue code' -> code = code')
          /\ -32768 <= errorCodeValue code <= -32000).
Proof.
  intros listTools request st Hm. cbv zeta.
  unfold GitHubEnterpriseServer.answer, GitHubEnterpriseServer.onRequest,
    GitHubEnterpriseServer.handlers.
  rewrite (setupRequestHandlers_routes listTools
             (GitHubEnterpriseServer.callToolHandler remote env stringify toText bodies)
             request st).
  rewrite Hm. change (eqbStr (js "call_tool") (js "call_tool")) with true. cbv iota.
  set (o := GitHubEnterpriseServer.callToolHandler remote env stringify toText bodies
              (JObj [(js "params", params request)]) st).
  assert (Hmissing : params request = JUndefined \/ params request = JNull ->
            trace o = [] /\ final o = st
            /\ exists text, result o = inl (OtherError None text None) /\ text <> []).
  { subst o. unfold GitHubEnterpriseServer.callToolHandler.
    change (prop (JObj [(js "params", params request)]) "params")
      with (params request).
    rewrite bind_unfold.
    intros [-> | ->]; cbn [GitHubEnterpriseServer.destructure throw result final trace];
      (split; [reflexivity|]; split; [reflexivity|]; eexists; split; [reflexivity|]);
      discriminate. }
  assert (Hpresent : params request <> JUndefined -> params request <> JNull ->
            forall e, result o = inl e -> isMcpError e = true).
  { intros Hu Hn e. subst o.
    pose proof (callToolHandler_run (params request) st Hu Hn) as Hrun.
    cbv zeta in Hrun.
    destruct (prop (params request) "name") as [| |b|q|name|items|props|];
      try (destruct Hrun as (_ & _ & ->);
           destruct (bagOf _); intros H; injection H as <-; reflexivity).
    rewrite Hrun. apply callTool_throws_classified. }
  split; [destruct (result o); reflexivity|].
  split.
  { intros Hno. destruct (Hmissing Hno) as (Ht & Hf & text & Hr & Hne).
    split; [exact Ht|]. split; [exact Hf|]. rewrite Hr.
    split; [reflexivity|]. split; [reflexivity|].
    exists text. split; [reflexivity|].
    destruct text as [|u text]; [contradiction|reflexivity]. }
  split.
  { intros name Hu Hn Hname. subst o.
    pose proof (callToolHandler_run (params request) st Hu Hn) as Hrun.
    cbv zeta in Hrun. rewrite Hname in Hrun. exact Hrun. }
  split.
  { intros r Hr. rewrite Hr. split; reflexivity. }
  split.
  { intros e He. rewrite He. split; [reflexivity|].
    intros Hu Hn. pose proof (Hpresent Hu Hn e He) as Hcls.
    destruct e as [code text| |]; try discriminate Hcls.
    exists code, text. split; [reflexivity|]. split.
    - destruct code; reflexivity.
    - intros Hne. destruct text as [|u text]; [contradiction|reflexivity]. }
  intros c c'. split; [apply errorCodeValue_inj|]. destruct c; cbn; lia.
Qed.

End SdkResponse.

Lemma sdk_answers_tool_call_witness :
  let request := Sdk.mkRequest (js "call_tool") JUndefined (JNum 7) in
  let answer :=
    GitHubEnterpriseServer.answer InMemory.remote InMemory.env InMemory.stringify
      InMemory.stringify InMemory.bodies (fun _ => Async.ret (JArr [])) request
      InMemory.start in
  prop answer "id" = JNum 7
  /\ hasKey answer "result" = false
  /\ prop (prop answer "error") "code" = JNum (inject_Z (-32603)).
Proof.
  cbv zeta.
  pose proof (sdk_answers_tool_call InMemory.remote InMemory.env InMemory.stringify
                InMemory.stringify InMemory.bodies (fun _ => Async.ret (JArr []))
                (Sdk.mkRequest (js "call_tool") JUndefined (JNum 7)) InMemory.start
                eq_refl) as H.
  cbv zeta in H. destruct H as (Hid & Hmissing & _).
  destruct (Hmissing (or_introl eq_refl)) as (_ & _ & Hres & Hcode & _).
  split; [exact Hid|]. split; [exact Hres|exact Hcode].
Defined.


(** ** repository.ts: creating a branch *)

Section CreateBranchTool.
Import Async Octokit GithubApi ErrorHandling Runs.
Context {W : Type} (remote : Remote W).

Lemma member_run (v : JsVal) (k : String.string) (st : State W) :
  trace (Repository.member (W := W) v k st) = []
  /\ final (Repository.member (W := W) v k st) = st.
Proof. destruct v; split; reflexivity. Qed.

(** X25: the handler of [create-branch] probes before it creates.  Its
    first exchange is the lookup of [heads/<branch>].  When the lookup
    succeeds that is the only exchange, and the handler reports
    [success: false] with a message that the branch exists: an existing
    branch is never touched.  When the lookup fails with anything but
    status 404 that is the only exchange too, and the error is thrown
    as it is.  So a [createRef] is sent only after the probe answered
    404; and with a non-empty [from_branch] the default branch is never
    asked for. *)
Theorem createBranch_probes_first :
  forall (github : GitHubApi) (parsed : JsVal) (st : State W),
    let owner := asString (prop parsed "owner") in
    let repo := asString (prop parsed "repo") in
    let branch := asString (prop parsed "branch") in
    let o := Repository.createBranchBody remote github parsed st in
    exists answer rest,
      trace o = exchange github (lookupRef owner repo branch) answer :: rest
      /\ (forall data, answer = inr data ->
            rest = []
            /\ result o
               = inr (JObj [(js "success", JBool false);
                            (js "message",
                             JStr (js "Branch '" ++ branch ++ js "' already exists in "
                                   ++ owner ++ js "/" ++ repo))]))
      /\ (forall e, answer = inl e -> statusOf e <> Some 404 ->
            rest = [] /\ result o = inl e)
      /\ (forall source, asOptionalString (prop parsed "from_branch") = Some source ->
            source <> [] ->
            Forall (fun ev => match ev_call ev with ReposGet _ _ => False | _ => True end)
              (trace o)
            /\ (rest = [] \/
                exists sourceAnswer rest',
                  rest = exchange github (lookupRef owner repo source) sourceAnswer
                         :: rest')).
Proof.
  intros github parsed st. cbv zeta.
  unfold Repository.createBranchBody.
  rewrite bind_unfold, tryCatch_unfold, bind_call_run.
  destruct (respond remote (octokit github) _ (world st)) as [[e|data] w1];
    cbn [result final trace ret app].
  - destruct (status_404_dec (statusOf e)) as [H404|Hother].
    + rewrite H404. cbn [ret result final trace app].
      eexists (inl e), _. split; [reflexivity|].
      split; [discriminate|]. split.
      * intros e' H; injection H as <-. contradiction.
      * intros source Hsource Hne. rewrite Hsource.
        destruct source as [|u source]; [contradiction|].
        cbn [truthy default]. rewrite bind_unfold. cbn [ret result final trace app].
        rewrite bind_call_run. cbn [world githubApiInstance].
        destruct (respond remote (octokit github) _ w1) as [[e1|refData] w2];
          cbn [result final trace].
        { split; [repeat constructor|].
          right. eexists _, _. reflexivity. }
        rewrite bind_call_run. cbn [world githubApiInstance].
        destruct (respond remote (octokit github) _ w2) as [[e2|created] w3];
          cbn [result final trace].
        { split; [repeat constructor|].
          right. eexists _, _. reflexivity. }
        assert (Htail : forall (m : M W JsVal) s,
                  trace (m s) = [] ->
                  Forall (fun ev => match ev_call ev with
                                    | ReposGet _ _ => False
                                    | _ => True
                                    end) (trace (m s)))
          by (intros m s ->; constructor).
        split.
        { repeat (apply List.Forall_cons; [exact I|]).
          repeat (rewrite bind_unfold;
                  match goal with
                  | |- context [Repository.member ?v ?k ?s] =>
                      destruct (member_run v k s) as [Hmt Hmf];
                      destruct (result (Repository.member v k s));
                      cbn [result final trace]; rewrite Hmt; cbn [app];
                      [constructor|rewrite ?Hmf]; clear Hmt Hmf
                  end).
          constructor. }
        right. eexists _, _. reflexivity.
    + rewrite (match_not_404 _ _ _ Hother). cbn [throw result final trace app].
      eexists (inl e), _. split; [reflexivity|].
      split; [discriminate|]. split.
      * intros e' H _; injection H as <-. split; reflexivity.
      * intros source _ _. split; [repeat constructor|left; reflexivity].
  - eexists (inr data), _. split; [reflexivity|].
    split; [intros d _; split; reflexivity|].
    split; [discriminate|].
    intros source _ _. split; [repeat constructor|left; reflexivity].
Qed.

End CreateBranchTool.

Lemma createBranch_probes_first_witness :
  let github := mkGitHubApi (Octokit.mkClient (js "token") None) None in
  let parsed := JObj [(js "owner", JStr (js "acme")); (js "repo", JStr (js "widgets"));
                      (js "branch", JStr (js "main"))] in
  let o := Repository.createBranchBody InMemory.remote github parsed InMemory.start in
  Async.result o
  = inr (JObj [(js "success", JBool false);
               (js "message", JStr (js "Branch 'main' already exists in acme/widgets"))])
  /\ exists answer rest,
       Async.trace o
       = Runs.exchange github (Runs.lookupRef (js "acme") (js "widgets") (js "main"))
           answer :: rest
       /\ (forall data, answer = inr data -> rest = []).
Proof.
  cbv zeta. split; [vm_compute; reflexivity|].
  destruct (createBranch_probes_first InMemory.remote
              (mkGitHubApi (Octokit.mkClient (js "token") None) None)
              (JObj [(js "owner", JStr (js "acme")); (js "repo", JStr (js "widgets"));
                     (js "branch", JStr (js "main"))])
              InMemory.start)
    as (answer & rest & Htrace & Hfound & _).
  exists answer, rest. split; [exact Htrace|].
  intros data Hdata. exact (proj1 (Hfound data Hdata)).
Defined.

(** ** validation.ts and files.ts: the bag of [push-files] *)

Lemma eachItem_issues (f : nat -> JsVal -> list ZodIssue * JsVal)
    (items : list JsVal) (i : nat) :
  fst (Zod.eachItem f items i) = []
  <-> forall n item, nth_error items n = Some item -> fst (f (i + n)%nat item) = [].
Proof.
  revert i. induction items as [|x items IH]; intros i; cbn [Zod.eachItem].
  - split; [|reflexivity]. intros _ [|n] item H; discriminate H.
  - destruct (f i x) as [is1 o1] eqn:E1.
    destruct (Zod.eachItem f items (S i)) as [is2 o2] eqn:E2. cbn [fst].
    specialize (IH (S i)). rewrite E2 in IH. cbn [fst] in IH. split.
    + intros H. apply app_eq_nil in H as [-> ->].
      intros [|n] item Hn; cbn [nth_error] in Hn.
      * injection Hn as <-. rewrite Nat.add_0_r, E1. reflexivity.
      * rewrite Nat.add_succ_r. apply (proj1 IH eq_refl n item Hn).
    + intros H. pose proof (H 0%nat x eq_refl) as H0.
      rewrite Nat.add_0_r, E1 in H0. cbn [fst] in H0. subst is1.
      apply IH. intros n item Hn. specialize (H (S n) item Hn).
      rewrite Nat.add_succ_r in H. exact H.
Qed.

(** X26: [PushFilesSchema] accepts a bag exactly when it is an object
    whose [owner], [repo], [branch] and [message] are non-empty strings
    and whose [files] is a non-empty array of objects, each with a
    non-empty string for [path] and for [content].  An empty list of
    files, and a file with empty content, are rejected. *)
Theorem push_files_bag_accepted :
  forall args : JsVal,
    fst (Zod.run Validation.PushFilesSchema [] args) = []
    <-> exists props owner repo branch message files,
          args = JObj props
          /\ getProp props (js "owner") = JStr owner /\ owner <> []
          /\ getProp props (js "repo") = JStr repo /\ repo <> []
          /\ getProp props (js "branch") = JStr branch /\ branch <> []
          /\ getProp props (js "message") = JStr message /\ message <> []
          /\ getProp props (js "files") = JArr files /\ files <> []
          /\ Forall (fun file =>
                       exists fields path content,
                         file = JObj fields
                         /\ getProp fields (js "path") = JStr path /\ path <> []
                         /\ getProp fields (js "content") = JStr content
                         /\ content <> []) files.
Proof.
  intros args.
  assert (Hfile : forall path file,
    fst (Zod.run fileSchema path file) = []
    <-> exists fields p c,
          file = JObj fields
          /\ getProp fields (js "path") = JStr p /\ p <> []
          /\ getProp fields (js "content") = JStr c /\ c <> []).
  { intros path file. unfold fileSchema, Zod.object, Validation.field.
    rewrite run_object_accepts. split.
    - intros (fields & -> & Hall).
      inversion Hall as [|? ? Hp Hall1]; subst. inversion Hall1 as [|? ? Hc _]; subst.
      cbn [fst snd] in *.
      apply run_required_accepts in Hp as (p & Hp & Hpne).
      apply run_required_accepts in Hc as (c & Hc & Hcne).
      exists fields, p, c. auto 10.
    - intros (fields & p & c & -> & Hp & Hpne & Hc & Hcne).
      exists fields. split; [reflexivity|].
      repeat constructor; cbn [fst snd]; apply run_required_accepts; eauto. }
  assert (Hfiles : forall path v,
    fst (Zod.run (Zod.ZArray fileSchema (Some (1%nat, js "At least one file is required")))
           path v) = []
    <-> exists files,
          v = JArr files /\ files <> []
          /\ Forall (fun file => exists fields p c,
                       file = JObj fields
                       /\ getProp fields (js "path") = JStr p /\ p <> []
                       /\ getProp fields (js "content") = JStr c /\ c <> []) files).
  { intros path v.
    destruct v as [| | | | |files| |];
      try (cbn [Zod.run fst]; split;
           [discriminate|intros (f & H & _); discriminate H]).
    cbn [Zod.run].
    destruct (Zod.eachItem (fun i => Zod.run fileSchema (path ++ [PIndex i])) files 0)
      as [issues out] eqn:E. cbn [fst].
    pose proof (eachItem_issues
                  (fun i => Zod.run fileSchema (path ++ [PIndex i])) files 0) as Hitems.
    rewrite E in Hitems. cbn [fst] in Hitems. split.
    - intros H. apply app_eq_nil in H as [Hshort ->].
      exists files. split; [reflexivity|]. split.
      + intros ->. cbn in Hshort. discriminate Hshort.
      + apply List.Forall_forall. intros file Hin.
        apply In_nth_error in Hin as (n & Hn).
        apply (Hfile (path ++ [PIndex (0 + n)])).
        exact (proj1 Hitems eq_refl n file Hn).
    - intros (files' & H & Hne & Hall). injection H as <-.
      destruct files as [|file files]; [contradiction|]. cbn [List.length Nat.ltb Nat.leb app].
      apply Hitems. intros n item Hn. apply Hfile.
      rewrite List.Forall_forall in Hall. apply Hall.
      eapply nth_error_In. exact Hn. }
  rewrite PushFilesSchema_shape, run_object_accepts. cbn [app]. split.
  - intros (props & -> & Hall).
    inversion Hall as [|? ? Ho Hall1]; subst. inversion Hall1 as [|? ? Hr Hall2]; subst.
    inversion Hall2 as [|? ? Hb Hall3]; subst. inversion Hall3 as [|? ? Hf Hall4]; subst.
    inversion Hall4 as [|? ? Hm _]; subst. cbn [fst snd] in *.
    apply run_required_accepts in Ho as (owner & Ho & Hone).
    apply run_required_accepts in Hr as (repo & Hr & Hrne).
    apply run_required_accepts in Hb as (branch & Hb & Hbne).
    apply run_required_accepts in Hm as (message & Hm & Hmne).
    apply Hfiles in Hf as (files & Hf & Hfne & Hfall).
    exists props, owner, repo, branch, message, files. auto 15.
  - intros (props & owner & repo & branch & message & files & -> & Ho & Hone & Hr & Hrne
            & Hb & Hbne & Hm & Hmne & Hf & Hfne & Hfall).
    exists props. split; [reflexivity|].
    repeat constructor; cbn [fst snd];
      try (apply run_required_accepts; eauto; fail).
    apply Hfiles. eauto.
Qed.

Lemma classic_tolerated (ev : Octokit.Event) : tolerated ev \/ ~ tolerated ev.
Proof.
  unfold tolerated. destruct (Octokit.ev_error ev) as [e|].
  - destruct (status_404_dec (statusOf e)) as [H|H].
    + left. intros e' He. injection He as <-. exact H.
    + right. intros Hall. apply H. apply Hall. reflexivity.
  - left. intros e H. discriminate H.
Qed.

Section ProbeFacts.
Import Async Octokit GithubApi Files Runs Calls ErrorHandling.
Context {W : Type} (remote : Remote W).

Lemma treeEntryFor_tolerates github owner repo branch (file : FileArg) (st : State W) :
  let o := treeEntryFor remote github owner repo branch file st in
  exists ev,
    trace o = [ev] /\ isContentLookup (ev_call ev) = true
    /\ ((exists e, result o = inl e) <-> ~ tolerated ev).
Proof.
  cbv zeta. unfold treeEntryFor.
  unfold bind at 1. unfold tryCatch, bind, call, ret, throw.
  destruct (respond remote (octokit github)
              (ReposGetContent owner repo (path file) (Some branch)) (world st))
    as [[e|data] w1]; cbn [result final trace fst snd app].
  - destruct (status_404_dec (statusOf e)) as [H404|Hne].
    + rewrite H404. cbn [result final trace app]. eexists. split; [reflexivity|].
      split; [reflexivity|]. unfold tolerated. cbn. split.
      * intros (e' & H). discriminate H.
      * intros H. exfalso. apply H. intros e' He'. injection He' as <-. exact H404.
    + rewrite (match_not_404 _ _ _ Hne). cbn [result final trace app].
      eexists. split; [reflexivity|]. split; [reflexivity|]. unfold tolerated. cbn.
      split; [|eauto]. intros _ H. apply Hne. apply H. reflexivity.
  - eexists. split; [reflexivity|]. split; [reflexivity|]. unfold tolerated. cbn.
    split.
    + intros (e' & H). discriminate H.
    + intros H. exfalso. apply H. intros e' He'. discriminate He'.
Qed.

Lemma settleAll_probes github owner repo branch (files : list FileArg) (st : State W)
    settled st' tl :
  settleAll (List.map (treeEntryFor remote github owner repo branch) files) st
    = mkOutcome (inr settled) st' tl ->
  (firstRejection settled = None <-> Forall tolerated tl).
Proof.
  revert st settled st' tl. induction files as [|file files IH];
    intros st settled st' tl.
  - cbn [List.map settleAll ret]. intros H. injection H as <- _ <-.
    split; [constructor|reflexivity].
  - cbn [List.map settleAll].
    rewrite bind_unfold. unfold settle. cbn [result final trace].
    destruct (treeEntryFor_tolerates github owner repo branch file st)
      as (ev & Ht & _ & Hrej).
    destruct (settleAll_lookups remote github owner repo branch files
                (final (treeEntryFor remote github owner repo branch file st)))
      as (settled0 & st0 & tl0 & Hs & _).
    rewrite bind_unfold, Hs. cbn [result final trace ret app].
    intros H. injection H as <- _ <-.
    rewrite Ht, app_nil_r. cbn [app firstRejection].
    specialize (IH _ _ _ _ Hs).
    destruct (result (treeEntryFor remote github owner repo branch file st))
      as [e|entry].
    + split; [discriminate|]. intros Hall. inversion Hall as [|? ? Hev _]; subst.
      exfalso. apply (proj1 Hrej); [eauto|exact Hev].
    + rewrite IH. split.
      * intros Hall. constructor; [|exact Hall].
        destruct (classic_tolerated ev) as [Hy|Hn]; [exact Hy|].
        apply Hrej in Hn as (e & He). discriminate He.
      * intros Hall. inversion Hall; assumption.
Qed.

End ProbeFacts.

Lemma lookupsOf_app (l1 l2 : list Octokit.Event) :
  lookupsOf (l1 ++ l2) = lookupsOf l1 ++ lookupsOf l2.
Proof. unfold lookupsOf. rewrite List.map_app, List.filter_app. reflexivity. Qed.

Lemma lookupsOf_none (l : list Octokit.Event) :
  Forall (fun ev => Runs.isContentLookup (Octokit.ev_call ev) = false) l ->
  lookupsOf l = [].
Proof.
  unfold lookupsOf. induction 1 as [|ev l Hev _ IH]; [reflexivity|].
  cbn [List.map List.filter]. rewrite Hev. exact IH.
Qed.

Lemma lookupsOf_all (l : list Octokit.Event) :
  Forall (fun ev => Runs.isContentLookup (Octokit.ev_call ev) = true) l ->
  lookupsOf l = List.map Octokit.ev_call l.
Proof.
  unfold lookupsOf. induction 1 as [|ev l Hev _ IH]; [reflexivity|].
  cbn [List.map List.filter]. rewrite Hev, IH. reflexivity.
Qed.

Lemma lookupsOf_In (l : list Octokit.Event) (ev : Octokit.Event) :
  In ev l -> Runs.isContentLookup (Octokit.ev_call ev) = true ->
  In (Octokit.ev_call ev) (lookupsOf l).
Proof.
  intros Hin Hl. unfold lookupsOf. apply filter_In. split; [|exact Hl].
  apply in_map. exact Hin.
Qed.

Section ProbeTheorem.
Import Async Octokit GithubApi Files Runs Calls ErrorHandling.
Context {W : Type} (remote : Remote W) (env : Env) (stringify : JsVal -> JsString).

Lemma ensure_trace_quiet github owner repo branch (st : State W) (o : Outcome W bool) :
  EnsureRun remote github owner repo branch st o ->
  Forall (fun ev => isContentLookup (ev_call ev) = false) (trace o)
  /\ Forall (fun ev => isWrite (ev_call ev) = false) (trace o).
Proof. intros H; destruct H; cbn [trace]; split; repeat constructor. Qed.

(** The probes of an engine run. *)
Lemma pushRun_probes github owner repo branch files message
    (st : State W) (o : Outcome W JsVal) :
  PushRun remote github owner repo branch files message st o ->
  (lookupsOf (trace o) = []
   /\ Forall (fun ev => isWrite (ev_call ev) = false) (trace o)
   /\ forall r, result o <> inr r)
  \/ exists before probes writes,
       trace o = before ++ probes ++ writes
       /\ Forall (fun ev => isContentLookup (ev_call ev) = false) before
       /\ Forall (fun ev => isWrite (ev_call ev) = false) before
       /\ Forall (fun ev => isContentLookup (ev_call ev) = true) probes
       /\ List.map ev_call probes = List.map (contentLookup owner repo branch) files
       /\ Forall (fun ev => isContentLookup (ev_call ev) = false) writes
       /\ ((~ Forall tolerated probes /\ writes = [] /\ forall r, result o <> inr r)
           \/ (Forall tolerated probes
               /\ forall ev o' r' base entries,
                    In ev writes -> ev_call ev = GitCreateTree o' r' base entries ->
                    entries = List.map (entryOf) files)).
Proof.
  intros Hrun.
  destruct Hrun as
    [ e' st1 t He
    | existed st1 t e' w2 He E1
    | existed st1 t refData w2 e' w3 He E1 E2
    | existed st1 t refData w2 commitData w3 settled st4 tl e' He E1 E2 Hs Hrej
    | existed st1 t refData w2 commitData w3 settled st4 tl e' w5 He E1 E2 Hs Hrej E3
    | existed st1 t refData w2 commitData w3 settled st4 tl newTree w5 e' w6
        He E1 E2 Hs Hrej E3 E4
    | existed st1 t refData w2 commitData w3 settled st4 tl newTree w5 newCommit w6
        e' w7 He E1 E2 Hs Hrej E3 E4 E5
    | existed st1 t refData w2 commitData w3 settled st4 tl newTree w5 newCommit w6
        updated w7 He E1 E2 Hs Hrej E3 E4 E5 ];
    cbn [trace result];
    pose proof (ensureBranch_run remote github owner repo branch st) as Hens;
    rewrite He in Hens;
    apply ensure_trace_quiet in Hens as [Hq Hw]; cbn [trace] in Hq, Hw;
    try (pose proof (settleAll_probes remote _ _ _ _ _ _ _ _ _ Hs) as Htol;
         pose proof (lookups_are_content_lookups remote _ _ _ _ _ _ _ _ _ Hs) as Hlook;
         destruct (settleAll_lookups remote github owner repo branch files
                     (after w3 st1)) as (settled' & st' & tl' & Hs' & _ & Hcalls & Hful);
         rewrite Hs in Hs'; injection Hs' as <- <- <-).
  - left. split; [apply lookupsOf_none; exact Hq|]. split; [exact Hw|discriminate].
  - left. split; [|split; [|discriminate]].
    + apply lookupsOf_none. apply Forall_app_2; [exact Hq|repeat constructor].
    + apply Forall_app_2; [exact Hw|repeat constructor].
  - left. split; [|split; [|discriminate]].
    + apply lookupsOf_none. apply Forall_app_2; [exact Hq|repeat constructor].
    + apply Forall_app_2; [exact Hw|repeat constructor].
  - right.
    exists (t ++ [exchange github (lookupRef owner repo branch) (inr refData);
                  exchange github (GitGetCommit owner repo (object_sha refData))
                    (inr commitData)]), tl, [].
    split; [rewrite app_nil_r, <- app_assoc; reflexivity|].
    split; [apply Forall_app_2; [exact Hq|repeat constructor]|].
    split; [apply Forall_app_2; [exact Hw|repeat constructor]|].
    split; [exact Hlook|]. split; [exact Hcalls|]. split; [constructor|].
    left. split; [|split; [reflexivity|discriminate]].
    intros Hall. apply Htol in Hall. congruence.
  - right.
    exists (t ++ [exchange github (lookupRef owner repo branch) (inr refData);
                  exchange github (GitGetCommit owner repo (object_sha refData))
                    (inr commitData)]), tl,
      [exchange github (GitCreateTree owner repo (tree_sha commitData)
                          (fulfilled settled)) (inl e')].
    split; [rewrite <- !app_assoc; reflexivity|].
    split; [apply Forall_app_2; [exact Hq|repeat constructor]|].
    split; [apply Forall_app_2; [exact Hw|repeat constructor]|].
    split; [exact Hlook|]. split; [exact Hcalls|]. split; [repeat constructor|].
    right. split; [apply Htol; exact Hrej|].
    intros ev o' r' base entries Hin Hcall. cbn [In] in Hin.
    destruct Hin as [<-|[]]. cbn in Hcall. injection Hcall as _ _ _ <-.
    exact (Hful Hrej).
  - right.
    exists (t ++ [exchange github (lookupRef owner repo branch) (inr refData);
                  exchange github (GitGetCommit owner repo (object_sha refData))
                    (inr commitData)]), tl,
      [exchange github (GitCreateTree owner repo (tree_sha commitData)
                          (fulfilled settled)) (inr newTree);
       exchange github (GitCreateCommit owner repo message (sha newTree)
                          [object_sha refData]) (inl e')].
    split; [rewrite <- !app_assoc; reflexivity|].
    split; [apply Forall_app_2; [exact Hq|repeat constructor]|].
    split; [apply Forall_app_2; [exact Hw|repeat constructor]|].
    split; [exact Hlook|]. split; [exact Hcalls|]. split; [repeat constructor|].
    right. split; [apply Htol; exact Hrej|].
    intros ev o' r' base entries Hin Hcall. cbn [In] in Hin.
    destruct Hin as [<-|[<-|[]]]; cbn in Hcall; [|discriminate Hcall].
    injection Hcall as _ _ _ <-. exact (Hful Hrej).
  - right.
    exists (t ++ [exchange github (lookupRef owner repo branch) (inr refData);
                  exchange github (GitGetCommit owner repo (object_sha refData))
                    (inr commitData)]), tl,
      [exchange github (GitCreateTree owner repo (tree_sha commitData)
                          (fulfilled settled)) (inr newTree);
       exchange github (GitCreateCommit owner repo message (sha newTree)
                          [object_sha refData]) (inr newCommit);
       exchange github (GitUpdateRef owner repo (js "heads/" ++ branch)
                          (sha newCommit)) (inl e')].
    split; [rewrite <- !app_assoc; reflexivity|].
    split; [apply Forall_app_2; [exact Hq|repeat constructor]|].
    split; [apply Forall_app_2; [exact Hw|repeat constructor]|].
    split; [exact Hlook|]. split; [exact Hcalls|]. split; [repeat constructor|].
    right. split; [apply Htol; exact Hrej|].
    intros ev o' r' base entries Hin Hcall. cbn [In] in Hin.
    destruct Hin as [<-|[<-|[<-|[]]]]; cbn in Hcall; try discriminate Hcall.
    injection Hcall as _ _ _ <-. exact (Hful Hrej).
  - right.
    exists (t ++ [exchange github (lookupRef owner repo branch) (inr refData);
                  exchange github (GitGetCommit owner repo (object_sha refData))
                    (inr commitData)]), tl,
      [exchange github (GitCreateTree owner repo (tree_sha commitData)
                          (fulfilled settled)) (inr newTree);
       exchange github (GitCreateCommit owner repo message (sha newTree)
                          [object_sha refData]) (inr newCommit);
       exchange github (GitUpdateRef owner repo (js "heads/" ++ branch)
                          (sha newCommit)) (inr updated)].
    split; [rewrite <- !app_assoc; reflexivity|].
    split; [apply Forall_app_2; [exact Hq|repeat constructor]|].
    split; [apply Forall_app_2; [exact Hw|repeat constructor]|].
    split; [exact Hlook|]. split; [exact Hcalls|]. split; [repeat constructor|].
    right. split; [apply Htol; exact Hrej|].
    intros ev o' r' base entries Hin Hcall. cbn [In] in Hin.
    destruct Hin as [<-|[<-|[<-|[]]]]; cbn in Hcall; try discriminate Hcall.
    injection Hcall as _ _ _ <-. exact (Hful Hrej).
Qed.

(** X27: the probes of [pushFiles].  A run that probes a file probes every
    file of the bag once, in the order of the bag, files after a failed
    probe included.  When a probe fails with a status other than 404 the
    run returns no result and writes nothing: no tree, no commit, no ref
    update.  And a tree the run creates has one entry per file of the
    bag, in order: a regular file (mode 100644, type blob) with the
    file's path and its content as given. *)
Theorem push_files_probes_every_file :
  forall (args : JsVal) (st : State W),
    let o := pushFiles remote env stringify args st in
    let owner := asString (prop args "owner") in
    let repo := asString (prop args "repo") in
    let branch := asString (prop args "branch") in
    let files := List.map asFile (asArray (prop args "files")) in
    (forall ev, In ev (trace o) -> isContentLookup (ev_call ev) = true ->
       lookupsOf (trace o) = List.map (contentLookup owner repo branch) files)
    /\ (forall ev e, In ev (trace o) -> isContentLookup (ev_call ev) = true ->
          ev_error ev = Some e -> statusOf e <> Some 404 ->
          Forall (fun ev' => isWrite (ev_call ev') = false) (trace o)
          /\ forall r, result o <> inr r)
    /\ (forall ev o' r' base entries,
          In ev (trace o) -> ev_call ev = GitCreateTree o' r' base entries ->
          entries = List.map entryOf files
          /\ lookupsOf (trace o) = List.map (contentLookup owner repo branch) files).
Proof.
  intros args st. cbv zeta.
  destruct (pushFiles_trace remote env stringify args st)
    as [[Ht Hr]|(github & st0 & body & Hrun & Ht & Hr)].
  - rewrite Ht. repeat split; intros; contradiction.
  - rewrite Ht.
    assert (Hres : forall r, result body <> inr r ->
                   result (pushFiles remote env stringify args st) <> inr r).
    { intros r Hb. rewrite Hr. destruct (result body) as [e|r']; [discriminate|].
      intros H. injection H as ->. apply Hb. reflexivity. }
    destruct (pushRun_probes _ _ _ _ _ _ _ _ Hrun)
      as [(Hnone & Hnow & Hno)
         |(before & probes & writes & Htrace & Hbq & Hbw & Hpl & Hpc & Hwq & Hcase)].
    + split; [|split].
      * intros ev Hin Hl. pose proof (lookupsOf_In _ _ Hin Hl) as H.
        rewrite Hnone in H. contradiction.
      * intros ev e Hin Hl _ _. pose proof (lookupsOf_In _ _ Hin Hl) as H.
        rewrite Hnone in H. contradiction.
      * intros ev o' r' base entries Hin Hcall. exfalso.
        rewrite List.Forall_forall in Hnow. specialize (Hnow ev Hin).
        rewrite Hcall in Hnow. discriminate Hnow.
    + assert (Hall : lookupsOf (trace body)
                     = List.map
                         (contentLookup (asString (prop args "owner"))
                            (asString (prop args "repo"))
                            (asString (prop args "branch")))
                         (List.map asFile (asArray (prop args "files")))).
      { rewrite Htrace, !lookupsOf_app, (lookupsOf_none before Hbq),
          (lookupsOf_none writes Hwq), (lookupsOf_all probes Hpl), app_nil_r.
        exact Hpc. }
      assert (Hpw : Forall (fun ev => isWrite (ev_call ev) = false) probes).
      { eapply Forall_impl; [exact Hpl|]. intros ev. cbn beta.
        destruct (ev_call ev); cbn; congruence. }
      split; [intros; exact Hall|]. split.
      * intros ev e Hin Hl Herr Hstatus.
        assert (Hinp : In ev probes).
        { rewrite Htrace in Hin. apply in_app_or in Hin as [Hin|Hin].
          - rewrite List.Forall_forall in Hbq. rewrite (Hbq ev Hin) in Hl. discriminate Hl.
          - apply in_app_or in Hin as [Hin|Hin]; [exact Hin|].
            rewrite List.Forall_forall in Hwq. rewrite (Hwq ev Hin) in Hl.
            discriminate Hl. }
        destruct Hcase as [(_ & -> & Hno)|(Htol & _)].
        -- split; [|intros r; apply Hres, Hno].
           rewrite Htrace, app_nil_r. apply Forall_app_2; assumption.
        -- exfalso. rewrite List.Forall_forall in Htol.
           apply Hstatus. exact (Htol ev Hinp e Herr).
      * intros ev o' r' base entries Hin Hcall. split; [|exact Hall].
        assert (Hinw : In ev writes).
        { rewrite Htrace in Hin. apply in_app_or in Hin as [Hin|Hin].
          - rewrite List.Forall_forall in Hbw. specialize (Hbw ev Hin).
            rewrite Hcall in Hbw. discriminate Hbw.
          - apply in_app_or in Hin as [Hin|Hin]; [|exact Hin].
            rewrite List.Forall_forall in Hpw. specialize (Hpw ev Hin).
            rewrite Hcall in Hpw. discriminate Hpw. }
        destruct Hcase as [(_ & -> & _)|(_ & Hentries)]; [contradiction|].
        exact (Hentries ev o' r' base entries Hinw Hcall).
Qed.

End ProbeTheorem.

Lemma push_files_probes_every_file_witness :
  let o := Files.pushFiles InMemory.remote InMemory.env InMemory.stringify
             InMemory.pushBag InMemory.start in
  lookupsOf (Async.trace o)
  = [Octokit.ReposGetContent (js "acme") (js "widgets") (js "a.txt") (Some (js "main"));
     Octokit.ReposGetContent (js "acme") (js "widgets") (js "b.txt") (Some (js "main"))].
Proof.
  cbv zeta.
  rewrite (proj1 (push_files_probes_every_file InMemory.remote InMemory.env
                    InMemory.stringify InMemory.pushBag InMemory.start)
             (Octokit.mkEvent (Octokit.mkClient (js "token") None)
                (Octokit.ReposGetContent (js "acme") (js "widgets") (js "a.txt")
                   (Some (js "main")))
                (inl InMemory.notFound))
             ltac:(vm_compute; auto 10) eq_refl).
  reflexivity.
Defined.

Lemma descriptors_name_the_schema_fields_witness :
  exists d,
    ToolList.descriptorOf (js "create-repository") = Some d
    /\ ToolList.tool_required d = Parsing.requiredOf Validation.CreateRepositorySchema
    /\ incl (ToolList.tool_properties d) (Parsing.keysOf Validation.CreateRepositorySchema)
    /\ incl (Parsing.keysOf Validation.CreateRepositorySchema)
         (ToolList.tool_properties d ++ [js "org"]).
Proof.
  apply (descriptors_name_the_schema_fields (js "create-repository")
           Validation.CreateRepositorySchema).
  unfold Parsing.schemaOf. cbn [In]. right. left. reflexivity.
Defined.

Lemma getFileContents_result_witness :
  let r := match Async.result FileStore.readBack with
           | inr r => r
           | inl _ => JUndefined
           end in
  prop r "encoding" = JStr (js "base64")
  /\ exists github data,
       Async.trace FileStore.readBack
       = [Runs.exchange github
            (Octokit.ReposGetContent (js "acme") (js "widgets") (js "notes.txt")
               (Some (js "main")))
            (inr data)].
Proof.
  cbv zeta. split; [vm_compute; reflexivity|].
  destruct (getFileContents_result FileStore.remote InMemory.env InMemory.stringify
              FileStore.readBag (Async.final FileStore.written)
              (match Async.result FileStore.readBack with
               | inr r => r
               | inl _ => JUndefined
               end)
              ltac:(vm_compute; reflexivity))
    as (github & data & Htrace & _).
  exists github, data. exact Htrace.
Defined.

Lemma getEnterpriseStats_outcomes_witness :
  let github :=
    mkGitHubApi
      (Octokit.mkClient (js "token") (Some (js "https://ghe.example.com/api/v3")))
      (Some (js "https://ghe.example.com/api/v3")) in
  let o := Tools.getEnterpriseStats InMemory.remote InMemory.enterpriseEnv
             InMemory.start in
  exists answer,
    Async.trace o
    = [Runs.exchange github (Octokit.Request (js "GET /enterprise/stats/all")) answer]
    /\ Async.result o
       = inr match answer with
             | inr data => data
             | inl _ =>
                 JObj [(js "message",
                        JStr (js "Enterprise stats not available or insufficient permissions"));
                       (js "api_url", JStr (js "https://ghe.example.com/api/v3"))]
             end.
Proof.
  cbv zeta.
  apply (proj2 (getEnterpriseStats_outcomes InMemory.remote InMemory.enterpriseEnv
                  InMemory.start _ eq_refl)
           (js "https://ghe.example.com/api/v3") eq_refl).
  discriminate.
Defined.

Lemma getPullRequestFiles_siblings_witness :
  let bag := JObj [(js "owner", JStr (js "acme")); (js "repo", JStr (js "widgets"));
                   (js "pull_number", JNum 7); (js "page", JNum 2)] in
  PullRequests.getPullRequestFiles InMemory.remote InMemory.env InMemory.stringify bag
    InMemory.start
  = Files.getPullRequestFiles InMemory.remote InMemory.env bag InMemory.start.
Proof.
  cbv zeta.
  eapply (proj1 (getPullRequestFiles_siblings InMemory.remote InMemory.env
                   InMemory.stringify _ InMemory.start)).
  vm_compute. reflexivity.
Defined.
